(** * Timeline events search hook ([useTimelineEventsHandler])

    A shallow embedding of the request-derivation effect, [timelineSearch],
    its handler, the cache-resume branch and the stream callbacks of the
    timeline events hook.

    The React state cells and refs of one hook instance, the [activeTimeline]
    page-scoped cache and the collaborators' side (abort controllers, search
    subscriptions, the calls received) form a [World], and every function of
    the hook is a function from worlds to worlds.  State setters take effect
    in program order.  An effect or callback reads the state cells as they
    are when it runs, which is what the closures of the latest render hold;
    a run lists the effects and callbacks in the order in which they act on
    the state, so an effect whose state update is only visible to the next
    render comes after the callbacks of the current one.

    [fast-deep-equal] and lodash [isEmpty] are modelled on a type of JSON
    values; the helpers and constants the file imports from elsewhere are the
    fields of [Externals.t].

    The modules [EnableRoute], [Agentless] and [UsageMetrics] model the
    handler of the legacy enable route, the hooks [useAgentless] and
    [useSetupTechnology], and the options [useGetDataUsageMetrics] gives to
    [useQuery]. *)

From Stdlib Require Import ZArith List String Bool Lia.
Import ListNotations.
Open Scope string_scope.
Open Scope Z_scope.
Open Scope list_scope.

Set Implicit Arguments.
Set Warnings "-register-all".

(* ------------------------------------------------------------------ *)
(** ** JavaScript values *)

(** The JSON-like values the hook passes around and compares.  An object is
    the list of its own enumerable properties (keys are unique, as in JS). *)
Inductive value : Type :=
| VUndefined
| VNull
| VBool (b : bool)
| VNum (n : Z)
| VStr (s : string)
| VArr (xs : list value)
| VObj (props : list (string * value)).

(** [o[k]] for an own property; [None] when [k] is not an own key. *)
Fixpoint getOwn (k : string) (props : list (string * value)) : option value :=
  match props with
  | [] => None
  | (k', v) :: rest => if String.eqb k k' then Some v else getOwn k rest
  end.

(** [fast-deep-equal]: primitives by [===]; arrays by length and then
    element-wise; plain objects by number of keys, then every key of [a] must
    be an own key of [b] with a deep-equal value. *)
Fixpoint deepEqual (a b : value) {struct a} : bool :=
  match a, b with
  | VUndefined, VUndefined => true
  | VNull, VNull => true
  | VBool x, VBool y => Bool.eqb x y
  | VNum x, VNum y => Z.eqb x y
  | VStr x, VStr y => String.eqb x y
  | VArr xs, VArr ys =>
      (fix elems (l1 l2 : list value) {struct l1} : bool :=
         match l1, l2 with
         | [], [] => true
         | x :: l1', y :: l2' => deepEqual x y && elems l1' l2'
         | _, _ => false
         end) xs ys
  | VObj pa, VObj pb =>
      Nat.eqb (List.length pa) (List.length pb) &&
      (fix keys (l : list (string * value)) {struct l} : bool :=
         match l with
         | [] => true
         | (k, v) :: l' =>
             match getOwn k pb with
             | Some w => deepEqual v w
             | None => false
             end && keys l'
         end) pa
  | _, _ => false
  end.

(** lodash [isEmpty]: [true] for [null]/[undefined], for a string or array of
    length 0, for an object without own keys, and for every number and
    boolean (they are not collections). *)
Definition isEmpty (v : value) : bool :=
  match v with
  | VUndefined | VNull => true
  | VBool _ | VNum _ => true
  | VStr s => Nat.eqb (String.length s) 0
  | VArr xs => Nat.eqb (List.length xs) 0
  | VObj props => Nat.eqb (List.length props) 0
  end.

(** A value is well formed when no object in it has a key twice. *)
Fixpoint wellFormed (v : value) : bool :=
  match v with
  | VArr xs =>
      (fix elems (l : list value) {struct l} : bool :=
         match l with
         | [] => true
         | x :: l' => wellFormed x && elems l'
         end) xs
  | VObj props =>
      (fix members (l : list (string * value)) {struct l} : bool :=
         match l with
         | [] => true
         | (k, x) :: l' =>
             negb (existsb (fun p => String.eqb k (fst p)) l') && wellFormed x && members l'
         end) props
  | _ => true
  end.

(** [v == null] *)
Definition isNullish (v : value) : bool :=
  match v with
  | VUndefined | VNull => true
  | _ => false
  end.

(** Induction on values with the hypothesis for the members of arrays and
    objects. *)
Section ValueInduction.

Variable P : value -> Prop.
Hypothesis Hundefined : P VUndefined.
Hypothesis Hnull : P VNull.
Hypothesis Hbool : forall b, P (VBool b).
Hypothesis Hnum : forall n, P (VNum n).
Hypothesis Hstr : forall s, P (VStr s).
Hypothesis Harr : forall xs, Forall P xs -> P (VArr xs).
Hypothesis Hobj : forall props, Forall (fun p => P (snd p)) props -> P (VObj props).

Fixpoint value_members_ind (v : value) : P v :=
  match v with
  | VUndefined => Hundefined
  | VNull => Hnull
  | VBool b => Hbool b
  | VNum n => Hnum n
  | VStr s => Hstr s
  | VArr xs =>
      Harr ((fix elems (l : list value) : Forall P l :=
               match l with
               | [] => Forall_nil P
               | x :: l' => Forall_cons x (value_members_ind x) (elems l')
               end) xs)
  | VObj props =>
      Hobj ((fix members (l : list (string * value)) : Forall (fun p => P (snd p)) l :=
               match l with
               | [] => Forall_nil _
               | p :: l' => Forall_cons p (value_members_ind (snd p)) (members l')
               end) props)
  end.

End ValueInduction.

(** A [string[]] as a value. *)
Definition strings (l : list string) : value := VArr (map VStr l).

(** [a ?? b] *)
Definition nullish (a b : value) : value :=
  match a with
  | VUndefined | VNull => b
  | _ => a
  end.

(** [arr.includes(x)] on a [string[]]. *)
Definition includes (l : list string) (x : string) : bool :=
  existsb (String.eqb x) l.

(* ------------------------------------------------------------------ *)
(** ** Data model *)

(** [KueryFilterQueryKind]: the three dialects of the conditional types
    [TimelineRequest<T>] and [TimelineResponse<T>]. *)
Inductive KueryFilterQueryKind : Type := kuery | lucene | eql.

Definition kindName (l : KueryFilterQueryKind) : string :=
  match l with
  | kuery => "kuery"
  | lucene => "lucene"
  | eql => "eql"
  end.

Definition isEql (l : KueryFilterQueryKind) : bool :=
  match l with
  | eql => true
  | _ => false
  end.

(** [timerangeKind?: 'absolute' | 'relative'] *)
Inductive TimerangeKind : Type := absolute | relative.

(** [DataLoadingState] of the unified data table. *)
Inductive DataLoadingState : Type := loading | loadingMore | loaded.

(** [Pick<PaginationInputPaginated, 'activePage' | 'querySize'>] *)
Module Pagination.
Record t : Type := mk { activePage : Z; querySize : Z }.
Definition toValue (p : t) : value :=
    VObj [("activePage", VNum (activePage p)); ("querySize", VNum (querySize p))].
End Pagination.

(** [{ interval: '12h', from: startDate, to: endDate }] *)
Module Timerange.
Record t : Type := mk { interval : string; from : string; to : string }.
Definition toValue (r : t) : value :=
    VObj [("interval", VStr (interval r)); ("from", VStr (from r)); ("to", VStr (to r))].
End Timerange.

(** An optional property of an object literal: present when [Some]. *)
Definition optProp (k : string) (o : option value) : list (string * value) :=
  match o with
  | Some v => [(k, v)]
  | None => []
  end.

(** [o?.k]: [undefined] when the property is absent. *)
Definition optGet (o : option value) : value :=
  match o with
  | Some v => v
  | None => VUndefined
  end.

(** [EqlOptions], with the members [deStructureEqlOptions] reads.  A member
    is [None] when the object has no such key. *)
Module EqlOptions.
Record t : Type := mk {
    eventCategoryField : option value;
    size : option value;
    tiebreakerField : option value;
    timestampField : option value
  }.
Definition none : t := mk None None None None.
  (** The own properties, as [...eqlOptions] copies them. *)
Definition props (e : t) : list (string * value) :=
    optProp "eventCategoryField" (eventCategoryField e) ++
    optProp "size" (size e) ++
    optProp "tiebreakerField" (tiebreakerField e) ++
    optProp "timestampField" (timestampField e).
End EqlOptions.

(** [TimelineRequest<typeof language>]: the object literal [currentRequest]
    of the request-derivation effect.  [timerange] and the EQL members are
    the conditionally spread keys. *)
Module Request.
Record t : Type := mk {
    defaultIndex : list string;
    factoryQueryType : string;
    fieldRequested : list string;
    fields : list string;
    filterQuery : value;
    pagination : Pagination.t;
    language : KueryFilterQueryKind;
    runtimeMappings : value;
    sort : value;
    timerange : option Timerange.t;
    eqlProps : EqlOptions.t
  }.

  (** The request as the JS object [deepEqual] sees. *)
Definition toValue (r : t) : value :=
    VObj ([ ("defaultIndex", strings (defaultIndex r));
            ("factoryQueryType", VStr (factoryQueryType r));
            ("fieldRequested", strings (fieldRequested r));
            ("fields", strings (fields r));
            ("filterQuery", filterQuery r);
            ("pagination", Pagination.toValue (pagination r));
            ("language", VStr (kindName (language r)));
            ("runtimeMappings", runtimeMappings r);
            ("sort", sort r) ]
          ++ optProp "timerange" (option_map Timerange.toValue (timerange r))
          ++ EqlOptions.props (eqlProps r)).

  (** [TimelineRequest | null] as a value. *)
Definition optToValue (o : option t) : value :=
    match o with
    | Some r => toValue r
    | None => VNull
    end.
End Request.

(** [InspectResponse] *)
Module Inspect.
Record t : Type := mk { dsl : list string; response : list string }.
End Inspect.

(** The two callbacks a [TimelineArgs] carries.  Both are [useCallback]
    closures whose only changing dependency is the timeline [id]. *)
Inductive Callback : Type :=
| refetchGrid_cb (id : string)
| wrappedLoadPage_cb (id : string).

(** [TimelineArgs] *)
Module TimelineArgs.
Record t : Type := mk {
    events : list value;
    id : string;
    inspect : Inspect.t;
    loadPage : Callback;
    pageInfo : Pagination.t;
    refetch : Callback;
    totalCount : Z;
    refreshedAt : Z
  }.
End TimelineArgs.

(** [TimelineEdges]: the hook reads [node] only. *)
Module TimelineEdges.
Record t : Type := mk { node : value; cursor : value }.
End TimelineEdges.

(** [TimelineResponse<typeof language>], as far as the [next] callback reads
    it; [raw] stands for the rest of the search response. *)
Module StrategyResponse.
Record t : Type := mk {
    edges : list TimelineEdges.t;
    pageInfo : Pagination.t;
    totalCount : Z;
    raw : value
  }.
End StrategyResponse.

(** [UseTimelineEventsProps].  Optional members are [option]s; the defaults
    of the destructuring pattern are applied by [Env.ofProps]. *)
Module Props.
Record t : Type := mk {
    dataViewId : option string;
    endDate : option string;
    eqlOptions : option EqlOptions.t;
    fields : list string;
    filterQuery : value;
    id : option string;
    indexNames : list string;
    language : option KueryFilterQueryKind;
    limit : Z;
    runtimeMappings : value;
    skip : option bool;
    sort : option value;
    startDate : option string;
    timerangeKind : option TimerangeKind
  }.
End Props.

(** What lives outside the hook's file: helper functions and constants it
    imports.  The hook is modelled over any implementation of them. *)
Module Externals.
Record t : Type := mk {
    (** [createFilter] of [common/containers/helpers] *)
    createFilter : value -> value;
    (** [getInspectResponse] of [helpers] *)
    getInspectResponse : StrategyResponse.t -> Inspect.t -> Inspect.t;
    (** [isRunningResponse] of the data plugin *)
    isRunningResponse : StrategyResponse.t -> bool;
    (** [TimelineId.active] *)
    TimelineId_active : string;
    (** [detectionsTimelineIds] *)
    detectionsTimelineIds : list string;
    (** [TimelineEventsQueries.all] *)
    TimelineEventsQueries_all : string;
    (** [Direction.asc] *)
    Direction_asc : string;
    (** [APP_UI_ID] *)
    APP_UI_ID : string
  }.
End Externals.

(** [const ID = 'timelineEventsQuery'] *)
Definition ID : string := "timelineEventsQuery".

(** [initSortDefault] *)
Definition initSortDefault (X : Externals.t) : value :=
  VArr [ VObj [ ("field", VStr "@timestamp");
                ("direction", VStr (Externals.Direction_asc X));
                ("type", VStr "date");
                ("esTypes", VArr [VStr "date"]) ] ].

Definition withDefault {A : Type} (d : A) (o : option A) : A :=
  match o with
  | Some a => a
  | None => d
  end.

(** The hook's parameters after destructuring (with the defaults
    [eqlOptions = undefined], [id = ID], [language = 'kuery'],
    [sort = initSortDefault], [skip = false]) and the [pageName] that
    [useRouteSpy] returns: what one render's closures see. *)
Module Env.
Record t : Type := mk {
  dataViewId : option string;
  endDate : option string;
  eqlOptions : option EqlOptions.t;
  fields : list string;
  filterQuery : value;
  id : string;
  indexNames : list string;
  language : KueryFilterQueryKind;
  limit : Z;
  runtimeMappings : value;
  skip : bool;
  sort : value;
  startDate : option string;
  timerangeKind : option TimerangeKind;
  pageName : string
}.
Definition ofProps (X : Externals.t) (p : Props.t) (route : string) : t :=
  mk (Props.dataViewId p) (Props.endDate p) (Props.eqlOptions p) (Props.fields p)
     (Props.filterQuery p) (withDefault ID (Props.id p)) (Props.indexNames p)
     (withDefault kuery (Props.language p)) (Props.limit p)
     (Props.runtimeMappings p) (withDefault false (Props.skip p))
     (withDefault (initSortDefault X) (Props.sort p)) (Props.startDate p)
     (Props.timerangeKind p) route.
End Env.

(** The closure [asyncSearch] of one call of [timelineSearch]: the [request]
    and [onNextHandler] arguments and the variables of the enclosing
    [useCallback] that the body and the subscriber callbacks read. *)
Module AsyncSearch.
Record t : Type := mk {
  request : Request.t;
  onNextHandler : option nat;
  activePage : Z;
  pageName : string;
  id : string;
  dataViewId : option string
}.
End AsyncSearch.

(** What the hook does to its collaborators, in program order. *)
Inductive Effect : Type :=
| StartTracking (name : string)
| EndTracking (status : string)
| Search (request : Request.t) (strategy : string) (abortSignal : nat)
         (indexPatternId : option string) (subscription : nat)
| Unsubscribe (subscription : nat)
| Abort (controller : nat)
| ShowError (msg : string)
| OnNext (handler : nat) (response : TimelineArgs.t)
| Dispatch (action : string) (id : string).

(** The state cells ([useState]) and refs ([useRef]) of one hook instance.
    Abort controllers and subscriptions are named by numbers; [refetch] is
    [None] while it still holds [noop]. *)
Module Hook.
Record t : Type := mk {
  refetch : option AsyncSearch.t;
  abortCtrl : nat;
  searchSubscription : nat;
  loading : DataLoadingState;
  activePage : Z;
  timelineRequest : option Request.t;
  prevTimelineRequest : option Request.t;
  timelineResponse : TimelineArgs.t
}.
Definition set_refetch (v : option AsyncSearch.t) (h : t) : t :=
  mk v (abortCtrl h) (searchSubscription h) (loading h) (activePage h)
     (timelineRequest h) (prevTimelineRequest h) (timelineResponse h).
Definition set_abortCtrl (v : nat) (h : t) : t :=
  mk (refetch h) v (searchSubscription h) (loading h) (activePage h)
     (timelineRequest h) (prevTimelineRequest h) (timelineResponse h).
Definition set_searchSubscription (v : nat) (h : t) : t :=
  mk (refetch h) (abortCtrl h) v (loading h) (activePage h)
     (timelineRequest h) (prevTimelineRequest h) (timelineResponse h).
Definition set_loading (v : DataLoadingState) (h : t) : t :=
  mk (refetch h) (abortCtrl h) (searchSubscription h) v (activePage h)
     (timelineRequest h) (prevTimelineRequest h) (timelineResponse h).
Definition set_activePage (v : Z) (h : t) : t :=
  mk (refetch h) (abortCtrl h) (searchSubscription h) (loading h) v
     (timelineRequest h) (prevTimelineRequest h) (timelineResponse h).
Definition set_timelineRequest (v : option Request.t) (h : t) : t :=
  mk (refetch h) (abortCtrl h) (searchSubscription h) (loading h) (activePage h)
     v (prevTimelineRequest h) (timelineResponse h).
Definition set_prevTimelineRequest (v : option Request.t) (h : t) : t :=
  mk (refetch h) (abortCtrl h) (searchSubscription h) (loading h) (activePage h)
     (timelineRequest h) v (timelineResponse h).
Definition set_timelineResponse (v : TimelineArgs.t) (h : t) : t :=
  mk (refetch h) (abortCtrl h) (searchSubscription h) (loading h) (activePage h)
     (timelineRequest h) (prevTimelineRequest h) v.
End Hook.

(** Modelled from the spec: the page-scoped cache [activeTimeline] of
    [active_timeline_context], whose class is not part of these sources.  It
    is one shared object with synchronous accessors [getActivePage] /
    [setActivePage], [getPageName] / [setPageName], [getRequest] /
    [setRequest], [getResponse] / [setResponse] and the EQL variants; a
    getter returns what the matching setter stored last. *)
Module ActiveTimeline.
Record t : Type := mk {
  getActivePage : Z;
  getPageName : string;
  getRequest : option Request.t;
  getResponse : option TimelineArgs.t;
  getEqlRequest : option Request.t;
  getEqlResponse : option TimelineArgs.t
}.
Definition setActivePage (v : Z) (c : t) : t :=
  mk v (getPageName c) (getRequest c) (getResponse c) (getEqlRequest c) (getEqlResponse c).
Definition setPageName (v : string) (c : t) : t :=
  mk (getActivePage c) v (getRequest c) (getResponse c) (getEqlRequest c) (getEqlResponse c).
Definition setRequest (v : Request.t) (c : t) : t :=
  mk (getActivePage c) (getPageName c) (Some v) (getResponse c) (getEqlRequest c) (getEqlResponse c).
Definition setResponse (v : TimelineArgs.t) (c : t) : t :=
  mk (getActivePage c) (getPageName c) (getRequest c) (Some v) (getEqlRequest c) (getEqlResponse c).
Definition setEqlRequest (v : Request.t) (c : t) : t :=
  mk (getActivePage c) (getPageName c) (getRequest c) (getResponse c) (Some v) (getEqlResponse c).
Definition setEqlResponse (v : TimelineArgs.t) (c : t) : t :=
  mk (getActivePage c) (getPageName c) (getRequest c) (getResponse c) (getEqlRequest c) (Some v).
(** The cache before anything was stored. *)
Definition empty : t := mk 0 "" None None None None.
End ActiveTimeline.

(** The collaborators' side: which abort controllers were aborted, which
    search subscriptions are open (subscribed and neither unsubscribed nor
    terminated by an error), each with the closure of its callbacks, and the
    log of effects. *)
Module Services.
Record t : Type := mk {
  nextController : nat;
  nextSubscription : nat;
  aborted : list nat;
  subscriptions : list (nat * AsyncSearch.t);
  log : list Effect
}.
End Services.

Module World.
Record t : Type := mk {
  hook : Hook.t;
  cache : ActiveTimeline.t;
  services : Services.t
}.
End World.

(* ------------------------------------------------------------------ *)
(** ** Primitive state changes *)

Definition updHook (f : Hook.t -> Hook.t) (w : World.t) : World.t :=
  World.mk (f (World.hook w)) (World.cache w) (World.services w).

Definition updCache (f : ActiveTimeline.t -> ActiveTimeline.t) (w : World.t) : World.t :=
  World.mk (World.hook w) (f (World.cache w)) (World.services w).

Definition updServices (f : Services.t -> Services.t) (w : World.t) : World.t :=
  World.mk (World.hook w) (World.cache w) (f (World.services w)).

(** Append one effect to the log. *)
Definition emit (e : Effect) (w : World.t) : World.t :=
  updServices (fun s =>
    Services.mk (Services.nextController s) (Services.nextSubscription s)
                (Services.aborted s) (Services.subscriptions s)
                (Services.log s ++ [e])) w.

Definition closeSubscription (sid : nat) (w : World.t) : World.t :=
  updServices (fun s =>
    Services.mk (Services.nextController s) (Services.nextSubscription s)
                (Services.aborted s)
                (filter (fun p => negb (Nat.eqb (fst p) sid)) (Services.subscriptions s))
                (Services.log s)) w.

(** [setLoading(v)] *)
Definition setLoading (v : DataLoadingState) (w : World.t) : World.t :=
  updHook (Hook.set_loading v) w.

(** [searchSubscription$.current.unsubscribe()] *)
Definition unsubscribe (w : World.t) : World.t :=
  let sid := Hook.searchSubscription (World.hook w) in
  emit (Unsubscribe sid) (closeSubscription sid w).

(** [abortCtrl.current.abort()] *)
Definition abort (w : World.t) : World.t :=
  let c := Hook.abortCtrl (World.hook w) in
  emit (Abort c)
    (updServices (fun s =>
       Services.mk (Services.nextController s) (Services.nextSubscription s)
                   (c :: Services.aborted s) (Services.subscriptions s)
                   (Services.log s)) w).

(** [abortCtrl.current = new AbortController()] *)
Definition newAbortController (w : World.t) : World.t :=
  let c := Services.nextController (World.services w) in
  updHook (Hook.set_abortCtrl c)
    (updServices (fun s =>
       Services.mk (S c) (Services.nextSubscription s) (Services.aborted s)
                   (Services.subscriptions s) (Services.log s)) w).

(** [abortCtrl.current.signal.aborted] *)
Definition signalAborted (w : World.t) : bool :=
  existsb (Nat.eqb (Hook.abortCtrl (World.hook w))) (Services.aborted (World.services w)).

(** The strategy option of the [data.search.search] call. *)
Definition strategyOf (r : Request.t) : string :=
  if isEql (Request.language r)
  then "timelineEqlSearchStrategy"
  else "timelineSearchStrategy".

(** [searchSubscription$.current = data.search.search(request, {...}).subscribe({...})]:
    the search service is called, the new subscription is open with the
    callbacks of closure [c], and the ref holds it. *)
Definition searchAndSubscribe (c : AsyncSearch.t) (w : World.t) : World.t :=
  let sid := Services.nextSubscription (World.services w) in
  let r := AsyncSearch.request c in
  let w1 := emit (Search r (strategyOf r) (Hook.abortCtrl (World.hook w))
                         (AsyncSearch.dataViewId c) sid) w in
  let w2 := updServices (fun s =>
              Services.mk (Services.nextController s) (S sid) (Services.aborted s)
                          ((sid, c) :: Services.subscriptions s) (Services.log s)) w1 in
  updHook (Hook.set_searchSubscription sid) w2.

(** [getTimelineEvents] *)
Definition getTimelineEvents (timelineEdges : list TimelineEdges.t) : list value :=
  map TimelineEdges.node timelineEdges.

(** The initial value of the [timelineResponse] state, which is also what the
    filter-clear effect stores. *)
Definition emptyResponse (id : string) : TimelineArgs.t :=
  TimelineArgs.mk [] id (Inspect.mk [] []) (wrappedLoadPage_cb id)
                  (Pagination.mk 0 0) (refetchGrid_cb id) (-1) 0.

(* ------------------------------------------------------------------ *)
(** ** The hook *)

Section UseTimelineEventsHandler.

Variable X : Externals.t.

(** [id === TimelineId.active] *)
Definition isActiveId (id : string) : bool :=
  String.eqb id (Externals.TimelineId_active X).

(** [deStructureEqlOptions]: a member is copied when lodash finds it not
    empty.  The argument is [eqlOptions], or the previous request read as an
    EQL request; [None] is [undefined] / [null]. *)
Definition deStructureEqlOptions (eqlOptions : option EqlOptions.t) : list (string * value) :=
  let member (k : string) (get : EqlOptions.t -> option value) :=
    let v := match eqlOptions with
             | Some e => optGet (get e)
             | None => VUndefined
             end in
    if negb (isEmpty v) then [(k, v)] else [] in
  member "eventCategoryField" EqlOptions.eventCategoryField ++
  member "size" EqlOptions.size ++
  member "tiebreakerField" EqlOptions.tiebreakerField ++
  member "timestampField" EqlOptions.timestampField.

(** [prevSearchParameters] *)
Definition prevSearchParameters (prevRequest : option Request.t) : value :=
  let get (f : Request.t -> value) : value :=
    match prevRequest with
    | Some r => f r
    | None => VUndefined
    end in
  VObj ([ ("defaultIndex", nullish (get (fun r => strings (Request.defaultIndex r))) (VArr []));
          ("filterQuery", nullish (get Request.filterQuery) (VStr ""));
          ("querySize",
            nullish (get (fun r => VNum (Pagination.querySize (Request.pagination r)))) (VNum 0));
          ("sort", nullish (get Request.sort) (initSortDefault X));
          ("timerange",
            nullish (get (fun r => optGet (option_map Timerange.toValue (Request.timerange r))))
                    (VObj []));
          ("runtimeMappings", nullish (get Request.runtimeMappings) (VObj [])) ]
        ++ deStructureEqlOptions (option_map Request.eqlProps prevRequest)).

(** [startDate && endDate]: both given and not the empty string. *)
Definition truthy (s : option string) : bool :=
  match s with
  | Some x => negb (String.eqb x "")
  | None => false
  end.

(** The local [timerange] of the effect: the spread
    [{ timerange: { interval: '12h', from, to } }], or [{}]. *)
Definition timerangeOf (env : Env.t) : option Timerange.t :=
  match Env.startDate env, Env.endDate env with
  | Some s, Some e =>
      if truthy (Some s) && truthy (Some e) then Some (Timerange.mk "12h" s e) else None
  | _, _ => None
  end.

(** [currentSearchParameters] *)
Definition currentSearchParameters (env : Env.t) : value :=
  VObj ([ ("defaultIndex", strings (Env.indexNames env));
          ("filterQuery", Externals.createFilter X (Env.filterQuery env));
          ("querySize", VNum (Env.limit env));
          ("sort", Env.sort env);
          ("runtimeMappings", Env.runtimeMappings env) ]
        ++ optProp "timerange" (option_map Timerange.toValue (timerangeOf env))
        ++ deStructureEqlOptions (Env.eqlOptions env)).

(** [newActivePage] *)
Definition newActivePage (env : Env.t) (prevRequest : option Request.t) (activePage : Z) : Z :=
  if deepEqual (prevSearchParameters prevRequest) (currentSearchParameters env)
  then activePage
  else 0.

(** [prevRequest?.fieldRequested ?? []] *)
Definition prevFieldRequested (prevRequest : option Request.t) : list string :=
  match prevRequest with
  | Some r => Request.fieldRequested r
  | None => []
  end.

(** [newFieldsRequested] *)
Definition newFieldsRequested (env : Env.t) (prevRequest : option Request.t) : list string :=
  filter (fun field => negb (includes (prevFieldRequested prevRequest) field)) (Env.fields env).

(** [finalFieldRequest] after the [if]. *)
Definition finalFieldRequest (env : Env.t) (prevRequest : option Request.t) : list string :=
  if Nat.ltb 0 (List.length (newFieldsRequested env prevRequest))
  then prevFieldRequested prevRequest ++ newFieldsRequested env prevRequest
  else prevFieldRequested prevRequest.

(** [currentRequest] *)
Definition currentRequest (env : Env.t) (prevRequest : option Request.t) (activePage : Z)
  : Request.t :=
  Request.mk (Env.indexNames env)
             (Externals.TimelineEventsQueries_all X)
             (finalFieldRequest env prevRequest)
             (finalFieldRequest env prevRequest)
             (Externals.createFilter X (Env.filterQuery env))
             (Pagination.mk (newActivePage env prevRequest activePage) (Env.limit env))
             (Env.language env)
             (Env.runtimeMappings env)
             (Env.sort env)
             (timerangeOf env)
             (withDefault EqlOptions.none (Env.eqlOptions env)).

(** The request-derivation effect: [setTimelineRequest((prevRequest) => ...)]
    unless [indexNames] is empty.  [activePage] is the state cell. *)
Definition deriveRequest (env : Env.t) (w : World.t) : World.t :=
  if Nat.eqb (List.length (Env.indexNames env)) 0 then w
  else
    let prevRequest := Hook.timelineRequest (World.hook w) in
    let activePage := Hook.activePage (World.hook w) in
    let page := newActivePage env prevRequest activePage in
    let cur := currentRequest env prevRequest activePage in
    let w1 :=
      if negb (Z.eqb activePage page)
      then
        let w' := updHook (Hook.set_activePage page) w in
        if isActiveId (Env.id env)
        then updCache (ActiveTimeline.setActivePage page) w'
        else w'
      else w in
    if negb (deepEqual (Request.optToValue prevRequest) (Request.toValue cur))
    then updHook (Hook.set_timelineRequest (Some cur)) w1
    else w1.

(** The filter-clear effect. *)
Definition filterClear (env : Env.t) (w : World.t) : World.t :=
  if isEmpty (Env.filterQuery env)
  then updHook (Hook.set_timelineResponse (emptyResponse (Env.id env))) w
  else w.

(** [clearSignalsState] *)
Definition clearSignalsState (env : Env.t) (w : World.t) : World.t :=
  if existsb (fun timelineId => String.eqb timelineId (Env.id env))
             (Externals.detectionsTimelineIds X)
  then emit (Dispatch "clearEventsDeleted" (Env.id env))
         (emit (Dispatch "clearEventsLoading" (Env.id env)) w)
  else w.

(** [wrappedLoadPage] *)
Definition wrappedLoadPage (env : Env.t) (newPage : Z) (w : World.t) : World.t :=
  let w1 := clearSignalsState env w in
  let w2 := if isActiveId (Env.id env)
            then updCache (ActiveTimeline.setActivePage newPage) w1
            else w1 in
  updHook (Hook.set_activePage newPage) w2.

(** The body of [asyncSearch]. *)
Definition asyncSearch (c : AsyncSearch.t) (w : World.t) : World.t :=
  let w1 := updHook (Hook.set_prevTimelineRequest (Some (AsyncSearch.request c))) w in
  let w2 := newAbortController w1 in
  let w3 := if Z.eqb (AsyncSearch.activePage c) 0
            then setLoading loading w2
            else setLoading loadingMore w2 in
  let w4 := emit (StartTracking (Externals.APP_UI_ID X ++ " timeline events search")) w3 in
  searchAndSubscribe c w4.

(** [refetchGrid] *)
Definition refetchGrid (env : Env.t) (w : World.t) : World.t :=
  let w1 := match Hook.refetch (World.hook w) with
            | Some c => asyncSearch c w
            | None => w
            end in
  wrappedLoadPage env 0 w1.

(** The tail of [timelineSearch]: cancel, search, remember the closure. *)
Definition cancelAndSearch (c : AsyncSearch.t) (w : World.t) : World.t :=
  let w1 := unsubscribe w in
  let w2 := abort w1 in
  let w3 := asyncSearch c w2 in
  updHook (Hook.set_refetch (Some c)) w3.

(** The cached response for the dialect of [r]. *)
Definition cachedResponse (r : Request.t) (cache : ActiveTimeline.t) : option TimelineArgs.t :=
  if isEql (Request.language r)
  then ActiveTimeline.getEqlResponse cache
  else ActiveTimeline.getResponse cache.

(** The cached request for the dialect of [r]. *)
Definition cachedRequest (r : Request.t) (cache : ActiveTimeline.t) : option Request.t :=
  if isEql (Request.language r)
  then ActiveTimeline.getEqlRequest cache
  else ActiveTimeline.getRequest cache.

(** [{ ...resp, refetch: refetchGrid, loadPage: wrappedLoadPage }] *)
Definition rebind (id : string) (resp : TimelineArgs.t) : TimelineArgs.t :=
  TimelineArgs.mk (TimelineArgs.events resp) (TimelineArgs.id resp)
                  (TimelineArgs.inspect resp) (wrappedLoadPage_cb id)
                  (TimelineArgs.pageInfo resp) (refetchGrid_cb id)
                  (TimelineArgs.totalCount resp) (TimelineArgs.refreshedAt resp).

(** The condition of the page-change branch of [timelineSearch]. *)
Definition pageChanged (env : Env.t) (w : World.t) : bool :=
  isActiveId (Env.id env) &&
  negb (String.eqb (ActiveTimeline.getPageName (World.cache w)) "") &&
  negb (String.eqb (Env.pageName env) (ActiveTimeline.getPageName (World.cache w))).

(** The body of the page-change branch up to its [return]s. *)
Definition resumeFromCache (env : Env.t) (r : Request.t) (c : AsyncSearch.t) (w : World.t)
  : World.t :=
  let w1 := updCache (ActiveTimeline.setPageName (Env.pageName env)) w in
  let w2 := abort w1 in
  let w3 := setLoading loaded w2 in
  let w4 := updHook (Hook.set_prevTimelineRequest (cachedRequest r (World.cache w3))) w3 in
  let w5 := updHook (Hook.set_refetch (Some c)) w4 in
  updHook (fun h =>
    match cachedResponse r (World.cache w5) with
    | Some resp => Hook.set_timelineResponse (rebind (Env.id env) resp) h
    | None => h
    end) w5.

(** [timelineSearch].  The variables of the [useCallback] closure
    ([pageName], [skip], [id], [activePage], [dataViewId]) are those of the
    current render: [env] and the [activePage] state cell. *)
Definition timelineSearch (env : Env.t) (request : option Request.t)
                          (onNextHandler : option nat) (w : World.t) : World.t :=
  match request with
  | None => w
  | Some r =>
      if String.eqb (Env.pageName env) "" || Env.skip env then w
      else
        let c := AsyncSearch.mk r onNextHandler (Hook.activePage (World.hook w))
                                (Env.pageName env) (Env.id env) (Env.dataViewId env) in
        if pageChanged env w
        then
          let w1 := resumeFromCache env r c w in
          if negb (isEql (Request.language r)) &&
             match ActiveTimeline.getResponse (World.cache w1) with
             | Some _ => true
             | None => false
             end
          then w1
          else if isEql (Request.language r) &&
                  match ActiveTimeline.getEqlResponse (World.cache w1) with
                  | Some _ => true
                  | None => false
                  end
          then w1
          else cancelAndSearch c w1
        else cancelAndSearch c w
  end.

(** The condition under which [timelineSearchHandler] calls
    [timelineSearch]. *)
Definition handlerSearches (env : Env.t) (w : World.t) : bool :=
  negb (isActiveId (Env.id env)) ||
  match Env.timerangeKind env with
  | Some absolute => true
  | _ => false
  end ||
  negb (deepEqual (Request.optToValue (Hook.prevTimelineRequest (World.hook w)))
                  (Request.optToValue (Hook.timelineRequest (World.hook w)))).

(** [timelineSearchHandler] *)
Definition timelineSearchHandler (env : Env.t) (onNextHandler : option nat) (w : World.t)
  : World.t :=
  if handlerSearches env w
  then timelineSearch env (Hook.timelineRequest (World.hook w)) onNextHandler w
  else w.

(** The [next] callback of the subscription made by closure [c]; [now] is
    what [Date.now()] returns. *)
Definition onNext (c : AsyncSearch.t) (response : StrategyResponse.t) (now : Z)
                  (w : World.t) : World.t :=
  if negb (Externals.isRunningResponse X response)
  then
    let w1 := emit (EndTracking "success") w in
    let w2 := setLoading loaded w1 in
    let prevResponse := Hook.timelineResponse (World.hook w2) in
    let newTimelineResponse :=
      TimelineArgs.mk (getTimelineEvents (StrategyResponse.edges response))
                      (TimelineArgs.id prevResponse)
                      (Externals.getInspectResponse X response (TimelineArgs.inspect prevResponse))
                      (TimelineArgs.loadPage prevResponse)
                      (StrategyResponse.pageInfo response)
                      (TimelineArgs.refetch prevResponse)
                      (StrategyResponse.totalCount response)
                      now in
    let w3 :=
      if isActiveId (AsyncSearch.id c)
      then
        let w' := updCache (ActiveTimeline.setPageName (AsyncSearch.pageName c)) w2 in
        if isEql (Request.language (AsyncSearch.request c))
        then updCache (ActiveTimeline.setEqlResponse newTimelineResponse)
               (updCache (ActiveTimeline.setEqlRequest (AsyncSearch.request c)) w')
        else updCache (ActiveTimeline.setResponse newTimelineResponse)
               (updCache (ActiveTimeline.setRequest (AsyncSearch.request c)) w')
      else w2 in
    let w4 := match AsyncSearch.onNextHandler c with
              | Some h => emit (OnNext h newTimelineResponse) w3
              | None => w3
              end in
    let w5 := updHook (Hook.set_timelineResponse newTimelineResponse) w4 in
    unsubscribe w5
  else w.

(** The [error] callback of a subscription. *)
Definition onError (msg : string) (w : World.t) : World.t :=
  let w1 := emit (EndTracking (if signalAborted w then "aborted" else "error")) w in
  let w2 := setLoading loaded w1 in
  let w3 := emit (ShowError msg) w2 in
  unsubscribe w3.

(** The callbacks of subscription [sid], if it is open. *)
Definition subscriber (sid : nat) (w : World.t) : option AsyncSearch.t :=
  match find (fun p => Nat.eqb (fst p) sid) (Services.subscriptions (World.services w)) with
  | Some p => Some (snd p)
  | None => None
  end.

(** What can happen to a mounted hook: its effects and callbacks run, and
    the search service notifies an open subscription.  An error notification
    terminates the subscription it is delivered on. *)
Inductive Action : Type :=
| RunDeriveRequest
| RunFilterClear
| CallSearchHandler (onNextHandler : option nat)
| CallLoadPage (newActivePage : Z)
| CallRefetch
| NotifyNext (sid : nat) (response : StrategyResponse.t) (now : Z)
| NotifyError (sid : nat) (msg : string).

Definition step (env : Env.t) (a : Action) (w : World.t) : World.t :=
  match a with
  | RunDeriveRequest => deriveRequest env w
  | RunFilterClear => filterClear env w
  | CallSearchHandler h => timelineSearchHandler env h w
  | CallLoadPage n => wrappedLoadPage env n w
  | CallRefetch => refetchGrid env w
  | NotifyNext sid response now =>
      match subscriber sid w with
      | Some c => onNext c response now w
      | None => w
      end
  | NotifyError sid msg =>
      match subscriber sid w with
      | Some _ => closeSubscription sid (onError msg w)
      | None => w
      end
  end.

(** A run: each action with the parameters of the render it happens in. *)
Fixpoint run (tr : list (Env.t * Action)) (w : World.t) : World.t :=
  match tr with
  | [] => w
  | (env, a) :: rest => run rest (step env a w)
  end.

(** The hook at mount: the initial values of its state cells and refs.  The
    first abort controller and the first (empty) [Subscription] are number 0. *)
Definition mount (env : Env.t) (cache : ActiveTimeline.t) : World.t :=
  World.mk
    (Hook.mk None 0%nat 0%nat loaded
             (if isActiveId (Env.id env) then ActiveTimeline.getActivePage cache else 0)
             None None (emptyResponse (Env.id env)))
    cache
    (Services.mk 1 1 [] [] []).

End UseTimelineEventsHandler.

(* ------------------------------------------------------------------ *)
(** ** Observations *)

(** The effects so far, oldest first. *)
Definition logOf (w : World.t) : list Effect := Services.log (World.services w).

(** The numbers of the open search subscriptions, newest first. *)
Definition openSubscriptions (w : World.t) : list nat :=
  map fst (Services.subscriptions (World.services w)).

(** A search carries the strategy that belongs to its request's language. *)
Definition strategyMatches (e : Effect) : Prop :=
  match e with
  | Search r s _ _ _ => s = strategyOf r
  | _ => True
  end.

(** The hook state in which at most one subscription is open, and that one
    is the one the [searchSubscription$] ref holds. *)
Definition onlyCurrentOpen (w : World.t) : Prop :=
  Services.subscriptions (World.services w) = [] \/
  exists c, Services.subscriptions (World.services w) =
            [(Hook.searchSubscription (World.hook w), c)].

(** A run in which [refetch] is never called. *)
Definition noRefetch (tr : list (Env.t * Action)) : Prop :=
  Forall (fun ea => snd ea <> CallRefetch) tr.

(* ------------------------------------------------------------------ *)
(** ** Example inputs *)

(** An implementation of the imports for the examples.  The examples use
    string filter queries, which [createFilter] returns as they are; no
    response of the examples is a running one. *)
Definition exampleExternals : Externals.t :=
  Externals.mk (fun filterQuery => filterQuery)
               (fun _ prevInspect => prevInspect)
               (fun _ => false)
               "timeline-1"
               []
               "eventsAll"
               "asc"
               "securitySolutionUI".

(** Props of a data table on the alerts page: a time range is given. *)
Definition alertsProps : Props.t :=
  Props.mk (Some "security-solution-default") (Some "2024-01-02T00:00:00.000Z") None
           ["@timestamp"; "host.name"] (VStr "host.name: *") (Some "alerts-page")
           ["logs-*"] None 25 (VObj []) None None (Some "2024-01-01T00:00:00.000Z")
           (Some relative).

(** The same props without [startDate] and [endDate]. *)
Definition undatedProps : Props.t :=
  Props.mk (Some "security-solution-default") None None
           ["@timestamp"; "host.name"] (VStr "host.name: *") (Some "alerts-page")
           ["logs-*"] None 25 (VObj []) None None None (Some relative).

(** The props of the active timeline. *)
Definition activeProps : Props.t :=
  Props.mk (Some "security-solution-default") (Some "2024-01-02T00:00:00.000Z") None
           ["@timestamp"] (VStr "host.name: *") (Some "timeline-1")
           ["logs-*"] None 25 (VObj []) None None (Some "2024-01-01T00:00:00.000Z")
           (Some relative).

Definition alertsEnv : Env.t := Env.ofProps exampleExternals alertsProps "alerts".
Definition undatedEnv : Env.t := Env.ofProps exampleExternals undatedProps "alerts".
Definition activeEnv (route : string) : Env.t := Env.ofProps exampleExternals activeProps route.

(** The active timeline with the [skip] flag set. *)
Definition skippedProps : Props.t :=
  Props.mk (Some "security-solution-default") (Some "2024-01-02T00:00:00.000Z") None
           ["@timestamp"] (VStr "host.name: *") (Some "timeline-1")
           ["logs-*"] None 25 (VObj []) (Some true) None (Some "2024-01-01T00:00:00.000Z")
           (Some relative).

Definition skippedEnv (route : string) : Env.t :=
  Env.ofProps exampleExternals skippedProps route.

(** The request the active timeline derives first. *)
Definition activeRequest : Request.t :=
  currentRequest exampleExternals (activeEnv "hosts") None 0.

(** A response of an earlier search of the active timeline. *)
Definition hostsResponse : TimelineArgs.t :=
  TimelineArgs.mk [VObj [("_id", VStr "event-1")]] "timeline-1"
                  (Inspect.mk ["{}"] ["{}"]) (wrappedLoadPage_cb "timeline-1")
                  (Pagination.mk 0 25) (refetchGrid_cb "timeline-1") 1 1704153600000.

(** The cache after the active timeline was filled on the alerts page. *)
Definition visitedCache : ActiveTimeline.t :=
  ActiveTimeline.mk 0 "alerts" (Some activeRequest) (Some hostsResponse) None None.

(** A table on the alerts page whose first search is still running. *)
Definition searching : World.t :=
  run exampleExternals
      [(alertsEnv, RunDeriveRequest); (alertsEnv, CallSearchHandler None)]
      (mount exampleExternals alertsEnv ActiveTimeline.empty).

(** The request of that search and the closure of its callbacks. *)
Definition firstRequest : Request.t :=
  currentRequest exampleExternals alertsEnv None 0.

Definition firstSearch : AsyncSearch.t :=
  AsyncSearch.mk firstRequest None 0 "alerts" "alerts-page"
                 (Some "security-solution-default").

(** The table after its filter query was removed. *)
Definition clearedProps : Props.t :=
  Props.mk (Some "security-solution-default") (Some "2024-01-02T00:00:00.000Z") None
           ["@timestamp"; "host.name"] (VStr "") (Some "alerts-page")
           ["logs-*"] None 25 (VObj []) None None (Some "2024-01-01T00:00:00.000Z")
           (Some relative).

Definition clearedEnv : Env.t := Env.ofProps exampleExternals clearedProps "alerts".

(** The active timeline on the alerts page once its first search is out. *)
Definition activeSearching : World.t :=
  run exampleExternals
      [(activeEnv "alerts", RunDeriveRequest); (activeEnv "alerts", CallSearchHandler None)]
      (mount exampleExternals (activeEnv "alerts") ActiveTimeline.empty).

(** The correlation tab: an EQL query with its options. *)
Definition correlationProps : Props.t :=
  Props.mk (Some "security-solution-default") (Some "2024-01-02T00:00:00.000Z")
           (Some (EqlOptions.mk (Some (VStr "event.category")) (Some (VNum 100))
                                (Some (VStr "")) (Some (VStr "@timestamp"))))
           ["@timestamp"] (VStr "any where true") (Some "timeline-1")
           ["logs-*"] (Some eql) 25 (VObj []) None None
           (Some "2024-01-01T00:00:00.000Z") (Some relative).

Definition correlationEnv : Env.t :=
  Env.ofProps exampleExternals correlationProps "alerts".

(** The same without a time range, after the user asked for page 2. *)
Definition undatedOnPage2 : World.t :=
  run exampleExternals
      [(undatedEnv, RunDeriveRequest); (undatedEnv, CallSearchHandler None);
       (undatedEnv, CallLoadPage 2)]
      (mount exampleExternals undatedEnv ActiveTimeline.empty).

(** The render after [loadPage(3)]: the [activePage] state is 3 and the
    request state is still the one derived for page 0. *)
Definition afterLoadPage3 : World.t :=
  step exampleExternals alertsEnv (CallLoadPage 3) searching.


(* ------------------------------------------------------------------ *)
(** ** Conditions on worlds and runs *)

(** The page the cache holds is the page the hook holds. *)
Definition pageMirrored (w : World.t) : Prop :=
  ActiveTimeline.getActivePage (World.cache w) = Hook.activePage (World.hook w).

(** Every step of the run is made with a timeline id for which [p] holds. *)
Definition everyId (p : string -> bool) (tr : list (Env.t * Action)) : Prop :=
  Forall (fun ea => p (Env.id (fst ea)) = true) tr.

(** The closures the world still holds (those of the open subscriptions and
    the one [refetch] remembers) all belong to ids for which [p] holds. *)
Definition closureIds (p : string -> bool) (w : World.t) : Prop :=
  Forall (fun sc => p (AsyncSearch.id (snd sc)) = true)
         (Services.subscriptions (World.services w)) /\
  match Hook.refetch (World.hook w) with
  | Some c => p (AsyncSearch.id c) = true
  | None => True
  end.

(** No abort controller has its number from the future, and the aborted
    ones are among those handed out. *)
Definition controllersFresh (w : World.t) : Prop :=
  (Hook.abortCtrl (World.hook w) < Services.nextController (World.services w))%nat /\
  Forall (fun c => (c < Services.nextController (World.services w))%nat)
         (Services.aborted (World.services w)).

(** An effect that is not a call of the search service. *)
Definition notSearch (e : Effect) : Prop :=
  match e with
  | Search _ _ _ _ _ => False
  | _ => True
  end.

(* ------------------------------------------------------------------ *)
(** ** The legacy enable route ([enableAlertRoute]) *)

Module EnableRoute.

(** What the handler can get thrown at it: a [RuleTypeDisabledError], which
    knows how to answer ([sendResponse]), or anything else. *)
Inductive Thrown : Type :=
| RuleTypeDisabledError (e : value)
| OtherError (e : value).

(** The responses the handler returns: [res.badRequest({ body })],
    [res.noContent()] and what [e.sendResponse(res)] builds for a
    [RuleTypeDisabledError] [e]. *)
Inductive Response : Type :=
| badRequest (body : string)
| noContent
| sendResponse (e : value).

(** How a call of the handler ends. *)
Inductive Outcome : Type :=
| Returned (r : Response)
| Raised (t : Thrown).

(** The calls the handler makes, in order. *)
Inductive Call : Type :=
| TrackLegacyRouteUsage (route : string) (usageCounter : option string)
| EnableRule (id : string).

(** The rules client, as far as the handler uses it: [enableRule({ id })]
    resolves ([None]) or rejects. *)
Record RulesClient : Type := mkClient { enableRule : string -> option Thrown }.

(** What the handler is called with and closes over.  [verifyApiAccess] is
    the result of [verifyApiAccess(licenseState)]: it returns or throws.
    [alerting] is [context.alerting]: absent, or a promise that gives a rules
    client through [getRulesClient] or fails. *)
Record Request : Type := mkRequest {
  verifyApiAccess : option Thrown;
  usageCounter : option string;
  alerting : option (Thrown + RulesClient);
  id : string
}.

(** The route handler passed to [router.handleLegacyErrors]. *)
Definition handler (req : Request) : list Call * Outcome :=
  match verifyApiAccess req with
  | Some t => ([], Raised t)
  | None =>
      match alerting req with
      | None => ([], Returned (badRequest "RouteHandlerContext is not registered for alerting"))
      | Some api =>
          let tracked := [TrackLegacyRouteUsage "enable" (usageCounter req)] in
          match api with
          | inl t => (tracked, Raised t)
          | inr rulesClient =>
              let calls := tracked ++ [EnableRule (id req)] in
              match enableRule rulesClient (id req) with
              | None => (calls, Returned noContent)
              | Some (RuleTypeDisabledError e) => (calls, Returned (sendResponse e))
              | Some (OtherError e) => (calls, Raised (OtherError e))
              end
          end
      end
  end.

(** [access: isServerless ? 'internal' : 'public'] *)
Definition access (isServerless : option bool) : string :=
  match isServerless with
  | Some true => "internal"
  | _ => "public"
  end.

(** [path] of the route, over [LEGACY_BASE_ALERT_API_PATH]. *)
Definition path (LEGACY_BASE_ALERT_API_PATH : string) : string :=
  (LEGACY_BASE_ALERT_API_PATH ++ "/alert/{id}/_enable")%string.

End EnableRoute.

(* ------------------------------------------------------------------ *)
(** ** Agentless setup ([useAgentless], [useSetupTechnology]) *)

Module Agentless.

(** [cloud?: { isServerlessEnabled, isCloudEnabled }] of the start services
    and [config.agentless?.enabled]. *)
Record Cloud : Type := mkCloud {
  isServerlessEnabled : option bool;
  isCloudEnabled : option bool
}.

Record Config : Type := mkConfig { agentless : option (option bool) }.

(** [!!x] for an optional boolean. *)
Definition truthyFlag (x : option bool) : bool :=
  match x with
  | Some true => true
  | _ => false
  end.

(** [isAgentlessEnabled] *)
Definition isAgentlessEnabled (cloud : option Cloud) (config : Config) : bool :=
  let isServerless := match cloud with
                      | Some c => truthyFlag (isServerlessEnabled c)
                      | None => false
                      end in
  let isCloud := match cloud with
                 | Some c => truthyFlag (isCloudEnabled c)
                 | None => false
                 end in
  (isCloud || isServerless) &&
  match agentless config with
  | Some (Some true) => true
  | _ => false
  end.

(** An agent policy as far as the hooks read it; [rest] stands for the
    other members, which spreads copy along. *)
Record Policy : Type := mkPolicy {
  name : string;
  supports_agentless : option bool;
  rest : value
}.

(** [isAgentlessAgentPolicy] *)
Definition isAgentlessAgentPolicy (cloud : option Cloud) (config : Config)
                                  (agentPolicy : option Policy) : bool :=
  match agentPolicy with
  | None => false
  | Some p => isAgentlessEnabled cloud config && truthyFlag (supports_agentless p)
  end.

(** [isAgentlessIntegration], over the imported [isAgentlessIntegrationFn]. *)
Definition isAgentlessIntegration (isAgentlessIntegrationFn : option value -> bool)
                                  (cloud : option Cloud) (config : Config)
                                  (packageInfo : option value) : bool :=
  if isAgentlessEnabled cloud config && isAgentlessIntegrationFn packageInfo
  then true
  else false.

(** [SetupTechnology] *)
Inductive SetupTechnology : Type := AGENT_BASED | AGENTLESS.

Definition sameTechnology (a b : SetupTechnology) : bool :=
  match a, b with
  | AGENT_BASED, AGENT_BASED => true
  | AGENTLESS, AGENTLESS => true
  | _, _ => false
  end.

(** [SelectedPolicyTab], with the member the hook uses. *)
Inductive SelectedPolicyTab : Type := NEW.

(** The calls [useSetupTechnology] makes to the callbacks it is given. *)
Inductive ParentCall : Type :=
| setNewAgentPolicy (policy : Policy)
| setSelectedPolicyTab (tab : SelectedPolicyTab)
| updateAgentPolicies (policies : list Policy).

(** The parameters of one render of [useSetupTechnology] that its effect and
    callback read; [isAgentlessEnabled] is what [useAgentless] returned. *)
Record Props : Type := mkProps {
  agentlessEnabled : bool;
  isEditPage : option bool;
  agentPolicies : option (list Policy);
  packagePolicyName : string
}.

(** The state of the hook: the two state cells, the ref holding the
    agent-based policy it was mounted with, and the calls made so far. *)
Record State : Type := mkState {
  selectedSetupTechnology : SetupTechnology;
  newAgentlessPolicy : Policy;
  newAgentBasedPolicy : Policy;
  calls : list ParentCall
}.

(** The hook at mount: [newAgentPolicy] is the prop, [generated] what
    [generateNewAgentPolicyWithDefaults] returned. *)
Definition mount (newAgentPolicy generated : Policy) : State :=
  mkState AGENT_BASED generated newAgentPolicy [].

(** [isEditPage && agentPolicies && agentPolicies.some((policy) => policy.supports_agentless)] *)
Definition editsAgentless (props : Props) : bool :=
  truthyFlag (isEditPage props) &&
  match agentPolicies props with
  | Some policies => existsb (fun policy => truthyFlag (supports_agentless policy)) policies
  | None => false
  end.

Section UseSetupTechnology.

(** [getAgentlessAgentPolicyNameFromPackagePolicyName] *)
Variable getAgentlessAgentPolicyNameFromPackagePolicyName : string -> string.

(** The effect of [useSetupTechnology]. *)
Definition effect (props : Props) (st : State) : State :=
  if editsAgentless props
  then mkState AGENTLESS (newAgentlessPolicy st) (newAgentBasedPolicy st) (calls st)
  else
    if agentlessEnabled props && sameTechnology (selectedSetupTechnology st) AGENTLESS
    then
      let nextNewAgentlessPolicy :=
        mkPolicy (getAgentlessAgentPolicyNameFromPackagePolicyName (packagePolicyName props))
                 (supports_agentless (newAgentlessPolicy st))
                 (rest (newAgentlessPolicy st)) in
      if String.eqb (name (newAgentlessPolicy st)) "" ||
         negb (String.eqb (name nextNewAgentlessPolicy) (name (newAgentlessPolicy st)))
      then mkState (selectedSetupTechnology st) nextNewAgentlessPolicy (newAgentBasedPolicy st)
                   (calls st ++ [ setNewAgentPolicy nextNewAgentlessPolicy;
                                  updateAgentPolicies [nextNewAgentlessPolicy] ])
      else st
    else st.

(** [handleSetupTechnologyChange] *)
Definition handleSetupTechnologyChange (props : Props) (setupTechnology : SetupTechnology)
                                       (st : State) : State :=
  if negb (agentlessEnabled props) ||
     sameTechnology setupTechnology (selectedSetupTechnology st)
  then st
  else
    let made :=
      match setupTechnology with
      | AGENTLESS =>
          [ setNewAgentPolicy (newAgentlessPolicy st);
            setSelectedPolicyTab NEW;
            updateAgentPolicies [newAgentlessPolicy st] ]
      | AGENT_BASED =>
          [ setNewAgentPolicy (mkPolicy (name (newAgentBasedPolicy st)) (Some false)
                                        (rest (newAgentBasedPolicy st)));
            setSelectedPolicyTab NEW;
            updateAgentPolicies [newAgentBasedPolicy st] ]
      end in
    mkState setupTechnology (newAgentlessPolicy st) (newAgentBasedPolicy st)
            (calls st ++ made).

(** What happens to a mounted [useSetupTechnology]. *)
Inductive Action : Type :=
| RunEffect
| Change (setupTechnology : SetupTechnology).

Definition step (props : Props) (a : Action) (st : State) : State :=
  match a with
  | RunEffect => effect props st
  | Change setupTechnology => handleSetupTechnologyChange props setupTechnology st
  end.

Fixpoint run (tr : list (Props * Action)) (st : State) : State :=
  match tr with
  | [] => st
  | (props, a) :: more => run more (step props a st)
  end.

End UseSetupTechnology.

End Agentless.

(* ------------------------------------------------------------------ *)
(** ** The usage metrics query ([useGetDataUsageMetrics]) *)

Module UsageMetrics.

(** A member of the options object given to [useQuery]: data, the hook's own
    query function for a request body, or some other function. *)
Inductive Member : Type :=
| Data (v : value)
| OwnQueryFn (body : value)
| OtherFn (f : nat).

(** [o[k]] on an object of members. *)
Fixpoint lookup (k : string) (o : list (string * Member)) : option Member :=
  match o with
  | [] => None
  | (k', m) :: more => if String.eqb k k' then Some m else lookup k more
  end.

(** A property of an object literal: it replaces the member of that key if
    there is one, and is added at the end otherwise. *)
Fixpoint define (k : string) (m : Member) (o : list (string * Member))
  : list (string * Member) :=
  match o with
  | [] => [(k, m)]
  | (k', m') :: more =>
      if String.eqb k k' then (k, m) :: more else (k', m') :: define k m more
  end.

(** [{ ...o, ...src }] *)
Definition spread (o src : list (string * Member)) : list (string * Member) :=
  fold_left (fun acc km => define (fst km) (snd km) acc) src o.

(** The object [useGetDataUsageMetrics] passes to [useQuery]. *)
Definition queryOptions (body : value) (options : list (string * Member))
  : list (string * Member) :=
  define "queryFn" (OwnQueryFn body)
    (define "keepPreviousData" (Data (VBool true))
       (spread [("queryKey", Data (VArr [VStr "get-data-usage-metrics"; body]))] options)).

End UsageMetrics.

(* ------------------------------------------------------------------ *)
(** ** More example inputs *)

(** A cache that remembers page 3 and nothing else. *)
Definition pagedCache : ActiveTimeline.t :=
  ActiveTimeline.mk 3 "" None None None None.

(** The closure of the active timeline's first search on the alerts page. *)
Definition activeSearch : AsyncSearch.t :=
  AsyncSearch.mk activeRequest None 0 "alerts" "timeline-1"
                 (Some "security-solution-default").

(** A final response with one event. *)
Definition finalResponse : StrategyResponse.t :=
  StrategyResponse.mk [TimelineEdges.mk (VObj [("_id", VStr "event-1")]) (VObj [])]
                      (Pagination.mk 0 25) 1 (VObj []).

(** The active timeline after its first derivation. *)
Definition activeDerived : World.t :=
  step exampleExternals (activeEnv "alerts") RunDeriveRequest
       (mount exampleExternals (activeEnv "alerts") ActiveTimeline.empty).

(** A run of the alerts table: derive, search, final response, next page. *)
Definition tableRun : list (Env.t * Action) :=
  [ (alertsEnv, RunDeriveRequest);
    (alertsEnv, CallSearchHandler None);
    (alertsEnv, NotifyNext 1 finalResponse 1704153600000);
    (alertsEnv, CallLoadPage 1);
    (alertsEnv, RunDeriveRequest);
    (alertsEnv, CallSearchHandler None) ].

(** A run of the active timeline: derive, page 2, derive, search. *)
Definition activeRun : list (Env.t * Action) :=
  [ (activeEnv "alerts", RunDeriveRequest);
    (activeEnv "alerts", CallLoadPage 2);
    (activeEnv "alerts", RunDeriveRequest);
    (activeEnv "alerts", CallSearchHandler None) ].

(** A request to enable rule [rule-1] with a valid license and a rules
    client that accepts it. *)
Definition enableRequest : EnableRoute.Request :=
  EnableRoute.mkRequest None (Some "alerting")
                        (Some (inr (EnableRoute.mkClient (fun _ => None)))) "rule-1".

(** A name for the agentless policy of a package policy. *)
Definition agentlessName (packagePolicyName : string) : string :=
  ("Agentless policy for " ++ packagePolicyName)%string.

Definition agentBasedPolicy : Agentless.Policy :=
  Agentless.mkPolicy "Agent policy 1" None (VObj [("namespace", VStr "default")]).

Definition generatedPolicy : Agentless.Policy :=
  Agentless.mkPolicy "" (Some true) (VObj [("inactivity_timeout", VNum 3600)]).

Definition enabledProps : Agentless.Props :=
  Agentless.mkProps true None None "cspm-1".

Definition disabledProps : Agentless.Props :=
  Agentless.mkProps false None None "cspm-1".

(** Options of a caller that tries to switch [keepPreviousData] off. *)
Definition callerOptions : list (string * UsageMetrics.Member) :=
  [ ("enabled", UsageMetrics.Data (VBool false));
    ("keepPreviousData", UsageMetrics.Data (VBool false)) ].

(** The table of the alerts page with the [skip] flag set. *)
Definition skippedTableProps : Props.t :=
  Props.mk (Some "security-solution-default") (Some "2024-01-02T00:00:00.000Z") None
           ["@timestamp"; "host.name"] (VStr "host.name: *") (Some "alerts-page")
           ["logs-*"] None 25 (VObj []) (Some true) None (Some "2024-01-01T00:00:00.000Z")
           (Some relative).

Definition skippedTableEnv : Env.t :=
  Env.ofProps exampleExternals skippedTableProps "alerts".

(** The table after [loadPage(3)] and a render with [skip] set: the request
    is derived for page 3 and the call of the search handler is ignored, so
    [refetch] still holds the closure of the first search, made on page 0. *)
Definition pausedOnPage3 : World.t :=
  run exampleExternals
      [(skippedTableEnv, RunDeriveRequest); (skippedTableEnv, CallSearchHandler None)]
      afterLoadPage3.

(* ------------------------------------------------------------------ *)
(** ** Facts about [deepEqual] *)

(** On objects [deepEqual] is a test of the key count followed by a test per
    key of the left object. *)
Lemma deepEqual_obj (pa pb : list (string * value)) :
  deepEqual (VObj pa) (VObj pb) =
  Nat.eqb (List.length pa) (List.length pb) &&
  forallb (fun p => match getOwn (fst p) pb with
                    | Some w => deepEqual (snd p) w
                    | None => false
                    end) pa.
Proof.
  simpl. f_equal.
  induction pa as [| [k v] pa IH]; simpl; [reflexivity |].
  now rewrite IH.
Qed.

Lemma wellFormed_obj (props : list (string * value)) :
  wellFormed (VObj props) =
  match props with
  | [] => true
  | (k, x) :: rest =>
      negb (existsb (fun p => String.eqb k (fst p)) rest) && wellFormed x &&
      wellFormed (VObj rest)
  end.
Proof. destruct props as [| [k x] rest]; reflexivity. Qed.

Lemma wellFormed_arr (xs : list value) :
  wellFormed (VArr xs) =
  match xs with
  | [] => true
  | x :: rest => wellFormed x && wellFormed (VArr rest)
  end.
Proof. destruct xs; reflexivity. Qed.

Lemma deepEqual_arr (xs ys : list value) :
  deepEqual (VArr xs) (VArr ys) =
  match xs, ys with
  | [], [] => true
  | x :: xs', y :: ys' => deepEqual x y && deepEqual (VArr xs') (VArr ys')
  | _, _ => false
  end.
Proof. destruct xs, ys; reflexivity. Qed.

(** A key that is not in the rest of a well-formed object is found at its
    own member. *)
Lemma getOwn_member (props : list (string * value)) (k : string) (v : value) :
  wellFormed (VObj props) = true -> In (k, v) props -> getOwn k props = Some v.
Proof.
  induction props as [| [k' x] rest IH]; intros Hwf Hin; [contradiction |].
  rewrite wellFormed_obj in Hwf.
  apply andb_true_iff in Hwf. destruct Hwf as [Hwf Hrest].
  apply andb_true_iff in Hwf. destruct Hwf as [Hfresh _].
  simpl. destruct Hin as [Heq | Hin].
  - injection Heq as -> ->. now rewrite String.eqb_refl.
  - destruct (String.eqb k k') eqn:Hk; [| now apply IH].
    apply String.eqb_eq in Hk. subst k'. exfalso.
    apply negb_true_iff in Hfresh.
    assert (Hex : existsb (fun p => String.eqb k (fst p)) rest = true).
    { apply existsb_exists. exists (k, v). split; [exact Hin | apply String.eqb_refl]. }
    congruence.
Qed.

(** [deepEqual] is reflexive on well-formed values. *)
Lemma deepEqual_refl (v : value) : wellFormed v = true -> deepEqual v v = true.
Proof.
  induction v as [| | b | n | s | xs IH | props IH] using value_members_ind; intros Hwf.
  - reflexivity.
  - reflexivity.
  - simpl. now destruct b.
  - simpl. apply Z.eqb_refl.
  - simpl. apply String.eqb_refl.
  - induction xs as [| x xs IHxs]; [reflexivity |].
    rewrite deepEqual_arr. rewrite wellFormed_arr in Hwf.
    apply andb_true_iff in Hwf. destruct Hwf as [Hx Hxs].
    inversion IH as [| ? ? Hpx Hpxs]; subst.
    rewrite (Hpx Hx). now apply IHxs.
  - rewrite deepEqual_obj, Nat.eqb_refl. cbn [andb].
    apply forallb_forall. intros [k x] Hin. cbn [fst snd].
    rewrite (getOwn_member props k x Hwf Hin).
    rewrite Forall_forall in IH. apply (IH (k, x) Hin). cbn [snd].
    clear IH. induction props as [| [k' x'] rest IHrest]; [contradiction |].
    rewrite wellFormed_obj in Hwf.
    apply andb_true_iff in Hwf. destruct Hwf as [Hwf Hrest].
    apply andb_true_iff in Hwf. destruct Hwf as [_ Hx'].
    destruct Hin as [Heq | Hin]; [now injection Heq as -> -> | now apply IHrest].
Qed.

(** Two arrays of strings are deep-equal only when they are the same list. *)
Lemma deepEqual_strings (l1 l2 : list string) :
  deepEqual (strings l1) (strings l2) = true -> l1 = l2.
Proof.
  unfold strings. revert l2.
  induction l1 as [| a l1 IH]; intros [| b l2] H; simpl in H;
    try reflexivity; try discriminate.
  apply andb_true_iff in H. destruct H as [Hab Hrest].
  apply String.eqb_eq in Hab. subst b.
  f_equal. apply IH. exact Hrest.
Qed.

(** A key of the left object is a key of the right one, with a deep-equal
    value. *)
Lemma deepEqual_obj_member (pa pb : list (string * value)) (k : string) (v : value) :
  deepEqual (VObj pa) (VObj pb) = true ->
  In (k, v) pa ->
  exists w, getOwn k pb = Some w /\ deepEqual v w = true.
Proof.
  rewrite deepEqual_obj. intros H Hin.
  apply andb_true_iff in H. destruct H as [_ H].
  rewrite forallb_forall in H. specialize (H _ Hin). simpl in H.
  destruct (getOwn k pb) as [w |]; [| discriminate].
  exists w. split; [reflexivity | exact H].
Qed.

(** Deep-equal requests request the same fields. *)
Lemma deepEqual_request_fieldRequested (r r' : Request.t) :
  deepEqual (Request.toValue r) (Request.toValue r') = true ->
  Request.fieldRequested r = Request.fieldRequested r'.
Proof.
  intros H. unfold Request.toValue in H.
  destruct (deepEqual_obj_member _ _ "fieldRequested"
              (strings (Request.fieldRequested r)) H) as [w [Hget Heq]].
  - simpl. right. right. left. reflexivity.
  - simpl in Hget. injection Hget as <-.
    now apply deepEqual_strings.
Qed.

(* ------------------------------------------------------------------ *)
(** ** The field list of derived requests *)

Section FieldRequested.

Variable X : Externals.t.

Lemma includes_In (l : list string) (x : string) :
  includes l x = true <-> In x l.
Proof.
  unfold includes. rewrite existsb_exists. split.
  - intros [y [Hin Heq]]. apply String.eqb_eq in Heq. now subst.
  - intros Hin. exists x. split; [exact Hin | apply String.eqb_refl].
Qed.

Lemma finalFieldRequest_keeps (env : Env.t) (prev : option Request.t) (f : string) :
  In f (prevFieldRequested prev) -> In f (finalFieldRequest env prev).
Proof.
  intros Hin. unfold finalFieldRequest.
  destruct (Nat.ltb 0 (List.length (newFieldsRequested env prev)));
    [apply in_or_app; now left | exact Hin].
Qed.

Lemma finalFieldRequest_adds (env : Env.t) (prev : option Request.t) (f : string) :
  In f (Env.fields env) -> In f (finalFieldRequest env prev).
Proof.
  intros Hin.
  destruct (includes (prevFieldRequested prev) f) eqn:Hinc.
  - apply finalFieldRequest_keeps. now apply includes_In.
  - assert (Hnew : In f (newFieldsRequested env prev)).
    { unfold newFieldsRequested. apply filter_In. split; [exact Hin |].
      now rewrite Hinc. }
    unfold finalFieldRequest.
    destruct (newFieldsRequested env prev) as [| g gs] eqn:Hgs; [contradiction |].
    simpl. apply in_or_app. now right.
Qed.

(** The request state after the derivation effect ran its body: the
    candidate, or the previous request when that is deep-equal to it. *)
Lemma deriveRequest_timelineRequest (env : Env.t) (w : World.t) :
  Env.indexNames env <> [] ->
  let prev := Hook.timelineRequest (World.hook w) in
  let cur := currentRequest X env prev (Hook.activePage (World.hook w)) in
  Hook.timelineRequest (World.hook (deriveRequest X env w)) =
  if deepEqual (Request.optToValue prev) (Request.toValue cur) then prev else Some cur.
Proof.
  intros Hne prev cur. unfold deriveRequest.
  destruct (Env.indexNames env) as [| i rest] eqn:Hi; [congruence |].
  cbn [List.length Nat.eqb]. cbv zeta. fold prev. fold cur.
  destruct (deepEqual (Request.optToValue prev) (Request.toValue cur)); cbn [negb];
    repeat match goal with
           | |- context [if ?b then _ else _] => destruct b
           end; reflexivity.
Qed.

(** One derivation: the new request holds every input field and every field
    of the request before. *)
Lemma deriveRequest_fields (env : Env.t) (w : World.t) :
  Env.indexNames env <> [] ->
  exists r',
    Hook.timelineRequest (World.hook (deriveRequest X env w)) = Some r' /\
    (forall f, In f (Env.fields env) -> In f (Request.fieldRequested r')) /\
    (forall f, In f (prevFieldRequested (Hook.timelineRequest (World.hook w))) ->
               In f (Request.fieldRequested r')).
Proof.
  intros Hne. rewrite (deriveRequest_timelineRequest env w Hne).
  set (prev := Hook.timelineRequest (World.hook w)).
  set (cur := currentRequest X env prev (Hook.activePage (World.hook w))).
  assert (Hcur : Request.fieldRequested cur = finalFieldRequest env prev) by reflexivity.
  destruct (deepEqual (Request.optToValue prev) (Request.toValue cur)) eqn:Heq.
  - destruct prev as [r |] eqn:Hprev; [| discriminate].
    exists r. split; [reflexivity |].
    cbn [Request.optToValue] in Heq. apply deepEqual_request_fieldRequested in Heq.
    rewrite Heq, Hcur. split; intros f Hf.
    + now apply finalFieldRequest_adds.
    + now apply finalFieldRequest_keeps.
  - exists cur. split; [reflexivity |]. rewrite Hcur. split; intros f Hf.
    + now apply finalFieldRequest_adds.
    + now apply finalFieldRequest_keeps.
Qed.

End FieldRequested.

(* ------------------------------------------------------------------ *)
(** ** Runs of the hook *)

(** Case analysis on every test a goal still branches on. *)
Ltac branches :=
  repeat match goal with
         | |- context [if ?b then _ else _] => destruct b
         | |- context [match ?o with Some _ => _ | None => _ end] => destruct o
         end.

(** Unfold the hook's operations down to the record updates. *)
Ltac operations :=
  unfold timelineSearchHandler, timelineSearch, cancelAndSearch, resumeFromCache,
         refetchGrid, asyncSearch, wrappedLoadPage, clearSignalsState, filterClear,
         onNext, onError, searchAndSubscribe, newAbortController, abort,
         unsubscribe, setLoading, closeSubscription, emit.

Section Runs.

Variable X : Externals.t.

Lemma run_app (before after : list (Env.t * Action)) (w : World.t) :
  run X (before ++ after) w = run X after (run X before w).
Proof.
  revert w. induction before as [| [env a] before IH]; intros w; simpl;
    [reflexivity | apply IH].
Qed.

Lemma timelineSearch_timelineRequest
      (env : Env.t) (request : option Request.t) (h : option nat) (w : World.t) :
  Hook.timelineRequest (World.hook (timelineSearch X env request h w)) =
  Hook.timelineRequest (World.hook w).
Proof.
  operations. destruct request; branches; reflexivity.
Qed.

(** Only the derivation effect writes the [timelineRequest] state. *)
Lemma step_timelineRequest (env : Env.t) (a : Action) (w : World.t) :
  a <> RunDeriveRequest ->
  Hook.timelineRequest (World.hook (step X env a w)) =
  Hook.timelineRequest (World.hook w).
Proof.
  intros Ha. destruct a; try congruence; cbn [step].
  - operations. branches; reflexivity.
  - unfold timelineSearchHandler.
    destruct (handlerSearches X env w); [apply timelineSearch_timelineRequest | reflexivity].
  - operations. branches; reflexivity.
  - operations. branches; reflexivity.
  - operations. branches; reflexivity.
  - operations. branches; reflexivity.
Qed.

Lemma step_keeps_fields (env : Env.t) (a : Action) (w : World.t) (f : string) :
  In f (prevFieldRequested (Hook.timelineRequest (World.hook w))) ->
  In f (prevFieldRequested (Hook.timelineRequest (World.hook (step X env a w)))).
Proof.
  intros Hin.
  destruct a; try (rewrite step_timelineRequest by discriminate; exact Hin).
  cbn [step].
  destruct (Env.indexNames env) as [| i rest] eqn:Hi.
  - unfold deriveRequest. rewrite Hi. exact Hin.
  - destruct (deriveRequest_fields X env w) as [r' [Hr' [_ Hkeep]]]; [congruence |].
    rewrite Hr'. apply Hkeep. exact Hin.
Qed.

Lemma run_keeps_fields (tr : list (Env.t * Action)) (w : World.t) (f : string) :
  In f (prevFieldRequested (Hook.timelineRequest (World.hook w))) ->
  In f (prevFieldRequested (Hook.timelineRequest (World.hook (run X tr w)))).
Proof.
  revert w. induction tr as [| [env a] tr IH]; intros w Hin; simpl; [exact Hin |].
  apply IH. now apply step_keeps_fields.
Qed.

(** C2. Across the successive derivations of one hook instance the field
    list only grows: when the derivation effect runs (its index list is not
    empty) after any history [before ++ after], the request it leaves holds
    every field of the current input and every field of the request that was
    in place at any earlier point of the history (after [before]). *)
Theorem fieldRequested_monotone
        (before after : list (Env.t * Action)) (env : Env.t) (w : World.t) :
  Env.indexNames env <> [] ->
  exists r',
    Hook.timelineRequest
      (World.hook (deriveRequest X env (run X (before ++ after) w))) = Some r' /\
    (forall f, In f (Env.fields env) -> In f (Request.fieldRequested r')) /\
    (forall f,
        In f (prevFieldRequested (Hook.timelineRequest (World.hook (run X before w)))) ->
        In f (Request.fieldRequested r')).
Proof.
  intros Hne.
  destruct (deriveRequest_fields X env (run X (before ++ after) w) Hne)
    as [r' [Hr' [Hadd Hkeep]]].
  exists r'. split; [exact Hr' |]. split; [exact Hadd |].
  intros f Hf. apply Hkeep. rewrite run_app. now apply run_keeps_fields.
Qed.

End Runs.

(* ------------------------------------------------------------------ *)
(** ** [timelineSearch], its handler and the stream callbacks *)

Section Search.

Variable X : Externals.t.

(** C9. A call of [timelineSearch] with no request, on a blank page name or
    with the skip flag set returns the world it was given: nothing is sent to
    the search service, and the loading state, the response, the
    previous-request ref and the page-scoped cache are what they were. *)
Theorem timelineSearch_ignored
        (env : Env.t) (request : option Request.t) (h : option nat) (w : World.t) :
  request = None \/ Env.pageName env = "" \/ Env.skip env = true ->
  timelineSearch X env request h w = w.
Proof.
  intros [Hreq | [Hpage | Hskip]]; unfold timelineSearch.
  - now rewrite Hreq.
  - destruct request; [| reflexivity]. now rewrite Hpage.
  - destruct request; [| reflexivity]. rewrite Hskip. now rewrite orb_true_r.
Qed.

(** C6. When the filter query is empty the filter-clear effect stores the
    empty response, whatever the state was: total count -1, no events, page
    info with active page 0 and query size 0, an empty inspect log and
    refresh stamp 0. *)
Theorem filterClear_resets (env : Env.t) (w : World.t) :
  isEmpty (Env.filterQuery env) = true ->
  let resp := Hook.timelineResponse (World.hook (filterClear env w)) in
  TimelineArgs.totalCount resp = -1 /\
  TimelineArgs.events resp = [] /\
  TimelineArgs.pageInfo resp = Pagination.mk 0 0 /\
  TimelineArgs.inspect resp = Inspect.mk [] [] /\
  TimelineArgs.refreshedAt resp = 0.
Proof.
  intros Hempty. unfold filterClear. rewrite Hempty. cbn.
  repeat split.
Qed.

Lemma find_closed (sid : nat) (subs : list (nat * AsyncSearch.t)) :
  find (fun p => Nat.eqb (fst p) sid)
       (filter (fun p => negb (Nat.eqb (fst p) sid)) subs) = None.
Proof.
  induction subs as [| p subs IH]; simpl; [reflexivity |].
  destruct (Nat.eqb (fst p) sid) eqn:Hp; simpl; [exact IH |].
  now rewrite Hp.
Qed.

Lemma find_filter_none (f g : nat * AsyncSearch.t -> bool) (subs : list (nat * AsyncSearch.t)) :
  find f subs = None -> find f (filter g subs) = None.
Proof.
  induction subs as [| p subs IH]; simpl; [reflexivity |].
  destruct (f p) eqn:Hf; [discriminate |]. intros H.
  destruct (g p); simpl; [rewrite Hf |]; now apply IH.
Qed.

(** C5. An error notification on an open subscription sets the loading state
    to [loaded], hands the error to [showError], unsubscribes the held
    subscription, and leaves the response state as it was. *)
Theorem error_keeps_response
        (env : Env.t) (sid : nat) (msg : string) (w : World.t) (c : AsyncSearch.t) :
  subscriber sid w = Some c ->
  let w' := step X env (NotifyError sid msg) w in
  Hook.loading (World.hook w') = loaded /\
  logOf w' = logOf w ++ [ EndTracking (if signalAborted w then "aborted" else "error");
                          ShowError msg;
                          Unsubscribe (Hook.searchSubscription (World.hook w)) ] /\
  subscriber (Hook.searchSubscription (World.hook w)) w' = None /\
  subscriber sid w' = None /\
  Hook.timelineResponse (World.hook w') = Hook.timelineResponse (World.hook w).
Proof.
  intros Hsub. cbn [step]. rewrite Hsub. cbv zeta.
  repeat split.
  - unfold logOf. operations. cbn. now rewrite <- !app_assoc.
  - unfold subscriber. operations. cbn.
    rewrite find_filter_none; [reflexivity | apply find_closed].
  - unfold subscriber. operations. cbn. now rewrite find_closed.
Qed.

Lemma eqb_neq_false (a b : string) : a <> b -> String.eqb a b = false.
Proof. intros H. now apply String.eqb_neq. Qed.

(** C3, as the code has it.  On a named page and without the skip flag: when
    the identity is the active timeline, the cache recorded a page name, the
    current page name is another one and the cache holds a response for the
    request's dialect, [timelineSearch] stores that response (with the two
    callbacks of this hook instance) in the response state, sets the loading
    state to [loaded], aborts the held abort controller and returns: the
    only effect is the abort, so nothing is sent to the search service and
    no subscription is opened or closed. *)
Theorem resume_from_cache
        (env : Env.t) (r : Request.t) (h : option nat) (w : World.t)
        (resp : TimelineArgs.t) :
  Env.pageName env <> "" ->
  Env.skip env = false ->
  isActiveId X (Env.id env) = true ->
  ActiveTimeline.getPageName (World.cache w) <> "" ->
  Env.pageName env <> ActiveTimeline.getPageName (World.cache w) ->
  cachedResponse r (World.cache w) = Some resp ->
  let w' := timelineSearch X env (Some r) h w in
  Hook.timelineResponse (World.hook w') = rebind (Env.id env) resp /\
  Hook.loading (World.hook w') = loaded /\
  logOf w' = logOf w ++ [Abort (Hook.abortCtrl (World.hook w))] /\
  In (Hook.abortCtrl (World.hook w)) (Services.aborted (World.services w')) /\
  Services.subscriptions (World.services w') = Services.subscriptions (World.services w).
Proof.
  intros Hpage Hskip Hactive Hrecorded Hdiffers Hcached.
  unfold timelineSearch, pageChanged.
  rewrite (eqb_neq_false Hpage), Hskip, Hactive,
          (eqb_neq_false Hrecorded), (eqb_neq_false Hdiffers).
  cbn [orb andb negb]. cbv zeta.
  unfold cachedResponse in Hcached.
  unfold resumeFromCache, cachedResponse.
  destruct (isEql (Request.language r)); cbn in Hcached |- *; rewrite Hcached; cbn;
    repeat split; now left.
Qed.

End Search.

(* ------------------------------------------------------------------ *)
(** ** Invariants of runs *)

(** The log after an operation is the log before followed by effects that
    satisfy [strategyMatches]. *)
Ltac log_extension :=
  unfold logOf; operations; branches; cbn;
  repeat rewrite <- app_assoc; cbn [app];
  first [ exists []; split; [now rewrite app_nil_r | constructor]
        | eexists; split; [reflexivity | repeat constructor] ].

Section Invariants.

Variable X : Externals.t.

Lemma timelineSearch_log
      (env : Env.t) (request : option Request.t) (h : option nat) (w : World.t) :
  exists new,
    logOf (timelineSearch X env request h w) = logOf w ++ new /\
    Forall strategyMatches new.
Proof. destruct request; log_extension. Qed.

Lemma step_log (env : Env.t) (a : Action) (w : World.t) :
  exists new,
    logOf (step X env a w) = logOf w ++ new /\ Forall strategyMatches new.
Proof.
  destruct a; cbn [step].
  - unfold deriveRequest. log_extension.
  - log_extension.
  - unfold timelineSearchHandler.
    destruct (handlerSearches X env w); [apply timelineSearch_log | log_extension].
  - log_extension.
  - log_extension.
  - log_extension.
  - log_extension.
Qed.

Lemma run_log (tr : list (Env.t * Action)) (w : World.t) :
  Forall strategyMatches (logOf w) ->
  Forall strategyMatches (logOf (run X tr w)).
Proof.
  revert w. induction tr as [| [env a] tr IH]; intros w Hw; simpl; [exact Hw |].
  apply IH. destruct (step_log env a w) as [new [Hlog Hnew]].
  rewrite Hlog. apply Forall_app. now split.
Qed.

(** C7. Every search a mounted hook ever sends carries the strategy
    [timelineEqlSearchStrategy] exactly when the language of its request is
    [eql], and [timelineSearchStrategy] for the other languages. *)
Theorem strategy_by_language
        (tr : list (Env.t * Action)) (env : Env.t) (cache : ActiveTimeline.t)
        (r : Request.t) (s : string) (ctrl : nat) (ip : option string) (sid : nat) :
  In (Search r s ctrl ip sid) (logOf (run X tr (mount X env cache))) ->
  (s = "timelineEqlSearchStrategy" <-> Request.language r = eql) /\
  (Request.language r <> eql -> s = "timelineSearchStrategy").
Proof.
  intros Hin.
  assert (Hall : Forall strategyMatches (logOf (run X tr (mount X env cache)))).
  { apply run_log. constructor. }
  rewrite Forall_forall in Hall. specialize (Hall _ Hin).
  cbn in Hall. subst s. unfold strategyOf.
  destruct (Request.language r); cbn; split;
    try (split; intros; congruence); try congruence; reflexivity.
Qed.

End Invariants.

(* ------------------------------------------------------------------ *)
(** ** One subscription at a time *)

Section Subscriptions.

Variable X : Externals.t.

(** What the tail of [timelineSearch] does to the collaborators: the held
    subscription is unsubscribed and the held controller aborted before the
    search service is called. *)
Lemma cancelAndSearch_log (c : AsyncSearch.t) (w : World.t) :
  logOf (cancelAndSearch X c w) =
  logOf w ++ [ Unsubscribe (Hook.searchSubscription (World.hook w));
               Abort (Hook.abortCtrl (World.hook w));
               StartTracking (Externals.APP_UI_ID X ++ " timeline events search");
               Search (AsyncSearch.request c) (strategyOf (AsyncSearch.request c))
                      (Services.nextController (World.services w))
                      (AsyncSearch.dataViewId c)
                      (Services.nextSubscription (World.services w)) ].
Proof.
  unfold logOf. operations. branches; cbn; now rewrite <- !app_assoc.
Qed.

(** [refetch] runs [asyncSearch] alone: no unsubscribe and no abort. *)
Lemma asyncSearch_log (c : AsyncSearch.t) (w : World.t) :
  logOf (asyncSearch X c w) =
  logOf w ++ [ StartTracking (Externals.APP_UI_ID X ++ " timeline events search");
               Search (AsyncSearch.request c) (strategyOf (AsyncSearch.request c))
                      (Services.nextController (World.services w))
                      (AsyncSearch.dataViewId c)
                      (Services.nextSubscription (World.services w)) ].
Proof.
  unfold logOf. operations. branches; cbn; now rewrite <- !app_assoc.
Qed.

Ltac settle :=
  cbn; repeat rewrite Nat.eqb_refl; cbn;
  first [ left; reflexivity | right; eexists; reflexivity ].

Lemma timelineSearch_onlyCurrentOpen
      (env : Env.t) (request : option Request.t) (h : option nat) (w : World.t) :
  onlyCurrentOpen w -> onlyCurrentOpen (timelineSearch X env request h w).
Proof.
  unfold onlyCurrentOpen.
  destruct w as [hk ca sv]. destruct hk, sv. cbn.
  intros [Hnone | [c Hone]]; subst; destruct request;
    operations; branches; settle.
Qed.

Lemma step_onlyCurrentOpen (env : Env.t) (a : Action) (w : World.t) :
  a <> CallRefetch -> onlyCurrentOpen w -> onlyCurrentOpen (step X env a w).
Proof.
  intros Ha Hw. destruct a; try congruence; cbn [step].
  - revert Hw. unfold onlyCurrentOpen, deriveRequest.
    destruct w as [hk ca sv]. destruct hk, sv. cbn.
    intros [Hnone | [c Hone]]; subst; branches; settle.
  - revert Hw. unfold onlyCurrentOpen.
    destruct w as [hk ca sv]. destruct hk, sv. cbn.
    intros [Hnone | [c Hone]]; subst; operations; branches; settle.
  - unfold timelineSearchHandler.
    destruct (handlerSearches X env w);
      [now apply timelineSearch_onlyCurrentOpen | exact Hw].
  - revert Hw. unfold onlyCurrentOpen.
    destruct w as [hk ca sv]. destruct hk, sv. cbn.
    intros [Hnone | [c Hone]]; subst; operations; branches; settle.
  - revert Hw. unfold onlyCurrentOpen, subscriber.
    destruct w as [hk ca sv]. destruct hk, sv. cbn.
    intros [Hnone | [c Hone]]; subst; cbn; operations; branches; settle.
  - revert Hw. unfold onlyCurrentOpen, subscriber.
    destruct w as [hk ca sv]. destruct hk, sv. cbn.
    intros [Hnone | [c Hone]]; subst; cbn; operations; branches; settle.
Qed.

(** As long as [refetch] is not called, at most one subscription is open at
    any point of a run, and it is the one the ref holds. *)
Lemma run_onlyCurrentOpen (tr : list (Env.t * Action)) (w : World.t) :
  noRefetch tr -> onlyCurrentOpen w -> onlyCurrentOpen (run X tr w).
Proof.
  revert w. induction tr as [| [env a] tr IH]; intros w Htr Hw; simpl; [exact Hw |].
  inversion Htr as [| ? ? Ha Hrest]; subst.
  apply IH; [exact Hrest |]. now apply step_onlyCurrentOpen.
Qed.

(** X21. On any run from mount in which [refetch] is never called, at most
    one search subscription is open. *)
Lemma at_most_one_without_refetch
      (tr : list (Env.t * Action)) (env : Env.t) (cache : ActiveTimeline.t) :
  noRefetch tr ->
  (List.length (openSubscriptions (run X tr (mount X env cache))) <= 1)%nat.
Proof.
  intros Htr.
  assert (H : onlyCurrentOpen (run X tr (mount X env cache))).
  { apply run_onlyCurrentOpen; [exact Htr | now left]. }
  unfold openSubscriptions. destruct H as [-> | [c ->]]; cbn; lia.
Qed.

End Subscriptions.

(* ------------------------------------------------------------------ *)
(** ** The page of a derived request *)

Section ActivePage.

Variable X : Externals.t.

(** The page of the candidate request is the [activePage] state when the two
    parameter objects of the effect are deep-equal, and 0 otherwise. *)
Lemma currentRequest_page (env : Env.t) (prev : option Request.t) (activePage : Z) :
  Pagination.activePage (Request.pagination (currentRequest X env prev activePage)) =
  if deepEqual (prevSearchParameters X prev) (currentSearchParameters X env)
  then activePage else 0.
Proof. reflexivity. Qed.

Lemma getOwn_app (k : string) (l1 l2 : list (string * value)) :
  getOwn k (l1 ++ l2) =
  match getOwn k l1 with
  | Some v => Some v
  | None => getOwn k l2
  end.
Proof.
  induction l1 as [| [k' v] l1 IH]; simpl; [reflexivity |].
  destruct (String.eqb k k'); [reflexivity | exact IH].
Qed.

Lemma deStructureEqlOptions_no_timerange (o : option EqlOptions.t) :
  getOwn "timerange" (deStructureEqlOptions o) = None.
Proof.
  unfold deStructureEqlOptions. branches; reflexivity.
Qed.

(** [prevSearchParameters] always has a [timerange] key ([{}] when the
    previous request has none), [currentSearchParameters] only when both
    dates are given: without a time range the two are never deep-equal and
    the page is 0, whatever the previous request and the active page. *)
Lemma undated_newActivePage (env : Env.t) (prev : option Request.t) (activePage : Z) :
  timerangeOf env = None ->
  newActivePage X env prev activePage = 0.
Proof.
  intros Hundated. unfold newActivePage.
  destruct (deepEqual (prevSearchParameters X prev) (currentSearchParameters X env))
    eqn:Heq; [| reflexivity].
  exfalso. unfold prevSearchParameters, currentSearchParameters in Heq.
  rewrite Hundated in Heq.
  match type of Heq with
  | deepEqual (VObj ((_ :: _ :: _ :: _ :: (?k, ?v) :: _) ++ _)) _ = true =>
      destruct (deepEqual_obj_member _ _ k v Heq) as [x [Hget _]]
  end.
  - apply in_or_app. left. simpl. do 4 right. left. reflexivity.
  - rewrite !getOwn_app, deStructureEqlOptions_no_timerange in Hget.
    cbn in Hget. discriminate.
Qed.

Lemma nullish_keeps (v d : value) : isNullish v = false -> nullish v d = v.
Proof. now destruct v. Qed.

Lemma wellFormed_strings (l : list string) : wellFormed (strings l) = true.
Proof.
  unfold strings. induction l as [| a l IH]; [reflexivity |].
  cbn [map]. rewrite wellFormed_arr. exact IH.
Qed.

Lemma deStructureEqlOptions_withDefault (o : option EqlOptions.t) :
  deStructureEqlOptions (Some (withDefault EqlOptions.none o)) = deStructureEqlOptions o.
Proof. destruct o; reflexivity. Qed.

(** With both dates given, deriving again from unchanged inputs keeps the
    active page, whatever it is: the request derived from [env] has the
    search parameters of [env].  The values compared are taken to be well
    formed, and the filter, sort and runtime mappings not [null] or
    [undefined]. *)
Lemma dated_newActivePage
      (env : Env.t) (prev : option Request.t) (page0 activePage : Z) :
  timerangeOf env <> None ->
  isNullish (Externals.createFilter X (Env.filterQuery env)) = false ->
  wellFormed (Externals.createFilter X (Env.filterQuery env)) = true ->
  isNullish (Env.sort env) = false ->
  wellFormed (Env.sort env) = true ->
  isNullish (Env.runtimeMappings env) = false ->
  wellFormed (Env.runtimeMappings env) = true ->
  Forall (fun member => wellFormed (snd member) = true)
         (deStructureEqlOptions (Env.eqlOptions env)) ->
  newActivePage X env (Some (currentRequest X env prev page0)) activePage = activePage.
Proof.
  intros Hdated HFn HFw HSn HSw HRn HRw Heql.
  unfold newActivePage.
  replace (deepEqual (prevSearchParameters X (Some (currentRequest X env prev page0)))
                     (currentSearchParameters X env)) with true; [reflexivity |].
  symmetry. unfold prevSearchParameters, currentSearchParameters.
  cbn [option_map currentRequest Request.eqlProps Request.defaultIndex
       Request.filterQuery Request.pagination Pagination.querySize Request.sort
       Request.timerange Request.runtimeMappings].
  rewrite deStructureEqlOptions_withDefault.
  destruct (timerangeOf env) as [t |]; [clear Hdated | congruence].
  rewrite (@nullish_keeps _ _ HFn), (@nullish_keeps _ _ HSn), (@nullish_keeps _ _ HRn).
  pose proof (deepEqual_refl _ HFw) as EF.
  pose proof (deepEqual_refl _ HSw) as ES.
  pose proof (deepEqual_refl _ HRw) as ER.
  pose proof (deepEqual_refl _ (wellFormed_strings (Env.indexNames env))) as EI.
  revert Heql. unfold deStructureEqlOptions.
  generalize (match Env.eqlOptions env with
              | Some e => optGet (EqlOptions.eventCategoryField e)
              | None => VUndefined
              end) as v1.
  generalize (match Env.eqlOptions env with
              | Some e => optGet (EqlOptions.size e)
              | None => VUndefined
              end) as v2.
  generalize (match Env.eqlOptions env with
              | Some e => optGet (EqlOptions.tiebreakerField e)
              | None => VUndefined
              end) as v3.
  generalize (match Env.eqlOptions env with
              | Some e => optGet (EqlOptions.timestampField e)
              | None => VUndefined
              end) as v4.
  intros v4 v3 v2 v1 Heql.
  rewrite deepEqual_obj.
  destruct (isEmpty v1), (isEmpty v2), (isEmpty v3), (isEmpty v4);
    cbn [negb app optProp option_map optGet nullish strings List.length Nat.eqb
         forallb fst snd getOwn andb] in Heql |- *;
    repeat match goal with
           | H : Forall _ (_ :: _) |- _ => inversion H; clear H; subst
           end;
    cbn [snd] in *;
    repeat match goal with
           | H : wellFormed ?v = true |- _ => apply deepEqual_refl in H
           end;
    cbn; unfold strings in EI; cbn in EI;
    repeat match goal with
           | H : ?a = true |- context [?a] => rewrite H
           end;
    rewrite ?Z.eqb_refl, ?String.eqb_refl; reflexivity.
Qed.

End ActivePage.

(* ------------------------------------------------------------------ *)
(** ** The searches a step sends *)

Section Dispatches.

#[local] Unset Implicit Arguments.

Variable X : Externals.t.

Lemma no_new_effects {A : Type} (l new : list A) : l = l ++ new -> new = [].
Proof.
  intros H. rewrite <- (app_nil_r l) in H at 1.
  apply app_inv_head in H. now symmetry.
Qed.

(** What [asyncSearch] leaves: the search is in the log, its subscription is
    open with the callbacks of the closure, and the loading state is decided
    by the [activePage] the closure captured. *)
Lemma asyncSearch_dispatch (c : AsyncSearch.t) (w : World.t) :
  let w' := asyncSearch X c w in
  let sid := Services.nextSubscription (World.services w) in
  subscriber sid w' = Some c /\
  Hook.loading (World.hook w') =
    (if Z.eqb (AsyncSearch.activePage c) 0 then loading else loadingMore).
Proof.
  cbv zeta. unfold subscriber. operations.
  destruct (Z.eqb (AsyncSearch.activePage c) 0); cbn; rewrite Nat.eqb_refl; split; reflexivity.
Qed.

(** The searches among the effects [asyncSearch] adds. *)
Lemma asyncSearch_new_search
      (c : AsyncSearch.t) (r : Request.t) (s : string) (ctrl : nat)
      (ip : option string) (sid : nat) (w : World.t) :
  In (Search r s ctrl ip sid)
     [ StartTracking (Externals.APP_UI_ID X ++ " timeline events search");
       Search (AsyncSearch.request c) (strategyOf (AsyncSearch.request c))
              (Services.nextController (World.services w))
              (AsyncSearch.dataViewId c)
              (Services.nextSubscription (World.services w)) ] ->
  r = AsyncSearch.request c /\ sid = Services.nextSubscription (World.services w).
Proof.
  intros [H | [H | []]]; [discriminate |]. injection H as <- _ _ _ <-. now split.
Qed.

Lemma wrappedLoadPage_keeps (env : Env.t) (n : Z) (w : World.t) :
  Hook.loading (World.hook (wrappedLoadPage X env n w)) = Hook.loading (World.hook w) /\
  Services.subscriptions (World.services (wrappedLoadPage X env n w)) =
    Services.subscriptions (World.services w) /\
  exists cleared,
    logOf (wrappedLoadPage X env n w) = logOf w ++ cleared /\ Forall notSearch cleared.
Proof.
  unfold logOf. operations.
  destruct (existsb _ _); destruct (isActiveId X (Env.id env)); cbn;
    (split; [reflexivity |]); (split; [reflexivity |]);
    rewrite <- ?app_assoc; cbn [app];
    first [ exists []; split; [now rewrite app_nil_r | constructor]
          | eexists; split; [reflexivity | repeat constructor] ].
Qed.

Lemma not_among (r : Request.t) (s : string) (ctrl : nat) (ip : option string) (sid : nat)
      (l : list Effect) :
  Forall notSearch l -> ~ In (Search r s ctrl ip sid) l.
Proof.
  intros Hl Hin. rewrite Forall_forall in Hl. exact (Hl _ Hin).
Qed.

(** The searches [timelineSearch] sends. *)
Lemma timelineSearch_dispatch
      (env : Env.t) (request : option Request.t) (h : option nat) (w : World.t)
      (new : list Effect) (r : Request.t) (s : string) (ctrl : nat)
      (ip : option string) (sid : nat) :
  logOf (timelineSearch X env request h w) = logOf w ++ new ->
  In (Search r s ctrl ip sid) new ->
  exists c,
    subscriber sid (timelineSearch X env request h w) = Some c /\
    AsyncSearch.request c = r /\
    AsyncSearch.activePage c = Hook.activePage (World.hook w) /\
    Hook.loading (World.hook (timelineSearch X env request h w)) =
      (if Z.eqb (AsyncSearch.activePage c) 0 then loading else loadingMore).
Proof.
  unfold timelineSearch.
  destruct request as [r0 |]; [| intros H; apply no_new_effects in H; now subst].
  destruct (String.eqb (Env.pageName env) "" || Env.skip env);
    [intros H; apply no_new_effects in H; now subst |].
  cbv zeta.
  set (c := AsyncSearch.mk r0 h (Hook.activePage (World.hook w)) (Env.pageName env)
                           (Env.id env) (Env.dataViewId env)).
  assert (Htail : forall w0 new0,
    logOf (cancelAndSearch X c w0) = logOf w0 ++ new0 ->
    In (Search r s ctrl ip sid) new0 ->
    subscriber sid (cancelAndSearch X c w0) = Some c /\
    AsyncSearch.request c = r /\
    Hook.loading (World.hook (cancelAndSearch X c w0)) =
      (if Z.eqb (AsyncSearch.activePage c) 0 then loading else loadingMore)).
  { intros w0 new0 Hlog Hin.
    rewrite cancelAndSearch_log in Hlog. apply app_inv_head in Hlog. subst new0.
    destruct Hin as [H | [H | Hin]]; [discriminate | discriminate |].
    destruct Hin as [H | [H | []]]; [discriminate |].
    injection H as <- _ _ _ <-.
    unfold subscriber. operations.
    destruct (Z.eqb (AsyncSearch.activePage c) 0); cbn; rewrite Nat.eqb_refl;
      repeat split. }
  destruct (pageChanged X env w).
  - assert (Hresume : logOf (resumeFromCache env r0 c w) =
                      logOf w ++ [Abort (Hook.abortCtrl (World.hook w))]).
    { unfold logOf. operations. unfold resumeFromCache. operations. branches; reflexivity. }
    assert (Hsilent : forall new0,
      logOf (resumeFromCache env r0 c w) = logOf w ++ new0 ->
      ~ In (Search r s ctrl ip sid) new0).
    { intros new0 H. rewrite Hresume in H. apply app_inv_head in H. subst new0.
      intros [H | []]. discriminate. }
    destruct (negb (isEql (Request.language r0)) && _);
      [intros Hlog Hin; now destruct (Hsilent _ Hlog) |].
    destruct (isEql (Request.language r0) && _);
      [intros Hlog Hin; now destruct (Hsilent _ Hlog) |].
    intros Hlog Hin.
    assert (Hsplit : exists new0,
      logOf (cancelAndSearch X c (resumeFromCache env r0 c w)) =
      logOf (resumeFromCache env r0 c w) ++ new0 /\
      new = Abort (Hook.abortCtrl (World.hook w)) :: new0).
    { rewrite cancelAndSearch_log in Hlog |- *. eexists. split; [reflexivity |].
      rewrite Hresume, <- app_assoc in Hlog. apply app_inv_head in Hlog.
      now symmetry. }
    destruct Hsplit as [new0 [Hlog0 ->]].
    destruct Hin as [H | Hin]; [discriminate |].
    destruct (Htail _ _ Hlog0 Hin) as [Hsub [Hreq Hload]].
    exists c. repeat split; assumption.
  - intros Hlog Hin.
    destruct (Htail _ _ Hlog Hin) as [Hsub [Hreq Hload]].
    exists c. repeat split; assumption.
Qed.

(** The log of a call of [timelineSearch] that searches: past the first
    test, and not answered from the cache. *)
Lemma timelineSearch_searches
      (env : Env.t) (r : Request.t) (h : option nat) (w : World.t) :
  Env.pageName env <> "" ->
  Env.skip env = false ->
  pageChanged X env w = false \/ cachedResponse r (World.cache w) = None ->
  exists pre,
    logOf (timelineSearch X env (Some r) h w) =
      logOf w ++ pre ++
      [ Search r (strategyOf r) (Services.nextController (World.services w))
               (Env.dataViewId env) (Services.nextSubscription (World.services w)) ] /\
    Forall notSearch pre /\
    Hook.prevTimelineRequest (World.hook (timelineSearch X env (Some r) h w)) = Some r.
Proof.
  intros Hpage Hskip Hcase. unfold timelineSearch.
  rewrite (eqb_neq_false Hpage), Hskip. cbn [orb]. cbv zeta.
  set (c := AsyncSearch.mk r h (Hook.activePage (World.hook w)) (Env.pageName env)
                           (Env.id env) (Env.dataViewId env)).
  assert (Hprev : forall w0, Hook.prevTimelineRequest (World.hook (cancelAndSearch X c w0)) = Some r).
  { intros w0. operations. branches; reflexivity. }
  destruct (pageChanged X env w) eqn:Hchanged.
  - destruct Hcase as [Hno | Hnone]; [discriminate |].
    assert (Hresume :
      logOf (resumeFromCache env r c w) = logOf w ++ [Abort (Hook.abortCtrl (World.hook w))] /\
      World.cache (resumeFromCache env r c w) =
        ActiveTimeline.setPageName (Env.pageName env) (World.cache w) /\
      Services.nextController (World.services (resumeFromCache env r c w)) =
        Services.nextController (World.services w) /\
      Services.nextSubscription (World.services (resumeFromCache env r c w)) =
        Services.nextSubscription (World.services w)).
    { unfold logOf, resumeFromCache. operations. branches; repeat split. }
    destruct Hresume as [Hlog [Hcache [Hctrl Hsub]]].
    unfold cachedResponse in Hnone. rewrite Hcache.
    destruct (isEql (Request.language r)); cbn in Hnone |- *; rewrite Hnone; cbn [andb];
      rewrite ?andb_false_r;
      rewrite cancelAndSearch_log, Hlog, Hctrl, Hsub, <- app_assoc;
      exists [ Abort (Hook.abortCtrl (World.hook w));
               Unsubscribe (Hook.searchSubscription (World.hook (resumeFromCache env r c w)));
               Abort (Hook.abortCtrl (World.hook (resumeFromCache env r c w)));
               StartTracking (Externals.APP_UI_ID X ++ " timeline events search") ];
      (split; [reflexivity |]);
      (split; [repeat constructor | apply Hprev]).
  - rewrite cancelAndSearch_log.
    exists [ Unsubscribe (Hook.searchSubscription (World.hook w));
             Abort (Hook.abortCtrl (World.hook w));
             StartTracking (Externals.APP_UI_ID X ++ " timeline events search") ].
    split; [reflexivity |]. split; [repeat constructor | apply Hprev].
Qed.

(** The log of a call of [timelineSearch] that is answered from the cache. *)
Lemma timelineSearch_resumes
      (env : Env.t) (r : Request.t) (h : option nat) (w : World.t) (resp : TimelineArgs.t) :
  Env.pageName env <> "" ->
  Env.skip env = false ->
  pageChanged X env w = true ->
  cachedResponse r (World.cache w) = Some resp ->
  logOf (timelineSearch X env (Some r) h w) =
    logOf w ++ [Abort (Hook.abortCtrl (World.hook w))].
Proof.
  intros Hpage Hskip Hchanged Hcached.
  unfold timelineSearch.
  rewrite (eqb_neq_false Hpage), Hskip, Hchanged. cbn [orb]. cbv zeta.
  unfold cachedResponse in Hcached.
  unfold resumeFromCache, cachedResponse, cachedRequest, logOf.
  destruct (isEql (Request.language r)); cbn in Hcached |- *; rewrite Hcached; cbn;
    reflexivity.
Qed.

(** The closure behind a search that a step sends. *)
Lemma step_search_closure
      (env : Env.t) (a : Action) (w : World.t) (new : list Effect)
      (r : Request.t) (s : string) (ctrl : nat) (ip : option string) (sid : nat) :
  logOf (step X env a w) = logOf w ++ new ->
  In (Search r s ctrl ip sid) new ->
  exists c,
    subscriber sid (step X env a w) = Some c /\
    AsyncSearch.request c = r /\
    Hook.loading (World.hook (step X env a w)) =
      (if Z.eqb (AsyncSearch.activePage c) 0 then loading else loadingMore) /\
    ((exists h, a = CallSearchHandler h /\
                AsyncSearch.activePage c = Hook.activePage (World.hook w)) \/
     (a = CallRefetch /\ Hook.refetch (World.hook w) = Some c)) /\
    (Pagination.activePage (Request.pagination r) = AsyncSearch.activePage c ->
     Hook.loading (World.hook (step X env a w)) =
       (if Z.eqb (Pagination.activePage (Request.pagination r)) 0
        then loading else loadingMore)).
Proof.
  intros Hlog Hin.
  assert (Hsilent : forall l, Forall notSearch l -> logOf (step X env a w) = logOf w ++ l -> False).
  { intros l Hl H. rewrite H in Hlog. apply app_inv_head in Hlog. subst new.
    exact (not_among _ _ _ _ _ _ Hl Hin). }
  destruct a as [| | h0 | n0 | | sid0 response0 now0 | sid0 msg0]; cbn [step] in *.
  - exfalso. apply (Hsilent []); [constructor |].
    unfold logOf, deriveRequest. branches; cbn; now rewrite app_nil_r.
  - exfalso. apply (Hsilent []); [constructor |].
    unfold logOf, filterClear. branches; cbn; now rewrite app_nil_r.
  - unfold timelineSearchHandler in *.
    destruct (handlerSearches X env w).
    + destruct (timelineSearch_dispatch env _ h0 w _ _ _ _ _ _ Hlog Hin)
        as [c [Hsub [Hreq [Hpage Hload]]]].
      exists c. split; [exact Hsub |]. split; [exact Hreq |]. split; [exact Hload |].
      split; [left; exists h0; now split |].
      intros Hsame. now rewrite Hsame.
    + exfalso. apply (Hsilent []); [constructor | now rewrite app_nil_r].
  - exfalso.
    destruct (wrappedLoadPage_keeps env n0 w) as [_ [_ [cleared [Hc Hns]]]].
    exact (Hsilent cleared Hns Hc).
  - unfold refetchGrid in *.
    destruct (wrappedLoadPage_keeps env 0
                (match Hook.refetch (World.hook w) with
                 | Some c => asyncSearch X c w
                 | None => w
                 end)) as [Hload [Hsubs [cleared [Hc Hns]]]].
    destruct (Hook.refetch (World.hook w)) as [c |] eqn:Hr.
    + rewrite Hc, asyncSearch_log, <- app_assoc in Hlog.
      apply app_inv_head in Hlog. subst new.
      apply in_app_or in Hin. destruct Hin as [Hin | Hin];
        [| now destruct (not_among _ _ _ _ _ _ Hns Hin)].
      destruct (asyncSearch_new_search c _ _ _ _ _ w Hin) as [-> ->].
      destruct (asyncSearch_dispatch c w) as [Hsub Hloading]. cbv zeta in Hsub, Hloading.
      exists c. split.
      { unfold subscriber in *. now rewrite Hsubs. }
      split; [reflexivity |]. rewrite Hload.
      split; [exact Hloading |]. split; [right; now split |].
      intros Hsame. now rewrite Hsame.
    + exfalso. exact (Hsilent cleared Hns Hc).
  - exfalso.
    destruct (subscriber sid0 w) as [c0 |]; [| apply (Hsilent []); [constructor | now rewrite app_nil_r]].
    unfold onNext in *.
    destruct (negb (Externals.isRunningResponse X response0));
      [| apply (Hsilent []); [constructor | now rewrite app_nil_r]].
    revert Hsilent. unfold logOf. operations.
    destruct (AsyncSearch.onNextHandler c0); branches; cbn; intros Hsilent;
      rewrite <- ?app_assoc in Hsilent; cbn [app] in Hsilent;
      (eapply Hsilent; [| reflexivity]); repeat constructor.
  - exfalso.
    destruct (subscriber sid0 w); [| apply (Hsilent []); [constructor | now rewrite app_nil_r]].
    revert Hsilent. unfold logOf. operations. branches; cbn; intros Hsilent;
      rewrite <- ?app_assoc in Hsilent; cbn [app] in Hsilent;
      (eapply Hsilent; [| reflexivity]); repeat constructor.
Qed.

(** C8, as the code has it.  Every search the hook sends is sent by
    [asyncSearch], and the loading state it sets is decided by the
    [activePage] its closure captured: [loading] when that is 0 and
    [loadingMore] otherwise.  Whatever step a search comes from, its
    subscription is open afterwards with the callbacks of a closure [c] that
    holds the request sent, and the loading state is the one for the page
    [c] captured.  For a search sent through the search handler that page
    is the [activePage] state at the call; for a search sent by a refetch,
    [c] is the closure [refetch] remembered, with the page it captured when
    it was made.  No other step sends a search.  The page inside the request
    is not consulted; when it is the captured page, the loading state is the
    one for the page of the request.  Both kinds of step do send a search:
    the handler when it calls [timelineSearch] with a request on a named
    page, without the skip flag and not answered from the cache, and the
    refetch whenever a closure is remembered. *)
Theorem dispatch_loading_state
        (env : Env.t) (a : Action) (w : World.t) (new : list Effect) :
  logOf (step X env a w) = logOf w ++ new ->
  (forall r s ctrl ip sid,
     In (Search r s ctrl ip sid) new ->
     exists c,
       subscriber sid (step X env a w) = Some c /\
       AsyncSearch.request c = r /\
       Hook.loading (World.hook (step X env a w)) =
         (if Z.eqb (AsyncSearch.activePage c) 0 then loading else loadingMore) /\
       ((exists h, a = CallSearchHandler h /\
                   AsyncSearch.activePage c = Hook.activePage (World.hook w)) \/
        (a = CallRefetch /\ Hook.refetch (World.hook w) = Some c)) /\
       (Pagination.activePage (Request.pagination r) = AsyncSearch.activePage c ->
        Hook.loading (World.hook (step X env a w)) =
          (if Z.eqb (Pagination.activePage (Request.pagination r)) 0
           then loading else loadingMore))) /\
  (forall h r,
     a = CallSearchHandler h ->
     Hook.timelineRequest (World.hook w) = Some r ->
     handlerSearches X env w = true ->
     Env.pageName env <> "" ->
     Env.skip env = false ->
     pageChanged X env w = false \/ cachedResponse r (World.cache w) = None ->
     In (Search r (strategyOf r) (Services.nextController (World.services w))
                (Env.dataViewId env) (Services.nextSubscription (World.services w))) new) /\
  (forall c,
     a = CallRefetch ->
     Hook.refetch (World.hook w) = Some c ->
     In (Search (AsyncSearch.request c) (strategyOf (AsyncSearch.request c))
                (Services.nextController (World.services w))
                (AsyncSearch.dataViewId c)
                (Services.nextSubscription (World.services w))) new).
Proof.
  intros Hlog. split; [| split].
  - intros r s ctrl ip sid Hin. exact (step_search_closure env a w new r s ctrl ip sid Hlog Hin).
  - intros h r -> Hreq Hcalls Hpage Hskip Hcase.
    cbn [step] in Hlog. unfold timelineSearchHandler in Hlog.
    rewrite Hcalls, Hreq in Hlog.
    destruct (timelineSearch_searches env r h w Hpage Hskip Hcase) as [pre [Hsent _]].
    rewrite Hsent in Hlog. apply app_inv_head in Hlog. subst new.
    apply in_or_app. right. now left.
  - intros c -> Hr.
    cbn [step] in Hlog. unfold refetchGrid in Hlog. rewrite Hr in Hlog.
    destruct (wrappedLoadPage_keeps env 0 (asyncSearch X c w)) as [_ [_ [cleared [Hc _]]]].
    rewrite Hc, asyncSearch_log, <- app_assoc in Hlog.
    apply app_inv_head in Hlog. subst new.
    apply in_or_app. left. right. now left.
Qed.

(** C10, as the code has it.  The handler sends nothing and changes
    nothing when the identity is the active timeline, the time range kind is
    not absolute and the derived request is deep-equal to the previously
    searched one; and also when no request was derived, the page has no name
    or the skip flag is set, whatever the identity.  Otherwise (a derived
    request on a named page without the skip flag, and another identity, an
    absolute time range or a request that differs) it sends the search for
    the derived request, also when that is deep-equal to the previous one;
    the one exception is the call answered from the cache (the page-change
    branch with a cached response), which only aborts the held controller. *)
Theorem handler_dispatch (env : Env.t) (h : option nat) (w : World.t) :
  let identical :=
    deepEqual (Request.optToValue (Hook.prevTimelineRequest (World.hook w)))
              (Request.optToValue (Hook.timelineRequest (World.hook w))) in
  let w' := timelineSearchHandler X env h w in
  (isActiveId X (Env.id env) = true /\
   Env.timerangeKind env <> Some absolute /\
   identical = true ->
   w' = w) /\
  (Hook.timelineRequest (World.hook w) = None \/
   Env.pageName env = "" \/
   Env.skip env = true ->
   w' = w) /\
  (forall r,
     Hook.timelineRequest (World.hook w) = Some r ->
     Env.pageName env <> "" ->
     Env.skip env = false ->
     isActiveId X (Env.id env) = false \/
     Env.timerangeKind env = Some absolute \/
     identical = false ->
     (pageChanged X env w = false \/ cachedResponse r (World.cache w) = None ->
      exists pre,
        logOf w' =
          logOf w ++ pre ++
          [ Search r (strategyOf r) (Services.nextController (World.services w))
                   (Env.dataViewId env) (Services.nextSubscription (World.services w)) ] /\
        Forall notSearch pre /\
        Hook.prevTimelineRequest (World.hook w') = Some r) /\
     (forall resp,
        pageChanged X env w = true ->
        cachedResponse r (World.cache w) = Some resp ->
        logOf w' = logOf w ++ [Abort (Hook.abortCtrl (World.hook w))])).
Proof.
  cbv zeta. unfold timelineSearchHandler, handlerSearches. split; [| split].
  - intros [Hactive [Hkind Hsame]]. rewrite Hactive, Hsame.
    destruct (Env.timerangeKind env) as [[|] |]; [congruence | reflexivity | reflexivity].
  - intros Hignored.
    destruct (negb (isActiveId X (Env.id env)) || _ || _); [| reflexivity].
    unfold timelineSearch.
    destruct (Hook.timelineRequest (World.hook w)) as [r |]; [| reflexivity].
    destruct Hignored as [H | [H | H]]; [discriminate | |]; rewrite H;
      [reflexivity | now rewrite orb_true_r].
  - intros r Hreq Hpage Hskip Hother.
    assert (Hsearch :
      negb (isActiveId X (Env.id env)) ||
      match Env.timerangeKind env with
      | Some absolute => true
      | _ => false
      end ||
      negb (deepEqual (Request.optToValue (Hook.prevTimelineRequest (World.hook w)))
                      (Request.optToValue (Hook.timelineRequest (World.hook w)))) = true).
    { destruct Hother as [H | [H | H]]; rewrite H; cbn;
        rewrite ?orb_true_r; reflexivity. }
    rewrite Hsearch, Hreq. split.
    + intros Hcase. now apply timelineSearch_searches.
    + intros resp Hchanged Hcached. now apply (timelineSearch_resumes env r h w resp).
Qed.

End Dispatches.

(* ------------------------------------------------------------------ *)
(** ** Executions *)

(** C1. Without [startDate] and [endDate] every derivation resets the page.
    A table whose inputs do not change at all between two derivations, and
    whose user asked for page 2 in between: the previous request and the
    newly derived one agree on the index list, the filter query, the page
    size, the sort, the time range, the runtime mappings and the EQL
    members, and still the derived page is 0 and the active page is put back
    from 2 to 0. *)
Theorem undated_rederivation_resets_page :
  let w := undatedOnPage2 in
  let w' := deriveRequest exampleExternals undatedEnv w in
  Hook.activePage (World.hook w) = 2 /\
  exists r r',
    Hook.timelineRequest (World.hook w) = Some r /\
    r' = currentRequest exampleExternals undatedEnv (Some r) 2 /\
    Request.defaultIndex r' = Request.defaultIndex r /\
    Request.filterQuery r' = Request.filterQuery r /\
    Pagination.querySize (Request.pagination r') =
      Pagination.querySize (Request.pagination r) /\
    Request.sort r' = Request.sort r /\
    Request.timerange r' = Request.timerange r /\
    Request.runtimeMappings r' = Request.runtimeMappings r /\
    Request.eqlProps r' = Request.eqlProps r /\
    Pagination.activePage (Request.pagination r') = 0 /\
    Hook.timelineRequest (World.hook w') = Some r' /\
    Hook.activePage (World.hook w') = 0.
Proof.
  cbv zeta. split; [reflexivity |].
  eexists. eexists. split; [reflexivity |]. split; [reflexivity |].
  vm_compute. repeat split.
Qed.

(** The same table with a time range keeps page 2. *)
Example dated_rederivation_keeps_page :
  let w := step exampleExternals alertsEnv (CallLoadPage 2) searching in
  let w' := deriveRequest exampleExternals alertsEnv w in
  Hook.activePage (World.hook w') = 2 /\
  option_map (fun r => Pagination.activePage (Request.pagination r))
             (Hook.timelineRequest (World.hook w')) = Some 2.
Proof. vm_compute. split; reflexivity. Qed.

(** C4. [refetchGrid] calls the remembered [asyncSearch] directly.  While
    the first search of a table is still running, a refetch sends a second
    search without unsubscribing the first subscription or aborting its
    controller: two subscriptions are open afterwards, and the ref holds
    only the second. *)
Theorem refetch_opens_second_subscription :
  let w := searching in
  let w' := step exampleExternals alertsEnv CallRefetch w in
  openSubscriptions w = [1%nat] /\
  openSubscriptions w' = [2%nat; 1%nat] /\
  Hook.searchSubscription (World.hook w') = 2%nat /\
  Services.aborted (World.services w') = [0%nat] /\
  exists r,
    logOf w' = logOf w ++ [ StartTracking "securitySolutionUI timeline events search";
                            Search r "timelineSearchStrategy" 2
                                   (Some "security-solution-default") 2 ].
Proof.
  cbv zeta. repeat split; try reflexivity.
  eexists. vm_compute. reflexivity.
Qed.

(** Counterexample to C3 as stated: the active timeline comes to the hosts
    page, the cache was filled on the alerts page and holds a response, but
    the skip flag is set.  [timelineSearch] returns at its first test: the
    cached response is not restored and nothing is aborted. *)
Lemma skip_flag_prevents_resume :
  let env := skippedEnv "hosts" in
  let w := mount exampleExternals env visitedCache in
  let w' := timelineSearch exampleExternals env (Some activeRequest) None w in
  isActiveId exampleExternals (Env.id env) = true /\
  ActiveTimeline.getPageName (World.cache w) = "alerts" /\
  Env.pageName env = "hosts" /\
  cachedResponse activeRequest (World.cache w) = Some hostsResponse /\
  Hook.timelineResponse (World.hook w') <> rebind (Env.id env) hostsResponse /\
  logOf w' = [] /\
  Services.aborted (World.services w') = [].
Proof.
  cbv zeta. repeat split; try reflexivity.
  vm_compute. intros H. discriminate H.
Qed.

(** Counterexample to C8 as stated.  After [loadPage(3)] the search handler
    of that render runs with the request derived for page 0: the search sent
    is for page 0 of the request, and the loading state becomes
    [loadingMore]. *)
Lemma page0_request_sent_as_loadingMore :
  let w := afterLoadPage3 in
  let w' := step exampleExternals alertsEnv (CallSearchHandler None) w in
  exists r,
    Hook.timelineRequest (World.hook w) = Some r /\
    Pagination.activePage (Request.pagination r) = 0 /\
    Hook.activePage (World.hook w) = 3 /\
    logOf w' = logOf w ++ [ Unsubscribe 1; Abort 1;
                            StartTracking "securitySolutionUI timeline events search";
                            Search r "timelineSearchStrategy" 2
                                   (Some "security-solution-default") 2 ] /\
    Hook.loading (World.hook w') = loadingMore.
Proof.
  cbv zeta. eexists. split; [reflexivity |]. split; [reflexivity |].
  split; [reflexivity |]. split; [vm_compute; reflexivity | reflexivity].
Qed.

(** Counterexample to C10 as stated.  A table that is not the active
    timeline, with the skip flag set: the derived request is there (and is
    deep-equal to the one searched before), and the handler sends nothing. *)
Lemma skipped_table_sends_nothing :
  let w := searching in
  isActiveId exampleExternals (Env.id skippedTableEnv) = false /\
  Hook.timelineRequest (World.hook w) = Some firstRequest /\
  Hook.prevTimelineRequest (World.hook w) = Some firstRequest /\
  timelineSearchHandler exampleExternals skippedTableEnv None w = w.
Proof. cbv zeta. repeat split. Qed.

(** A table that is not the active timeline searches again for a request
    deep-equal to the previous one; the active timeline does not. *)
Example other_identity_searches_again :
  let w := searching in
  let w' := step exampleExternals alertsEnv (CallSearchHandler None) w in
  Hook.prevTimelineRequest (World.hook w) = Hook.timelineRequest (World.hook w) /\
  logOf w' = logOf w ++ [ Unsubscribe 1; Abort 1;
                          StartTracking "securitySolutionUI timeline events search";
                          Search firstRequest "timelineSearchStrategy" 2
                                 (Some "security-solution-default") 2 ].
Proof. cbv zeta. split; [reflexivity | vm_compute; reflexivity]. Qed.

Example active_identity_skips_equal_request :
  step exampleExternals (activeEnv "alerts") (CallSearchHandler None) activeSearching =
  activeSearching.
Proof. vm_compute. reflexivity. Qed.

(** An EQL request goes out with the EQL strategy. *)
Example eql_search_uses_eql_strategy :
  let w := run exampleExternals
               [(correlationEnv, RunDeriveRequest); (correlationEnv, CallSearchHandler None)]
               (mount exampleExternals correlationEnv ActiveTimeline.empty) in
  exists r,
    Request.language r = eql /\
    logOf w = [ Unsubscribe 0; Abort 0;
                StartTracking "securitySolutionUI timeline events search";
                Search r "timelineEqlSearchStrategy" 1
                       (Some "security-solution-default") 1 ].
Proof. cbv zeta. eexists. split; [| vm_compute; reflexivity]. reflexivity. Qed.

(** lodash [isEmpty] holds of every number, so a numeric [size] and an empty
    [tiebreakerField] are not among the compared EQL members. *)
Example compared_eql_members :
  deStructureEqlOptions (Env.eqlOptions correlationEnv) =
  [ ("eventCategoryField", VStr "event.category"); ("timestampField", VStr "@timestamp") ].
Proof. reflexivity. Qed.

(* ------------------------------------------------------------------ *)
(** ** Instances *)

Lemma fieldRequested_monotone_instance :
  Env.indexNames alertsEnv <> [] /\
  exists r',
    Hook.timelineRequest
      (World.hook
         (deriveRequest exampleExternals alertsEnv
            (run exampleExternals
                 ([(alertsEnv, RunDeriveRequest)] ++ [(alertsEnv, CallSearchHandler None)])
                 (mount exampleExternals alertsEnv ActiveTimeline.empty)))) = Some r' /\
    (forall f, In f (Env.fields alertsEnv) -> In f (Request.fieldRequested r')) /\
    (forall f,
        In f (prevFieldRequested
                (Hook.timelineRequest
                   (World.hook
                      (run exampleExternals [(alertsEnv, RunDeriveRequest)]
                           (mount exampleExternals alertsEnv ActiveTimeline.empty))))) ->
        In f (Request.fieldRequested r')).
Proof.
  split; [discriminate |].
  apply (@fieldRequested_monotone exampleExternals
           [(alertsEnv, RunDeriveRequest)] [(alertsEnv, CallSearchHandler None)]
           alertsEnv (mount exampleExternals alertsEnv ActiveTimeline.empty)).
  discriminate.
Defined.

Lemma resume_from_cache_instance :
  let env := activeEnv "hosts" in
  let w := mount exampleExternals env visitedCache in
  let w' := timelineSearch exampleExternals env (Some activeRequest) None w in
  Hook.timelineResponse (World.hook w') = rebind (Env.id env) hostsResponse /\
  Hook.loading (World.hook w') = loaded /\
  logOf w' = logOf w ++ [Abort (Hook.abortCtrl (World.hook w))] /\
  In (Hook.abortCtrl (World.hook w)) (Services.aborted (World.services w')) /\
  Services.subscriptions (World.services w') = Services.subscriptions (World.services w).
Proof.
  apply (@resume_from_cache exampleExternals (activeEnv "hosts") activeRequest None
           (mount exampleExternals (activeEnv "hosts") visitedCache) hostsResponse);
    try reflexivity; discriminate.
Defined.

Lemma error_keeps_response_instance :
  subscriber 1 searching = Some firstSearch /\
  let w' := step exampleExternals alertsEnv (NotifyError 1 "Bad Request") searching in
  Hook.loading (World.hook w') = loaded /\
  logOf w' = logOf searching ++
             [ EndTracking (if signalAborted searching then "aborted" else "error");
               ShowError "Bad Request";
               Unsubscribe (Hook.searchSubscription (World.hook searching)) ] /\
  subscriber (Hook.searchSubscription (World.hook searching)) w' = None /\
  subscriber 1 w' = None /\
  Hook.timelineResponse (World.hook w') = Hook.timelineResponse (World.hook searching).
Proof.
  split; [reflexivity |].
  apply (@error_keeps_response exampleExternals alertsEnv 1 "Bad Request" searching
           firstSearch).
  reflexivity.
Defined.

Lemma filterClear_resets_instance :
  isEmpty (Env.filterQuery clearedEnv) = true /\
  let resp := Hook.timelineResponse (World.hook (filterClear clearedEnv searching)) in
  TimelineArgs.totalCount resp = -1 /\
  TimelineArgs.events resp = [] /\
  TimelineArgs.pageInfo resp = Pagination.mk 0 0 /\
  TimelineArgs.inspect resp = Inspect.mk [] [] /\
  TimelineArgs.refreshedAt resp = 0.
Proof.
  split; [reflexivity |].
  apply (@filterClear_resets clearedEnv searching). reflexivity.
Defined.

Lemma strategy_by_language_instance :
  In (Search firstRequest "timelineSearchStrategy" 1 (Some "security-solution-default") 1)
     (logOf (run exampleExternals
                 [(alertsEnv, RunDeriveRequest); (alertsEnv, CallSearchHandler None)]
                 (mount exampleExternals alertsEnv ActiveTimeline.empty))) /\
  ("timelineSearchStrategy" = "timelineEqlSearchStrategy" <->
   Request.language firstRequest = eql) /\
  (Request.language firstRequest <> eql ->
   "timelineSearchStrategy" = "timelineSearchStrategy").
Proof.
  assert (Hin :
    In (Search firstRequest "timelineSearchStrategy" 1 (Some "security-solution-default") 1)
       (logOf (run exampleExternals
                   [(alertsEnv, RunDeriveRequest); (alertsEnv, CallSearchHandler None)]
                   (mount exampleExternals alertsEnv ActiveTimeline.empty)))).
  { vm_compute. do 3 right. left. reflexivity. }
  split; [exact Hin |].
  exact (@strategy_by_language exampleExternals _ _ _ _ _ _ _ _ Hin).
Defined.

Lemma dispatch_loading_state_instance :
  let w := pausedOnPage3 in
  let w' := step exampleExternals skippedTableEnv CallRefetch w in
  Hook.activePage (World.hook w) = 3 /\
  Hook.refetch (World.hook w) = Some firstSearch /\
  In (Search firstRequest "timelineSearchStrategy" 2 (Some "security-solution-default") 2)
     (logOf w') /\
  Pagination.activePage (Request.pagination firstRequest) = 0 /\
  Hook.loading (World.hook w') = loading.
Proof.
  cbv zeta.
  assert (Hlog :
    logOf (step exampleExternals skippedTableEnv CallRefetch pausedOnPage3) =
    logOf pausedOnPage3 ++
    [ StartTracking "securitySolutionUI timeline events search";
      Search firstRequest "timelineSearchStrategy" 2 (Some "security-solution-default") 2 ])
    by (vm_compute; reflexivity).
  destruct (@dispatch_loading_state exampleExternals skippedTableEnv CallRefetch
              pausedOnPage3 _ Hlog) as [Hclosure [_ Hrefetch]].
  pose proof (Hrefetch firstSearch eq_refl eq_refl) as Hin.
  destruct (Hclosure _ _ _ _ _ Hin) as [c [_ [_ [Hloading [Horigin _]]]]].
  destruct Horigin as [[h [Ha _]] | [_ Hc]]; [discriminate Ha |].
  injection Hc as <-.
  split; [reflexivity |]. split; [reflexivity |].
  split; [rewrite Hlog; apply in_or_app; right; exact Hin |].
  split; [reflexivity |].
  exact Hloading.
Defined.

Lemma handler_dispatch_instance :
  let w := searching in
  let w' := timelineSearchHandler exampleExternals alertsEnv None w in
  Hook.prevTimelineRequest (World.hook w) = Hook.timelineRequest (World.hook w) /\
  exists pre,
    logOf w' =
      logOf w ++ pre ++
      [ Search firstRequest "timelineSearchStrategy" 2 (Some "security-solution-default") 2 ] /\
    Forall notSearch pre /\
    Hook.prevTimelineRequest (World.hook w') = Some firstRequest.
Proof.
  cbv zeta. split; [reflexivity |].
  destruct (@handler_dispatch exampleExternals alertsEnv None searching) as [_ [_ Hsends]].
  destruct (Hsends firstRequest eq_refl) as [Hsearch _];
    [discriminate | reflexivity | left; reflexivity |].
  apply Hsearch. left. reflexivity.
Defined.

Lemma timelineSearch_ignored_instance :
  Env.skip (skippedEnv "hosts") = true /\
  timelineSearch exampleExternals (skippedEnv "hosts") (Some activeRequest) None
                 (mount exampleExternals (skippedEnv "hosts") visitedCache) =
  mount exampleExternals (skippedEnv "hosts") visitedCache.
Proof.
  split; [reflexivity |].
  apply (@timelineSearch_ignored exampleExternals (skippedEnv "hosts") (Some activeRequest)
           None (mount exampleExternals (skippedEnv "hosts") visitedCache)).
  right. right. reflexivity.
Defined.

(* ------------------------------------------------------------------ *)
(** * Further properties *)

Unset Implicit Arguments.

(* ------------------------------------------------------------------ *)
(** ** Further properties of the derivation effect *)

Section Derivation.

Variable X : Externals.t.

(** Before any request was derived the two parameter objects differ in
    their index lists. *)
Lemma first_newActivePage (env : Env.t) (activePage : Z) :
  Env.indexNames env <> [] ->
  newActivePage X env None activePage = 0.
Proof.
  intros Hne. unfold newActivePage.
  destruct (deepEqual (prevSearchParameters X None) (currentSearchParameters X env))
    eqn:Heq; [| reflexivity].
  exfalso. unfold prevSearchParameters, currentSearchParameters in Heq.
  destruct (deepEqual_obj_member _ _ "defaultIndex" (VArr []) Heq) as [x [Hget Hx]].
  - apply in_or_app. left. left. reflexivity.
  - cbn in Hget. injection Hget as <-.
    destruct (Env.indexNames env); [congruence | discriminate].
Qed.

(** X1. The first derivation of a hook instance (no request yet, index list
    not empty) stores a request for page 0 whose field list is the input
    field list, and puts the active page to 0 whatever it was; for the active
    timeline a page other than 0 that was restored at mount is overwritten in
    the cache as well. *)
Theorem first_derivation (env : Env.t) (w : World.t) :
  Env.indexNames env <> [] ->
  Hook.timelineRequest (World.hook w) = None ->
  let w' := deriveRequest X env w in
  exists r,
    Hook.timelineRequest (World.hook w') = Some r /\
    Pagination.activePage (Request.pagination r) = 0 /\
    Request.fieldRequested r = Env.fields env /\
    Hook.activePage (World.hook w') = 0 /\
    (isActiveId X (Env.id env) = true ->
     Hook.activePage (World.hook w) <> 0 ->
     ActiveTimeline.getActivePage (World.cache w') = 0).
Proof.
  intros Hne Hnone. cbv zeta.
  exists (currentRequest X env None (Hook.activePage (World.hook w))).
  assert (Hfields : finalFieldRequest env None = Env.fields env).
  { unfold finalFieldRequest, newFieldsRequested. cbn [prevFieldRequested includes existsb negb].
    assert (Hall : filter (fun _ : string => true) (Env.fields env) = Env.fields env).
    { induction (Env.fields env) as [| f fs IH]; [reflexivity |]. cbn. now rewrite IH. }
    rewrite Hall. now destruct (Env.fields env). }
  unfold deriveRequest. rewrite Hnone.
  destruct (Env.indexNames env) as [| i rest] eqn:Hi; [congruence |].
  cbn [List.length Nat.eqb Request.optToValue]. cbv zeta.
  rewrite <- Hi in *. rewrite (first_newActivePage env (Hook.activePage (World.hook w)) Hne).
  change (deepEqual VNull (Request.toValue ?r)) with false. cbn [negb].
  destruct (Z.eqb (Hook.activePage (World.hook w)) 0) eqn:Hp; cbn [negb].
  - apply Z.eqb_eq in Hp. cbn.
    repeat split; try assumption; try reflexivity.
    + unfold currentRequest. cbn. now apply first_newActivePage.
    + intros _ Hnz. congruence.
  - destruct (isActiveId X (Env.id env)); cbn;
      repeat split; try assumption; try reflexivity;
      try (unfold currentRequest; cbn; now apply first_newActivePage);
      intros; congruence.
Qed.

(** X2. [deStructureEqlOptions] copies no member that lodash finds empty and
    no key twice; without options it copies nothing. *)
Theorem deStructureEqlOptions_members (o : option EqlOptions.t) :
  Forall (fun member => isEmpty (snd member) = false) (deStructureEqlOptions o) /\
  NoDup (map fst (deStructureEqlOptions o)) /\
  (o = None -> deStructureEqlOptions o = []).
Proof.
  split; [| split].
  - unfold deStructureEqlOptions.
    repeat match goal with
           | |- context [if negb (isEmpty ?v) then _ else _] =>
               let E := fresh "E" in destruct (isEmpty v) eqn:E; cbn [negb]
           end; cbn [app]; repeat constructor; assumption.
  - unfold deStructureEqlOptions.
    repeat match goal with
           | |- context [if negb (isEmpty ?v) then _ else _] =>
               destruct (isEmpty v); cbn [negb]
           end; cbn [app map fst];
      repeat (constructor; [cbn; intuition discriminate |]); constructor.
  - intros ->. reflexivity.
Qed.

End Derivation.

(* ------------------------------------------------------------------ *)
(** ** Further properties of searching *)

Section Searching.

Variable X : Externals.t.

Lemma cancelAndSearch_cache (c : AsyncSearch.t) (w : World.t) :
  World.cache (cancelAndSearch X c w) = World.cache w.
Proof. operations. branches; reflexivity. Qed.

(** X3. Once a call of [timelineSearch] got past its first test, the
    page-change branch is not open any more: an immediate second call with
    the same page name does not take it again. *)
Theorem page_change_is_consumed
        (env : Env.t) (r : Request.t) (h : option nat) (w : World.t) :
  Env.pageName env <> "" ->
  Env.skip env = false ->
  pageChanged X env (timelineSearch X env (Some r) h w) = false.
Proof.
  intros Hpage Hskip. unfold timelineSearch.
  rewrite (eqb_neq_false Hpage), Hskip. cbn [orb]. cbv zeta.
  destruct (pageChanged X env w) eqn:Hchanged.
  - assert (Hafter : forall w', ActiveTimeline.getPageName (World.cache w') = Env.pageName env ->
                                pageChanged X env w' = false).
    { intros w' Hname. unfold pageChanged. rewrite Hname, String.eqb_refl.
      cbn. now rewrite andb_false_r. }
    operations. branches; apply Hafter; reflexivity.
  - unfold pageChanged in *. now rewrite cancelAndSearch_cache.
Qed.

(** X4. A notification on an open subscription.  A running response changes
    nothing.  A final response sets the loading state to [loaded], replaces
    events, inspect, page info, total count and refresh stamp of the response
    state while keeping its id and callbacks, calls the result handler if
    there is one, and unsubscribes the held subscription. *)
Theorem next_notification
        (env : Env.t) (sid : nat) (response : StrategyResponse.t) (now : Z)
        (w : World.t) (c : AsyncSearch.t) :
  subscriber sid w = Some c ->
  let w' := step X env (NotifyNext sid response now) w in
  let prevResponse := Hook.timelineResponse (World.hook w) in
  (Externals.isRunningResponse X response = true -> w' = w) /\
  (Externals.isRunningResponse X response = false ->
   Hook.loading (World.hook w') = loaded /\
   Hook.timelineResponse (World.hook w') =
     TimelineArgs.mk (map TimelineEdges.node (StrategyResponse.edges response))
                     (TimelineArgs.id prevResponse)
                     (Externals.getInspectResponse X response (TimelineArgs.inspect prevResponse))
                     (TimelineArgs.loadPage prevResponse)
                     (StrategyResponse.pageInfo response)
                     (TimelineArgs.refetch prevResponse)
                     (StrategyResponse.totalCount response)
                     now /\
   subscriber (Hook.searchSubscription (World.hook w)) w' = None /\
   logOf w' = logOf w ++
              EndTracking "success" ::
              match AsyncSearch.onNextHandler c with
              | Some handler => [OnNext handler (Hook.timelineResponse (World.hook w'))]
              | None => []
              end ++ [Unsubscribe (Hook.searchSubscription (World.hook w))]).
Proof.
  intros Hsub. cbn [step]. rewrite Hsub. cbv zeta. unfold onNext. split.
  - intros Hrun. now rewrite Hrun.
  - intros Hrun. rewrite Hrun. cbn [negb]. cbv zeta.
    split; [| split; [| split]].
    + operations. branches; reflexivity.
    + operations. branches; reflexivity.
    + unfold subscriber. operations.
      destruct (isActiveId X (AsyncSearch.id c));
        destruct (isEql (Request.language (AsyncSearch.request c)));
        destruct (AsyncSearch.onNextHandler c); cbn; now rewrite find_closed.
    + unfold logOf. operations.
      destruct (AsyncSearch.onNextHandler c); branches; cbn;
        now rewrite <- ?app_assoc.
Qed.

(** What the page-change branch leaves when the cache has a response for
    the dialect of the request. *)
Lemma resume_effects
      (env : Env.t) (r : Request.t) (h : option nat) (w : World.t)
      (resp : TimelineArgs.t) :
  Env.pageName env <> "" ->
  Env.skip env = false ->
  pageChanged X env w = true ->
  cachedResponse r (World.cache w) = Some resp ->
  let w' := timelineSearch X env (Some r) h w in
  Hook.timelineResponse (World.hook w') = rebind (Env.id env) resp /\
  Hook.prevTimelineRequest (World.hook w') = cachedRequest r (World.cache w) /\
  Hook.loading (World.hook w') = loaded /\
  logOf w' = logOf w ++ [Abort (Hook.abortCtrl (World.hook w))].
Proof.
  intros Hpage Hskip Hchanged Hcached.
  unfold timelineSearch.
  rewrite (eqb_neq_false Hpage), Hskip, Hchanged. cbn [orb]. cbv zeta.
  unfold cachedResponse in Hcached.
  unfold resumeFromCache, cachedResponse, cachedRequest, logOf.
  destruct (isEql (Request.language r)); cbn in Hcached |- *; rewrite Hcached; cbn;
    repeat split.
Qed.

(** What a final response of the active timeline leaves. *)
Lemma onNext_stores
      (c : AsyncSearch.t) (response : StrategyResponse.t) (now : Z) (w : World.t) :
  Externals.isRunningResponse X response = false ->
  isActiveId X (AsyncSearch.id c) = true ->
  let w1 := onNext X c response now w in
  ActiveTimeline.getPageName (World.cache w1) = AsyncSearch.pageName c /\
  (if isEql (Request.language (AsyncSearch.request c))
   then ActiveTimeline.getEqlResponse (World.cache w1)
   else ActiveTimeline.getResponse (World.cache w1)) =
    Some (Hook.timelineResponse (World.hook w1)) /\
  (if isEql (Request.language (AsyncSearch.request c))
   then ActiveTimeline.getEqlRequest (World.cache w1)
   else ActiveTimeline.getRequest (World.cache w1)) = Some (AsyncSearch.request c) /\
  TimelineArgs.events (Hook.timelineResponse (World.hook w1)) =
    map TimelineEdges.node (StrategyResponse.edges response) /\
  TimelineArgs.refreshedAt (Hook.timelineResponse (World.hook w1)) = now /\
  Hook.abortCtrl (World.hook w1) = Hook.abortCtrl (World.hook w).
Proof.
  intros Hrun Hc. cbv zeta. unfold onNext. rewrite Hrun, Hc. cbn [negb]. cbv zeta.
  unfold unsubscribe, setLoading, closeSubscription, emit.
  destruct (isEql (Request.language (AsyncSearch.request c)));
    destruct (AsyncSearch.onNextHandler c); repeat split.
Qed.

(** X5. What a final response of the active timeline puts into the cache is
    what a later page change takes out of it.  After the [next] callback of
    closure [c] stored a response, a call of [timelineSearch] on another
    named page, for a request of the same dialect, restores that response
    (events, page info, total count and stamp; the callbacks are those of the
    hook), takes the request of [c] as the previous request, and sends no
    search. *)
Theorem cache_round_trip
        (env : Env.t) (c : AsyncSearch.t) (response : StrategyResponse.t) (now : Z)
        (r : Request.t) (h : option nat) (w : World.t) :
  Externals.isRunningResponse X response = false ->
  isActiveId X (AsyncSearch.id c) = true ->
  isActiveId X (Env.id env) = true ->
  AsyncSearch.pageName c <> "" ->
  Env.pageName env <> "" ->
  Env.pageName env <> AsyncSearch.pageName c ->
  Env.skip env = false ->
  isEql (Request.language r) = isEql (Request.language (AsyncSearch.request c)) ->
  let w1 := onNext X c response now w in
  let w2 := timelineSearch X env (Some r) h w1 in
  Hook.timelineResponse (World.hook w2) =
    rebind (Env.id env) (Hook.timelineResponse (World.hook w1)) /\
  TimelineArgs.events (Hook.timelineResponse (World.hook w2)) =
    map TimelineEdges.node (StrategyResponse.edges response) /\
  TimelineArgs.refreshedAt (Hook.timelineResponse (World.hook w2)) = now /\
  Hook.prevTimelineRequest (World.hook w2) = Some (AsyncSearch.request c) /\
  Hook.loading (World.hook w2) = loaded /\
  logOf w2 = logOf w1 ++ [Abort (Hook.abortCtrl (World.hook w))].
Proof.
  intros Hrun Hc Henv Hcpage Hpage Hdiff Hskip Hlang. cbv zeta.
  destruct (onNext_stores c response now w Hrun Hc)
    as [Hname [Hresp [Hreq [Hevents [Hstamp Hctrl]]]]].
  cbv zeta in Hname, Hresp, Hreq, Hevents, Hstamp, Hctrl.
  set (w1 := onNext X c response now w) in *.
  assert (Hchanged : pageChanged X env w1 = true).
  { unfold pageChanged.
    rewrite Henv, Hname, (eqb_neq_false Hcpage), (eqb_neq_false Hdiff). reflexivity. }
  assert (Hcached : cachedResponse r (World.cache w1) =
                    Some (Hook.timelineResponse (World.hook w1))).
  { unfold cachedResponse. rewrite Hlang. exact Hresp. }
  destruct (resume_effects env r h w1 (Hook.timelineResponse (World.hook w1))
                           Hpage Hskip Hchanged Hcached)
    as [Hrestored [Hprev [Hloading Hlog]]].
  cbv zeta in Hrestored, Hprev, Hloading, Hlog.
  rewrite Hrestored. cbn [rebind TimelineArgs.events TimelineArgs.refreshedAt].
  rewrite Hprev, Hlog, Hctrl. unfold cachedRequest. rewrite Hlang, Hreq.
  repeat split; assumption.
Qed.

(** X6. A call of [timelineSearch] that got past its first test arms
    [refetch] with its own request, also when it returned from the
    page-change branch without searching.  A refetch after it sends one
    search, for that request, without unsubscribing or aborting first, and
    puts the active page to 0. *)
Theorem refetch_after_search
        (env : Env.t) (r : Request.t) (h : option nat) (w : World.t) :
  Env.pageName env <> "" ->
  Env.skip env = false ->
  let w1 := timelineSearch X env (Some r) h w in
  let w2 := refetchGrid X env w1 in
  Hook.activePage (World.hook w2) = 0 /\
  Hook.prevTimelineRequest (World.hook w2) = Some r /\
  exists rest,
    logOf w2 = logOf w1 ++
               StartTracking (Externals.APP_UI_ID X ++ " timeline events search") ::
               Search r (strategyOf r) (Services.nextController (World.services w1))
                      (Env.dataViewId env) (Services.nextSubscription (World.services w1)) ::
               rest /\
    Forall notSearch rest.
Proof.
  intros Hpage Hskip. cbv zeta.
  assert (Harmed : exists a,
             Hook.refetch (World.hook (timelineSearch X env (Some r) h w)) =
             Some (AsyncSearch.mk r h a (Env.pageName env) (Env.id env) (Env.dataViewId env))).
  { unfold timelineSearch. rewrite (eqb_neq_false Hpage), Hskip. cbn [orb]. cbv zeta.
    eexists. operations. branches; reflexivity. }
  destruct Harmed as [a Harmed].
  generalize dependent (timelineSearch X env (Some r) h w). intros w1 Harmed.
  unfold refetchGrid. rewrite Harmed.
  split; [| split].
  - operations. branches; reflexivity.
  - operations. branches; reflexivity.
  - unfold logOf. operations.
    destruct (existsb _ _); branches; cbn; rewrite <- ?app_assoc; cbn [app];
      eexists; (split; [reflexivity | repeat constructor]).
Qed.

End Searching.

(* ------------------------------------------------------------------ *)
(** ** Further invariants of runs *)

Section MoreInvariants.

Variable X : Externals.t.

Lemma step_pageMirrored (env : Env.t) (a : Action) (w : World.t) :
  isActiveId X (Env.id env) = true ->
  pageMirrored w -> pageMirrored (step X env a w).
Proof.
  unfold pageMirrored. intros Hactive Hw.
  destruct a; cbn [step].
  - unfold deriveRequest. rewrite Hactive. branches; cbn; congruence.
  - operations. branches; cbn; congruence.
  - operations. branches; cbn; congruence.
  - operations. rewrite Hactive. branches; cbn; congruence.
  - operations. rewrite Hactive. branches; cbn; congruence.
  - operations. branches; cbn; congruence.
  - operations. branches; cbn; congruence.
Qed.

(** X7. For the active timeline the page in the cache and the [activePage]
    state never part: they are equal at mount and after every effect,
    callback and notification of a run made with the active id. *)
Theorem active_page_mirrored
        (tr : list (Env.t * Action)) (env : Env.t) (cache : ActiveTimeline.t) :
  isActiveId X (Env.id env) = true ->
  everyId (isActiveId X) tr ->
  pageMirrored (run X tr (mount X env cache)).
Proof.
  intros Hactive Htr.
  assert (Hmount : pageMirrored (mount X env cache)).
  { unfold pageMirrored, mount. cbn. now rewrite Hactive. }
  revert Hmount. generalize (mount X env cache).
  induction Htr as [| [env' a] tr Hhead Htr IH]; intros w Hw; cbn [run]; [exact Hw |].
  apply IH. now apply step_pageMirrored.
Qed.

Lemma Forall_filter_keeps {A : Type} (P : A -> Prop) (f : A -> bool) (l : list A) :
  Forall P l -> Forall P (filter f l).
Proof.
  induction 1 as [| x l Hx Hl IH]; cbn; [constructor |].
  destruct (f x); [now constructor | exact IH].
Qed.

Lemma subscriber_In (sid : nat) (w : World.t) (c : AsyncSearch.t) :
  subscriber sid w = Some c ->
  In (sid, c) (Services.subscriptions (World.services w)).
Proof.
  unfold subscriber.
  destruct (find _ _) as [[n c'] |] eqn:Hfind; [| discriminate].
  intros H. injection H as <-.
  apply find_some in Hfind. destruct Hfind as [Hin Heq].
  cbn in Heq. apply Nat.eqb_eq in Heq. now subst.
Qed.

Ltac closures :=
  repeat first [ assumption
               | split
               | apply Forall_cons
               | apply Forall_filter_keeps
               | exact I ].

Ltac ifs :=
  repeat match goal with
         | |- context [if ?b then _ else _] => destruct b
         end.

Lemma step_other_identity (env : Env.t) (a : Action) (w : World.t) :
  let other := fun id => negb (isActiveId X id) in
  other (Env.id env) = true ->
  closureIds other w ->
  World.cache (step X env a w) = World.cache w /\ closureIds other (step X env a w).
Proof.
  intros other Henv [Hsubs Hrefetch].
  assert (Hactive : isActiveId X (Env.id env) = false).
  { unfold other in Henv. now apply negb_true_iff in Henv. }
  unfold closureIds.
  destruct a; cbn [step].
  - unfold deriveRequest. rewrite Hactive. ifs; cbn; closures.
  - operations. ifs; cbn; closures.
  - unfold timelineSearchHandler, timelineSearch, pageChanged. rewrite Hactive.
    cbn [andb]. operations.
    destruct (Hook.timelineRequest (World.hook w)); ifs; cbn; closures.
  - operations. rewrite Hactive. ifs; cbn; closures.
  - operations. rewrite Hactive.
    destruct (Hook.refetch (World.hook w)) as [c0 |] eqn:Hr; ifs; cbn; rewrite ?Hr; closures.
  - destruct (subscriber sid w) as [c |] eqn:Hc; [| closures].
    apply subscriber_In in Hc.
    rewrite Forall_forall in Hsubs. pose proof (Hsubs _ Hc) as Hid.
    rewrite <- Forall_forall in Hsubs.
    cbn in Hid. unfold other in Hid. apply negb_true_iff in Hid.
    unfold onNext. rewrite Hid. operations.
    destruct (AsyncSearch.onNextHandler c); ifs; cbn; closures.
  - destruct (subscriber sid w) as [c |] eqn:Hc; [| closures].
    operations. ifs; cbn; closures.
Qed.

(** X8. A hook used with ids other than the active timeline's never writes
    the page-scoped cache: whatever the run, the cache is the one found at
    mount (page, page name, requests and responses). *)
Theorem other_identity_keeps_cache
        (tr : list (Env.t * Action)) (env : Env.t) (cache : ActiveTimeline.t) :
  everyId (fun id => negb (isActiveId X id)) tr ->
  World.cache (run X tr (mount X env cache)) = cache.
Proof.
  intros Htr.
  assert (Hmount : World.cache (mount X env cache) = cache /\
                   closureIds (fun id => negb (isActiveId X id)) (mount X env cache)).
  { split; [reflexivity |]. split; [constructor | exact I]. }
  revert Hmount. generalize (mount X env cache).
  induction Htr as [| [env' a] tr Hhead Htr IH]; intros w [Hw Hclos]; cbn [run]; [exact Hw |].
  apply IH. destruct (step_other_identity env' a w Hhead Hclos) as [Hcache Hclos'].
  split; [congruence | exact Hclos'].
Qed.

Lemma Forall_lt_weaken (l : list nat) (n m : nat) :
  Forall (fun c => (c < n)%nat) l -> (n <= m)%nat -> Forall (fun c => (c < m)%nat) l.
Proof.
  intros Hl Hnm. eapply Forall_impl; [| exact Hl]. cbn. intros. lia.
Qed.

Ltac fresh_numbers :=
  repeat first [ split
               | assumption
               | lia
               | apply Forall_cons
               | (eapply Forall_lt_weaken; [eassumption | lia]) ].

Lemma step_controllersFresh (env : Env.t) (a : Action) (w : World.t) :
  controllersFresh w -> controllersFresh (step X env a w).
Proof.
  unfold controllersFresh. intros [Hheld Haborted].
  destruct a; cbn [step].
  - unfold deriveRequest. branches; cbn; fresh_numbers.
  - operations. branches; cbn; fresh_numbers.
  - operations.
    destruct (handlerSearches X env w); [| fresh_numbers].
    destruct (Hook.timelineRequest (World.hook w)); [| fresh_numbers].
    branches; cbn; fresh_numbers.
  - operations. branches; cbn; fresh_numbers.
  - operations. branches; cbn; fresh_numbers.
  - operations. branches; cbn; fresh_numbers.
  - operations. branches; cbn; fresh_numbers.
Qed.

Lemma run_controllersFresh (tr : list (Env.t * Action)) (w : World.t) :
  controllersFresh w -> controllersFresh (run X tr w).
Proof.
  revert w. induction tr as [| [env a] tr IH]; intros w Hw; cbn [run]; [exact Hw |].
  apply IH. now apply step_controllersFresh.
Qed.

(** X9. A search always starts on an abort signal that is not aborted.  At
    any point of any run, [asyncSearch] leaves a held controller that was
    never aborted, also when the controller held before was aborted a
    moment earlier by the tail of [timelineSearch]. *)
Theorem search_signal_not_aborted
        (tr : list (Env.t * Action)) (env : Env.t) (cache : ActiveTimeline.t)
        (c : AsyncSearch.t) :
  let w := run X tr (mount X env cache) in
  signalAborted (asyncSearch X c w) = false /\
  signalAborted (cancelAndSearch X c w) = false.
Proof.
  cbv zeta.
  assert (Hfresh : controllersFresh (run X tr (mount X env cache))).
  { apply run_controllersFresh. unfold controllersFresh, mount. cbn.
    split; [lia | constructor]. }
  destruct Hfresh as [Hheld Haborted].
  assert (Hnot : forall l n, Forall (fun c => (c < n)%nat) l -> existsb (Nat.eqb n) l = false).
  { intros l n Hl. induction Hl as [| x l Hx Hl IH]; cbn; [reflexivity |].
    rewrite IH, orb_false_r. apply Nat.eqb_neq. lia. }
  split; unfold signalAborted; operations; branches; cbn.
  all: try (apply Hnot; exact Haborted).
  all: rewrite Hnot by exact Haborted; rewrite orb_false_r; apply Nat.eqb_neq; lia.
Qed.

End MoreInvariants.

(* ------------------------------------------------------------------ *)
(** ** Fixed points *)

Section FixedPoints.

Variable X : Externals.t.

Lemma deepEqual_nullish_right (a b : value) :
  isNullish a = false -> isNullish b = true -> deepEqual a b = false.
Proof. destruct a, b; cbn; congruence. Qed.

Lemma nullish_not_nullish (a d : value) :
  isNullish d = false -> isNullish (nullish a d) = false.
Proof. destruct a; cbn; congruence. Qed.

(** A filter, sort or runtime mappings that is [null] or [undefined] never
    compares equal to the previous request's, which has a default in its
    place. *)
Lemma nullish_parameter_newActivePage
      (env : Env.t) (prev : option Request.t) (activePage : Z) :
  isNullish (Externals.createFilter X (Env.filterQuery env)) = true \/
  isNullish (Env.sort env) = true \/
  isNullish (Env.runtimeMappings env) = true ->
  newActivePage X env prev activePage = 0.
Proof.
  intros Hnull. unfold newActivePage.
  destruct (deepEqual (prevSearchParameters X prev) (currentSearchParameters X env))
    eqn:Heq; [| reflexivity].
  exfalso. unfold prevSearchParameters, currentSearchParameters in Heq.
  destruct Hnull as [Hn | [Hn | Hn]].
  - match type of Heq with
    | deepEqual (VObj ((_ :: (?k, ?v) :: _) ++ _)) _ = true =>
        destruct (deepEqual_obj_member _ _ k v Heq) as [x [Hget Hx]]
    end.
    + apply in_or_app. left. simpl. right. left. reflexivity.
    + cbn in Hget. injection Hget as <-.
      rewrite deepEqual_nullish_right in Hx; [discriminate | | exact Hn].
      now apply nullish_not_nullish.
  - match type of Heq with
    | deepEqual (VObj ((_ :: _ :: _ :: (?k, ?v) :: _) ++ _)) _ = true =>
        destruct (deepEqual_obj_member _ _ k v Heq) as [x [Hget Hx]]
    end.
    + apply in_or_app. left. simpl. do 3 right. left. reflexivity.
    + cbn in Hget. injection Hget as <-.
      rewrite deepEqual_nullish_right in Hx; [discriminate | | exact Hn].
      apply nullish_not_nullish. reflexivity.
  - match type of Heq with
    | deepEqual (VObj ((_ :: _ :: _ :: _ :: _ :: (?k, ?v) :: _) ++ _)) _ = true =>
        destruct (deepEqual_obj_member _ _ k v Heq) as [x [Hget Hx]]
    end.
    + apply in_or_app. left. simpl. do 5 right. left. reflexivity.
    + cbn in Hget. injection Hget as <-.
      rewrite deepEqual_nullish_right in Hx; [discriminate | | exact Hn].
      now apply nullish_not_nullish.
Qed.

Lemma newFieldsRequested_none (env : Env.t) (r : Request.t) :
  (forall f, In f (Env.fields env) -> In f (Request.fieldRequested r)) ->
  newFieldsRequested env (Some r) = [].
Proof.
  intros Hall. unfold newFieldsRequested. cbn [prevFieldRequested].
  induction (Env.fields env) as [| f fs IH]; [reflexivity |].
  cbn [filter].
  assert (Hf : includes (Request.fieldRequested r) f = true).
  { apply includes_In. apply Hall. now left. }
  rewrite Hf. cbn [negb]. apply IH. intros g Hg. apply Hall. now right.
Qed.

Lemma finalFieldRequest_settled (env : Env.t) (prev : option Request.t) (activePage : Z) :
  finalFieldRequest env (Some (currentRequest X env prev activePage)) =
  finalFieldRequest env prev.
Proof.
  unfold finalFieldRequest at 1.
  rewrite newFieldsRequested_none.
  - reflexivity.
  - intros f Hf. cbn. now apply finalFieldRequest_adds.
Qed.

Lemma same_request_state (w : World.t) (r : Request.t) :
  Hook.timelineRequest (World.hook w) = Some r ->
  updHook (Hook.set_timelineRequest (Some r)) w = w.
Proof.
  destruct w as [hk ca sv]. destruct hk. cbn. intros ->. reflexivity.
Qed.

(** The page the derivation computes from the state it left is the page it
    computed to leave it. *)
Lemma newActivePage_settled (env : Env.t) (w : World.t) :
  Env.indexNames env <> [] ->
  wellFormed (Externals.createFilter X (Env.filterQuery env)) = true ->
  wellFormed (Env.sort env) = true ->
  wellFormed (Env.runtimeMappings env) = true ->
  Forall (fun member => wellFormed (snd member) = true)
         (deStructureEqlOptions (Env.eqlOptions env)) ->
  let prev := Hook.timelineRequest (World.hook w) in
  let page := newActivePage X env prev (Hook.activePage (World.hook w)) in
  newActivePage X env (Hook.timelineRequest (World.hook (deriveRequest X env w))) page = page.
Proof.
  intros Hne HFw HSw HRw Heql prev page.
  rewrite (deriveRequest_timelineRequest X env w Hne). fold prev.
  destruct (deepEqual (Request.optToValue prev)
                      (Request.toValue (currentRequest X env prev (Hook.activePage (World.hook w))))).
  - subst page. unfold newActivePage.
    destruct (deepEqual (prevSearchParameters X prev) (currentSearchParameters X env));
      reflexivity.
  - destruct (timerangeOf env) eqn:Hdated.
    + destruct (isNullish (Externals.createFilter X (Env.filterQuery env))) eqn:HFn;
        [| destruct (isNullish (Env.sort env)) eqn:HSn;
           [| destruct (isNullish (Env.runtimeMappings env)) eqn:HRn ] ].
      * subst page. rewrite !nullish_parameter_newActivePage by (left; exact HFn).
        reflexivity.
      * subst page. rewrite !nullish_parameter_newActivePage by (right; left; exact HSn).
        reflexivity.
      * subst page. rewrite !nullish_parameter_newActivePage by (right; right; exact HRn).
        reflexivity.
      * apply dated_newActivePage; try assumption. congruence.
    + subst page. rewrite !undated_newActivePage by exact Hdated. reflexivity.
Qed.

Lemma deriveRequest_activePage (env : Env.t) (w : World.t) :
  Env.indexNames env <> [] ->
  Hook.activePage (World.hook (deriveRequest X env w)) =
  newActivePage X env (Hook.timelineRequest (World.hook w)) (Hook.activePage (World.hook w)).
Proof.
  intros Hne. unfold deriveRequest.
  destruct (Env.indexNames env) as [| i rest] eqn:Hi; [congruence |].
  cbn [List.length Nat.eqb]. cbv zeta.
  destruct (Z.eqb (Hook.activePage (World.hook w))
                  (newActivePage X env (Hook.timelineRequest (World.hook w))
                                 (Hook.activePage (World.hook w)))) eqn:Hp;
    cbn [negb]; branches; cbn; try reflexivity; now apply Z.eqb_eq in Hp.
Qed.

(** X10. The derivation effect settles after one run.  With well-formed
    inputs (no object has a key twice), running it again on the state it
    left, with the same parameters, changes nothing: neither the request
    state, nor the active page, nor the cache. *)
Theorem deriveRequest_idempotent (env : Env.t) (w : World.t) :
  wellFormed (Externals.createFilter X (Env.filterQuery env)) = true ->
  wellFormed (Env.sort env) = true ->
  wellFormed (Env.runtimeMappings env) = true ->
  Forall (fun member => wellFormed (snd member) = true)
         (deStructureEqlOptions (Env.eqlOptions env)) ->
  deriveRequest X env (deriveRequest X env w) = deriveRequest X env w.
Proof.
  intros HFw HSw HRw Heql.
  destruct (Env.indexNames env) as [| i rest] eqn:Hi.
  { unfold deriveRequest. now rewrite Hi. }
  assert (Hne : Env.indexNames env <> []) by congruence.
  pose proof (newActivePage_settled env w Hne HFw HSw HRw Heql) as Hpage.
  pose proof (deriveRequest_activePage env w Hne) as Hactive.
  pose proof (deriveRequest_timelineRequest X env w Hne) as Hreq.
  cbv zeta in Hpage, Hreq.
  set (prev := Hook.timelineRequest (World.hook w)) in *.
  set (a0 := Hook.activePage (World.hook w)) in *.
  set (w1 := deriveRequest X env w) in *.
  unfold deriveRequest at 1. rewrite Hi. cbn [List.length Nat.eqb]. cbv zeta.
  rewrite Hactive, Hpage, Z.eqb_refl. cbn [negb].
  assert (Hcur : currentRequest X env (Hook.timelineRequest (World.hook w1))
                                (newActivePage X env prev a0) =
                 currentRequest X env prev a0).
  { unfold currentRequest. rewrite Hpage. rewrite Hreq.
    destruct (deepEqual (Request.optToValue prev) (Request.toValue (currentRequest X env prev a0)));
      [reflexivity |].
    rewrite finalFieldRequest_settled. reflexivity. }
  rewrite Hcur.
  destruct (deepEqual (Request.optToValue (Hook.timelineRequest (World.hook w1)))
                      (Request.toValue (currentRequest X env prev a0))) eqn:Hsame;
    cbn [negb]; [reflexivity |].
  apply same_request_state. rewrite Hreq.
  destruct (deepEqual (Request.optToValue prev) (Request.toValue (currentRequest X env prev a0)))
    eqn:Hfirst; [| reflexivity].
  rewrite Hreq, Hfirst in Hsame. congruence.
Qed.

Lemma deepEqual_request_page (r r' : Request.t) :
  deepEqual (Request.toValue r) (Request.toValue r') = true ->
  Pagination.activePage (Request.pagination r) =
  Pagination.activePage (Request.pagination r').
Proof.
  intros H. unfold Request.toValue in H.
  destruct (deepEqual_obj_member _ _ "pagination"
              (Pagination.toValue (Request.pagination r)) H) as [x [Hget Heq]].
  - simpl. do 5 right. left. reflexivity.
  - simpl in Hget. injection Hget as <-.
    unfold Pagination.toValue in Heq. cbn in Heq.
    apply andb_true_iff in Heq. destruct Heq as [Heq _].
    now apply Z.eqb_eq in Heq.
Qed.

(** X11. Paging.  When the request state was derived from the current
    parameters, these have a time range and well-formed values, and filter,
    sort and runtime mappings are neither [null] nor [undefined], then
    [loadPage(n)] followed by the derivation effect leaves a request for
    page [n] with the field list unchanged, and [n] as the active page. *)
Theorem loadPage_then_derive
        (env : Env.t) (prev : option Request.t) (page0 n : Z) (w : World.t) :
  Env.indexNames env <> [] ->
  timerangeOf env <> None ->
  isNullish (Externals.createFilter X (Env.filterQuery env)) = false ->
  wellFormed (Externals.createFilter X (Env.filterQuery env)) = true ->
  isNullish (Env.sort env) = false ->
  wellFormed (Env.sort env) = true ->
  isNullish (Env.runtimeMappings env) = false ->
  wellFormed (Env.runtimeMappings env) = true ->
  Forall (fun member => wellFormed (snd member) = true)
         (deStructureEqlOptions (Env.eqlOptions env)) ->
  Hook.timelineRequest (World.hook w) = Some (currentRequest X env prev page0) ->
  let w' := deriveRequest X env (wrappedLoadPage X env n w) in
  Hook.activePage (World.hook w') = n /\
  exists r,
    Hook.timelineRequest (World.hook w') = Some r /\
    Pagination.activePage (Request.pagination r) = n /\
    Request.fieldRequested r = Request.fieldRequested (currentRequest X env prev page0).
Proof.
  intros Hne Hdated HFn HFw HSn HSw HRn HRw Heql Hstate. cbv zeta.
  assert (Hload : Hook.timelineRequest (World.hook (wrappedLoadPage X env n w)) =
                  Some (currentRequest X env prev page0) /\
                  Hook.activePage (World.hook (wrappedLoadPage X env n w)) = n).
  { operations. branches; cbn; split; first [exact Hstate | reflexivity]. }
  destruct Hload as [Hreq Hpage].
  generalize dependent (wrappedLoadPage X env n w). intros w2 Hreq Hpage.
  assert (Hnew : newActivePage X env (Some (currentRequest X env prev page0)) n = n).
  { now apply dated_newActivePage. }
  split.
  - rewrite (deriveRequest_activePage env w2 Hne), Hreq, Hpage. exact Hnew.
  - rewrite (deriveRequest_timelineRequest X env w2 Hne), Hreq, Hpage.
    set (cur := currentRequest X env (Some (currentRequest X env prev page0)) n).
    assert (Hcurpage : Pagination.activePage (Request.pagination cur) = n) by exact Hnew.
    assert (Hcurfields : Request.fieldRequested cur =
                         Request.fieldRequested (currentRequest X env prev page0)).
    { subst cur. cbn. apply finalFieldRequest_settled. }
    destruct (deepEqual (Request.optToValue (Some (currentRequest X env prev page0)))
                        (Request.toValue cur)) eqn:Hsame.
    + exists (currentRequest X env prev page0). split; [reflexivity |].
      cbn [Request.optToValue] in Hsame.
      split; [| reflexivity].
      rewrite (deepEqual_request_page _ _ Hsame). exact Hcurpage.
    + exists cur. split; [reflexivity |]. split; assumption.
Qed.

(** X12. The handler does not search twice for the same request.  For the
    active timeline with a time range that is not absolute, on a page whose
    name the cache already has (or none yet), and with a well-formed request
    state: a second call right after a first one changes nothing and sends
    nothing. *)
Theorem handler_idempotent (env : Env.t) (h h' : option nat) (w : World.t) :
  isActiveId X (Env.id env) = true ->
  Env.timerangeKind env <> Some absolute ->
  pageChanged X env w = false ->
  wellFormed (Request.optToValue (Hook.timelineRequest (World.hook w))) = true ->
  timelineSearchHandler X env h' (timelineSearchHandler X env h w) =
  timelineSearchHandler X env h w.
Proof.
  intros Hactive Hkind Hpage Hwf.
  assert (Hk : match Env.timerangeKind env with
               | Some absolute => true
               | _ => false
               end = false).
  { destruct (Env.timerangeKind env) as [[|] |]; congruence. }
  assert (Hcases :
    timelineSearchHandler X env h w = w \/
    exists r c,
      Hook.timelineRequest (World.hook w) = Some r /\
      AsyncSearch.request c = r /\
      timelineSearchHandler X env h w = cancelAndSearch X c w).
  { unfold timelineSearchHandler.
    destruct (handlerSearches X env w); [| now left].
    unfold timelineSearch.
    destruct (Hook.timelineRequest (World.hook w)) as [r |]; [| now left].
    destruct (String.eqb (Env.pageName env) "" || Env.skip env); [now left |].
    rewrite Hpage. cbv zeta. right. eexists. eexists.
    split; [reflexivity |]. split; [| reflexivity]. reflexivity. }
  destruct Hcases as [Hsame | [r [c [Hreq [Hc Hsearched]]]]].
  - rewrite Hsame.
    unfold timelineSearchHandler in Hsame |- *.
    destruct (handlerSearches X env w); [| reflexivity].
    unfold timelineSearchHandler in Hsame.
    generalize dependent (Hook.timelineRequest (World.hook w)). intros req _ Hsame.
    revert Hsame. unfold timelineSearch.
    destruct req as [r |]; [| reflexivity].
    destruct (String.eqb (Env.pageName env) "" || Env.skip env); [reflexivity |].
    rewrite Hpage. cbv zeta. intros Hsame.
    (* the first call searched and yet left the world as it was: impossible,
       the log grew *)
    exfalso.
    assert (Hlog := f_equal logOf Hsame). rewrite cancelAndSearch_log in Hlog.
    apply (f_equal (@List.length Effect)) in Hlog.
    rewrite length_app in Hlog. cbn in Hlog. lia.
  - rewrite Hsearched.
    unfold timelineSearchHandler.
    replace (handlerSearches X env (cancelAndSearch X c w)) with false; [reflexivity |].
    symmetry. unfold handlerSearches. rewrite Hactive, Hk. cbn [negb orb].
    assert (Hstate :
      Hook.prevTimelineRequest (World.hook (cancelAndSearch X c w)) = Some r /\
      Hook.timelineRequest (World.hook (cancelAndSearch X c w)) = Some r).
    { subst r. operations. branches; cbn; split; first [exact Hreq | reflexivity]. }
    destruct Hstate as [-> ->].
    rewrite Hreq in Hwf. cbn [Request.optToValue] in *.
    now rewrite (deepEqual_refl _ Hwf).
Qed.

End FixedPoints.

(* ------------------------------------------------------------------ *)
(** ** The legacy enable route *)

(** X13. The enable route answers 204 exactly when the license check
    passes, the alerting context is registered and gives a rules client, and
    [enableRule] succeeds for the id of the path; then the usage of the
    route was counted once and [enableRule] called once, in this order. *)
Theorem enable_noContent (req : EnableRoute.Request) :
  (snd (EnableRoute.handler req) = EnableRoute.Returned EnableRoute.noContent <->
   EnableRoute.verifyApiAccess req = None /\
   exists rulesClient,
     EnableRoute.alerting req = Some (inr rulesClient) /\
     EnableRoute.enableRule rulesClient (EnableRoute.id req) = None) /\
  (snd (EnableRoute.handler req) = EnableRoute.Returned EnableRoute.noContent ->
   fst (EnableRoute.handler req) =
   [ EnableRoute.TrackLegacyRouteUsage "enable" (EnableRoute.usageCounter req);
     EnableRoute.EnableRule (EnableRoute.id req) ]).
Proof.
  unfold EnableRoute.handler.
  destruct (EnableRoute.verifyApiAccess req) as [t |].
  { cbn. split; [split |]; [discriminate | intros [H _]; discriminate | discriminate]. }
  destruct (EnableRoute.alerting req) as [[t | rulesClient] |]; cbn.
  - split; [split |]; [discriminate | | discriminate].
    intros [_ [c [H _]]]. discriminate.
  - destruct (EnableRoute.enableRule rulesClient (EnableRoute.id req)) as [[e | e] |] eqn:He;
      cbn; (split; [split |]); try discriminate; try reflexivity.
    + intros [_ [c [Hc Hok]]]. injection Hc as <-. congruence.
    + intros [_ [c [Hc Hok]]]. injection Hc as <-. congruence.
    + intros _. split; [reflexivity |]. exists rulesClient. now split.
  - split; [split |]; [discriminate | | discriminate].
    intros [_ [c [H _]]]. discriminate.
Qed.

(** X14. The enable route never touches the rules client, and never counts
    usage, before the license check passed and the alerting context was
    found: [enableRule] is called with the id of the path only, after both;
    a failed license check raises with no call made; a missing context is
    answered with the bad-request message with no call made.  Usage is
    counted also when [enableRule] then fails. *)
Theorem enable_guarded (req : EnableRoute.Request) :
  (forall i, In (EnableRoute.EnableRule i) (fst (EnableRoute.handler req)) ->
             i = EnableRoute.id req /\
             EnableRoute.verifyApiAccess req = None /\
             exists rulesClient, EnableRoute.alerting req = Some (inr rulesClient)) /\
  (forall route counter,
      In (EnableRoute.TrackLegacyRouteUsage route counter) (fst (EnableRoute.handler req)) <->
      route = "enable" /\ counter = EnableRoute.usageCounter req /\
      EnableRoute.verifyApiAccess req = None /\ EnableRoute.alerting req <> None) /\
  (forall t, EnableRoute.verifyApiAccess req = Some t ->
             EnableRoute.handler req = ([], EnableRoute.Raised t)) /\
  (EnableRoute.verifyApiAccess req = None -> EnableRoute.alerting req = None ->
   EnableRoute.handler req =
   ([], EnableRoute.Returned
          (EnableRoute.badRequest "RouteHandlerContext is not registered for alerting"))).
Proof.
  unfold EnableRoute.handler.
  destruct (EnableRoute.verifyApiAccess req) as [t |];
    [| destruct (EnableRoute.alerting req) as [[t | rulesClient] |];
       [| destruct (EnableRoute.enableRule rulesClient (EnableRoute.id req)) as [[e | e] |] |] ];
    cbn; repeat split; intros;
    repeat match goal with
           | H : _ \/ _ |- _ => destruct H
           | H : _ /\ _ |- _ => destruct H
           | H : False |- _ => contradiction
           | H : EnableRoute.EnableRule _ = EnableRoute.EnableRule _ |- _ =>
               injection H as <-
           | H : EnableRoute.TrackLegacyRouteUsage _ _ = EnableRoute.TrackLegacyRouteUsage _ _ |- _ =>
               injection H as <- <-
           end;
    subst; try discriminate; try congruence; try reflexivity;
    try (eexists; reflexivity); auto.
Qed.

(* ------------------------------------------------------------------ *)
(** ** Agentless setup *)

(** X15. [useAgentless] reports an agent policy as agentless only on cloud
    or serverless, with [config.agentless.enabled] being [true], and for a
    policy that is given and supports agentless; an integration only under
    the first two conditions. *)
Theorem agentless_requires
        (isAgentlessIntegrationFn : option value -> bool)
        (cloud : option Agentless.Cloud) (config : Agentless.Config)
        (agentPolicy : option Agentless.Policy) (packageInfo : option value) :
  let onPlatform :=
    exists c, cloud = Some c /\
              (Agentless.isCloudEnabled c = Some true \/
               Agentless.isServerlessEnabled c = Some true) in
  (Agentless.isAgentlessAgentPolicy cloud config agentPolicy = true <->
   onPlatform /\ Agentless.agentless config = Some (Some true) /\
   exists p, agentPolicy = Some p /\ Agentless.supports_agentless p = Some true) /\
  (Agentless.isAgentlessIntegration isAgentlessIntegrationFn cloud config packageInfo = true <->
   onPlatform /\ Agentless.agentless config = Some (Some true) /\
   isAgentlessIntegrationFn packageInfo = true).
Proof.
  cbv zeta.
  unfold Agentless.isAgentlessAgentPolicy, Agentless.isAgentlessIntegration,
         Agentless.isAgentlessEnabled, Agentless.truthyFlag.
  destruct cloud as [[[[|] |] [[|] |]] |];
    destruct (Agentless.agentless config) as [[[|] |] |];
    destruct agentPolicy as [[n [[|] |] rs] |];
    destruct (isAgentlessIntegrationFn packageInfo);
    cbn; split; split; intros H;
    repeat match goal with
           | H : _ /\ _ |- _ => destruct H
           | H : exists _, _ |- _ => destruct H
           | H : _ \/ _ |- _ => destruct H
           | H : Some _ = Some _ |- _ => injection H as H
           end;
    subst; cbn in *; try discriminate; try reflexivity;
    repeat split; try reflexivity;
    try (eexists; split; [reflexivity |]; cbn; auto; fail).
Qed.

Section SetupTechnology.

Variable gen : string -> string.

Lemma step_disabled (props : Agentless.Props) (a : Agentless.Action) (st : Agentless.State) :
  Agentless.agentlessEnabled props = false ->
  Agentless.calls (Agentless.step gen props a st) = Agentless.calls st /\
  Agentless.newAgentlessPolicy (Agentless.step gen props a st) =
    Agentless.newAgentlessPolicy st /\
  (Agentless.editsAgentless props = false ->
   Agentless.selectedSetupTechnology (Agentless.step gen props a st) =
   Agentless.selectedSetupTechnology st).
Proof.
  intros Hoff. destruct a; cbn [Agentless.step];
    unfold Agentless.effect, Agentless.handleSetupTechnologyChange; rewrite Hoff; cbn.
  - destruct (Agentless.editsAgentless props); cbn; repeat split; congruence.
  - repeat split.
Qed.

(** X16. While agentless is not enabled, [useSetupTechnology] never calls
    its parent and never changes the agentless draft, whatever effects run
    and whatever technology is asked for; and outside the edit page of an
    agentless policy the selected technology does not change either. *)
Theorem disabled_is_inert
        (tr : list (Agentless.Props * Agentless.Action)) (st : Agentless.State) :
  Forall (fun pa => Agentless.agentlessEnabled (fst pa) = false) tr ->
  Agentless.calls (Agentless.run gen tr st) = Agentless.calls st /\
  Agentless.newAgentlessPolicy (Agentless.run gen tr st) = Agentless.newAgentlessPolicy st /\
  (Forall (fun pa => Agentless.editsAgentless (fst pa) = false) tr ->
   Agentless.selectedSetupTechnology (Agentless.run gen tr st) =
   Agentless.selectedSetupTechnology st).
Proof.
  intros Hoff. revert st.
  induction Hoff as [| [props a] tr Hhead Hoff IH]; intros st; cbn [Agentless.run].
  - repeat split.
  - destruct (step_disabled props a st Hhead) as [Hc [Hd Hs]].
    destruct (IH (Agentless.step gen props a st)) as [Hc' [Hd' Hs']].
    split; [congruence |]. split; [congruence |].
    intros Hedit. inversion Hedit as [| ? ? He Hes]; subst.
    rewrite (Hs' Hes). now apply Hs.
Qed.

Lemma agentless_run_app (before after : list (Agentless.Props * Agentless.Action))
      (st : Agentless.State) :
  Agentless.run gen (before ++ after) st =
  Agentless.run gen after (Agentless.run gen before st).
Proof.
  revert st. induction before as [| [props a] before IH]; intros st; cbn;
    [reflexivity | apply IH].
Qed.

(** Run once or more often in a row, the effect does what it does once,
    when the generated name is not empty. *)
Lemma effect_repeated (props : Agentless.Props) (n : nat) (st : Agentless.State) :
  gen (Agentless.packagePolicyName props) <> "" ->
  Agentless.run gen (repeat (props, Agentless.RunEffect) (S n)) st =
  Agentless.effect gen props st.
Proof.
  intros Hname.
  assert (Hagain : forall st0,
    Agentless.effect gen props (Agentless.effect gen props st0) =
    Agentless.effect gen props st0).
  { intros st0. pose proof (eqb_neq_false Hname) as Hn.
    unfold Agentless.effect.
    destruct (Agentless.editsAgentless props); [reflexivity |].
    destruct (Agentless.agentlessEnabled props); [| reflexivity].
    cbn [andb]. cbv zeta. cbn [Agentless.name].
    destruct (Agentless.sameTechnology (Agentless.selectedSetupTechnology st0)
                                       Agentless.AGENTLESS) eqn:Hsel; [| now rewrite Hsel].
    destruct (String.eqb (Agentless.name (Agentless.newAgentlessPolicy st0)) "" ||
              negb (String.eqb (gen (Agentless.packagePolicyName props))
                               (Agentless.name (Agentless.newAgentlessPolicy st0)))) eqn:Hupd.
    - cbn -[Agentless.sameTechnology String.eqb].
      rewrite Hsel, Hn, String.eqb_refl. reflexivity.
    - rewrite Hsel. now rewrite Hupd. }
  revert st. induction n as [| n IH]; intros st; [reflexivity |].
  change (repeat (props, Agentless.RunEffect) (S (S n)))
    with ((props, Agentless.RunEffect) :: repeat (props, Agentless.RunEffect) (S n)).
  cbn [Agentless.run Agentless.step]. rewrite IH. apply Hagain.
Qed.

(** X17. Switching to agentless and back, with the effect running after
    each switch (once or more often, as its dependencies change).  With
    agentless enabled, outside the edit page of an agentless policy, a
    generated name that is not empty and the agent-based technology
    selected: in the end agent-based is selected again, the ref still holds
    the policy the hook was mounted with, and the draft is kept under the
    generated name.  The parent got the draft on the first switch, the
    renamed draft from the effect if the name had to change, and last the
    mounted agent-based policy, with [supports_agentless] false in
    [setNewAgentPolicy] and as it is in [updateAgentPolicies]. *)
Theorem switch_and_back (props : Agentless.Props) (n m : nat) (st : Agentless.State) :
  Agentless.agentlessEnabled props = true ->
  Agentless.editsAgentless props = false ->
  gen (Agentless.packagePolicyName props) <> "" ->
  Agentless.selectedSetupTechnology st = Agentless.AGENT_BASED ->
  let draft := Agentless.newAgentlessPolicy st in
  let named := Agentless.mkPolicy (gen (Agentless.packagePolicyName props))
                                  (Agentless.supports_agentless draft)
                                  (Agentless.rest draft) in
  let renamed :=
    if String.eqb (Agentless.name draft) "" ||
       negb (String.eqb (gen (Agentless.packagePolicyName props)) (Agentless.name draft))
    then [ Agentless.setNewAgentPolicy named; Agentless.updateAgentPolicies [named] ]
    else [] in
  let st' :=
    Agentless.run gen
      ([(props, Agentless.Change Agentless.AGENTLESS)] ++
       repeat (props, Agentless.RunEffect) (S n) ++
       [(props, Agentless.Change Agentless.AGENT_BASED)] ++
       repeat (props, Agentless.RunEffect) (S m)) st in
  Agentless.selectedSetupTechnology st' = Agentless.AGENT_BASED /\
  Agentless.newAgentlessPolicy st' = named /\
  Agentless.newAgentBasedPolicy st' = Agentless.newAgentBasedPolicy st /\
  Agentless.calls st' =
    Agentless.calls st ++
    [ Agentless.setNewAgentPolicy draft;
      Agentless.setSelectedPolicyTab Agentless.NEW;
      Agentless.updateAgentPolicies [draft] ] ++
    renamed ++
    [ Agentless.setNewAgentPolicy
        (Agentless.mkPolicy (Agentless.name (Agentless.newAgentBasedPolicy st)) (Some false)
                            (Agentless.rest (Agentless.newAgentBasedPolicy st)));
      Agentless.setSelectedPolicyTab Agentless.NEW;
      Agentless.updateAgentPolicies [Agentless.newAgentBasedPolicy st] ].
Proof.
  intros Hon Hedit Hname Hsel. cbv zeta.
  rewrite !agentless_run_app, !effect_repeated by exact Hname.
  cbn [Agentless.run Agentless.step].
  set (st1 := Agentless.handleSetupTechnologyChange props Agentless.AGENTLESS st).
  assert (H1 : st1 = Agentless.mkState Agentless.AGENTLESS (Agentless.newAgentlessPolicy st)
                       (Agentless.newAgentBasedPolicy st)
                       (Agentless.calls st ++
                        [ Agentless.setNewAgentPolicy (Agentless.newAgentlessPolicy st);
                          Agentless.setSelectedPolicyTab Agentless.NEW;
                          Agentless.updateAgentPolicies [Agentless.newAgentlessPolicy st] ])).
  { unfold st1, Agentless.handleSetupTechnologyChange. rewrite Hon, Hsel. reflexivity. }
  assert (H2 : Agentless.effect gen props st1 =
               if String.eqb (Agentless.name (Agentless.newAgentlessPolicy st)) "" ||
                  negb (String.eqb (gen (Agentless.packagePolicyName props))
                                   (Agentless.name (Agentless.newAgentlessPolicy st)))
               then Agentless.mkState Agentless.AGENTLESS
                      (Agentless.mkPolicy (gen (Agentless.packagePolicyName props))
                         (Agentless.supports_agentless (Agentless.newAgentlessPolicy st))
                         (Agentless.rest (Agentless.newAgentlessPolicy st)))
                      (Agentless.newAgentBasedPolicy st)
                      (Agentless.calls st1 ++
                       [ Agentless.setNewAgentPolicy
                           (Agentless.mkPolicy (gen (Agentless.packagePolicyName props))
                              (Agentless.supports_agentless (Agentless.newAgentlessPolicy st))
                              (Agentless.rest (Agentless.newAgentlessPolicy st)));
                         Agentless.updateAgentPolicies
                           [Agentless.mkPolicy (gen (Agentless.packagePolicyName props))
                              (Agentless.supports_agentless (Agentless.newAgentlessPolicy st))
                              (Agentless.rest (Agentless.newAgentlessPolicy st))] ])
               else st1).
  { unfold Agentless.effect. rewrite Hedit, Hon, H1. reflexivity. }
  rewrite H2. clear H2.
  assert (Hback : forall draft called,
            Agentless.effect gen props
              (Agentless.handleSetupTechnologyChange props Agentless.AGENT_BASED
                 (Agentless.mkState Agentless.AGENTLESS draft
                    (Agentless.newAgentBasedPolicy st) called)) =
            Agentless.mkState Agentless.AGENT_BASED draft (Agentless.newAgentBasedPolicy st)
              (called ++
               [ Agentless.setNewAgentPolicy
                   (Agentless.mkPolicy (Agentless.name (Agentless.newAgentBasedPolicy st))
                      (Some false) (Agentless.rest (Agentless.newAgentBasedPolicy st)));
                 Agentless.setSelectedPolicyTab Agentless.NEW;
                 Agentless.updateAgentPolicies [Agentless.newAgentBasedPolicy st] ])).
  { intros draft called.
    unfold Agentless.handleSetupTechnologyChange, Agentless.effect.
    rewrite Hon, Hedit. reflexivity. }
  rewrite H1.
  destruct (String.eqb (Agentless.name (Agentless.newAgentlessPolicy st)) "" ||
            negb (String.eqb (gen (Agentless.packagePolicyName props))
                             (Agentless.name (Agentless.newAgentlessPolicy st)))) eqn:Hupd;
    rewrite Hback;
    cbn [Agentless.selectedSetupTechnology Agentless.newAgentlessPolicy
         Agentless.newAgentBasedPolicy Agentless.calls].
  - rewrite <- !app_assoc. repeat split.
  - apply orb_false_iff in Hupd. destruct Hupd as [_ Hsame].
    apply negb_false_iff, String.eqb_eq in Hsame.
    rewrite Hsame.
    destruct (Agentless.newAgentlessPolicy st) as [nm sa rs]. cbn.
    rewrite <- !app_assoc. repeat split.
Qed.

(** X18. The effect of [useSetupTechnology] settles after one run when the
    name generated for the agentless policy is not empty: running it again
    with the same parameters changes no state and calls nothing. *)
Theorem effect_settles (props : Agentless.Props) (st : Agentless.State) :
  gen (Agentless.packagePolicyName props) <> "" ->
  Agentless.effect gen props (Agentless.effect gen props st) = Agentless.effect gen props st.
Proof.
  intros Hname. apply eqb_neq_false in Hname.
  unfold Agentless.effect.
  destruct (Agentless.editsAgentless props); [reflexivity |].
  destruct (Agentless.agentlessEnabled props); [| reflexivity].
  cbn [andb]. cbv zeta. cbn [Agentless.name].
  destruct (Agentless.sameTechnology (Agentless.selectedSetupTechnology st) Agentless.AGENTLESS)
    eqn:Hsel; [| now rewrite Hsel].
  destruct (String.eqb (Agentless.name (Agentless.newAgentlessPolicy st)) "" ||
            negb (String.eqb (gen (Agentless.packagePolicyName props))
                             (Agentless.name (Agentless.newAgentlessPolicy st)))) eqn:Hupd.
  - cbn -[Agentless.sameTechnology String.eqb].
    rewrite Hsel, Hname, String.eqb_refl. reflexivity.
  - rewrite Hsel. now rewrite Hupd.
Qed.


Lemma step_members (props : Agentless.Props) (a : Agentless.Action) (st : Agentless.State) :
  let st' := Agentless.step gen props a st in
  Agentless.newAgentBasedPolicy st' = Agentless.newAgentBasedPolicy st /\
  Agentless.supports_agentless (Agentless.newAgentlessPolicy st') =
    Agentless.supports_agentless (Agentless.newAgentlessPolicy st) /\
  Agentless.rest (Agentless.newAgentlessPolicy st') =
    Agentless.rest (Agentless.newAgentlessPolicy st).
Proof.
  cbv zeta. destruct a; cbn [Agentless.step];
    unfold Agentless.effect, Agentless.handleSetupTechnologyChange;
    repeat match goal with
           | |- context [if ?b then _ else _] => destruct b
           end; cbn; repeat split.
Qed.

(** X19. Over any run of [useSetupTechnology] the agent-based policy the
    hook was mounted with is kept as it is, and the agentless draft keeps
    [supports_agentless] and every member other than its name. *)
Theorem drafts_keep_members
        (tr : list (Agentless.Props * Agentless.Action)) (st : Agentless.State) :
  let st' := Agentless.run gen tr st in
  Agentless.newAgentBasedPolicy st' = Agentless.newAgentBasedPolicy st /\
  Agentless.supports_agentless (Agentless.newAgentlessPolicy st') =
    Agentless.supports_agentless (Agentless.newAgentlessPolicy st) /\
  Agentless.rest (Agentless.newAgentlessPolicy st') =
    Agentless.rest (Agentless.newAgentlessPolicy st).
Proof.
  cbv zeta. revert st.
  induction tr as [| [props a] tr IH]; intros st; cbn [Agentless.run]; [repeat split |].
  destruct (IH (Agentless.step gen props a st)) as [H1 [H2 H3]].
  destruct (step_members props a st) as [G1 [G2 G3]]. cbv zeta in G1, G2, G3.
  repeat split; congruence.
Qed.

End SetupTechnology.

(* ------------------------------------------------------------------ *)
(** ** The usage metrics query *)

Lemma lookup_define (k k' : string) (m : UsageMetrics.Member)
      (o : list (string * UsageMetrics.Member)) :
  UsageMetrics.lookup k (UsageMetrics.define k' m o) =
  if String.eqb k k' then Some m else UsageMetrics.lookup k o.
Proof.
  induction o as [| [k0 m0] o IH]; cbn.
  - destruct (String.eqb k k'); reflexivity.
  - destruct (String.eqb k' k0) eqn:Hk0; cbn.
    + apply String.eqb_eq in Hk0. subst k0.
      destruct (String.eqb k k'); reflexivity.
    + rewrite IH. destruct (String.eqb k k0) eqn:Hkk0; [| reflexivity].
      apply String.eqb_eq in Hkk0. subst k0.
      rewrite String.eqb_sym in Hk0. now rewrite Hk0.
Qed.

Lemma lookup_spread (k : string) (src o : list (string * UsageMetrics.Member)) :
  NoDup (map fst src) ->
  UsageMetrics.lookup k (UsageMetrics.spread o src) =
  match UsageMetrics.lookup k src with
  | Some m => Some m
  | None => UsageMetrics.lookup k o
  end.
Proof.
  unfold UsageMetrics.spread. revert o.
  induction src as [| [k0 m0] src IH]; intros o Hnd; cbn; [reflexivity |].
  inversion Hnd as [| ? ? Hfresh Hrest]; subst.
  rewrite (IH _ Hrest). cbn [fst snd].
  destruct (UsageMetrics.lookup k src) as [m |] eqn:Hsrc.
  - destruct (String.eqb k k0) eqn:Hk; [| reflexivity].
    apply String.eqb_eq in Hk. subst k0. exfalso. apply Hfresh.
    clear - Hsrc. induction src as [| [k1 m1] src IH]; [discriminate |].
    cbn in Hsrc |- *. destruct (String.eqb k k1) eqn:Hk1.
    + left. apply String.eqb_eq in Hk1. now subst.
    + right. now apply IH.
  - rewrite lookup_define. destruct (String.eqb k k0); reflexivity.
Qed.

(** X20. What a caller of [useGetDataUsageMetrics] can and cannot set
    through [options] (an object, no key twice): [keepPreviousData] is always
    [true] and the query function is always the hook's own, whatever the
    options say; a [queryKey] in the options replaces the default key; every
    other option is passed on. *)
Theorem query_options (body : value) (options : list (string * UsageMetrics.Member)) :
  NoDup (map fst options) ->
  let given := UsageMetrics.queryOptions body options in
  UsageMetrics.lookup "keepPreviousData" given = Some (UsageMetrics.Data (VBool true)) /\
  UsageMetrics.lookup "queryFn" given = Some (UsageMetrics.OwnQueryFn body) /\
  UsageMetrics.lookup "queryKey" given =
    match UsageMetrics.lookup "queryKey" options with
    | Some key => Some key
    | None => Some (UsageMetrics.Data (VArr [VStr "get-data-usage-metrics"; body]))
    end /\
  (forall k, k <> "keepPreviousData" -> k <> "queryFn" -> k <> "queryKey" ->
             UsageMetrics.lookup k given = UsageMetrics.lookup k options).
Proof.
  intros Hnd. cbv zeta. unfold UsageMetrics.queryOptions.
  repeat split.
  - rewrite !lookup_define. reflexivity.
  - rewrite !lookup_define. reflexivity.
  - rewrite !lookup_define, (lookup_spread _ _ _ Hnd). cbn.
    destruct (UsageMetrics.lookup "queryKey" options); reflexivity.
  - intros k H1 H2 H3. rewrite !lookup_define, (lookup_spread _ _ _ Hnd).
    rewrite (eqb_neq_false H1), (eqb_neq_false H2). cbn.
    rewrite (eqb_neq_false H3).
    destruct (UsageMetrics.lookup k options); reflexivity.
Qed.

(* ------------------------------------------------------------------ *)
(** ** The order of cancelling and searching *)

(** X22. Outside the page-change branch a call of [timelineSearch] that got
    past its first test unsubscribes the held subscription and aborts the
    held controller before it calls the search service, and the search gets
    a new controller and a new subscription, which the refs hold afterwards
    together with the request as the previous request. *)
Theorem search_after_cancel
        (X : Externals.t) (env : Env.t) (r : Request.t) (h : option nat) (w : World.t) :
  Env.pageName env <> "" ->
  Env.skip env = false ->
  pageChanged X env w = false ->
  let w' := timelineSearch X env (Some r) h w in
  logOf w' = logOf w ++
             [ Unsubscribe (Hook.searchSubscription (World.hook w));
               Abort (Hook.abortCtrl (World.hook w));
               StartTracking (Externals.APP_UI_ID X ++ " timeline events search");
               Search r (strategyOf r) (Services.nextController (World.services w))
                      (Env.dataViewId env) (Services.nextSubscription (World.services w)) ] /\
  Hook.abortCtrl (World.hook w') = Services.nextController (World.services w) /\
  Hook.searchSubscription (World.hook w') = Services.nextSubscription (World.services w) /\
  Hook.prevTimelineRequest (World.hook w') = Some r.
Proof.
  intros Hpage Hskip Hchanged. cbv zeta. unfold timelineSearch.
  rewrite (eqb_neq_false Hpage), Hskip, Hchanged. cbn [orb]. cbv zeta.
  split; [apply cancelAndSearch_log |].
  operations. branches; repeat split.
Qed.

(* ------------------------------------------------------------------ *)
(** ** More instances *)

Lemma first_derivation_instance :
  let w := mount exampleExternals (activeEnv "alerts") pagedCache in
  let w' := deriveRequest exampleExternals (activeEnv "alerts") w in
  Hook.activePage (World.hook w) = 3 /\
  exists r,
    Hook.timelineRequest (World.hook w') = Some r /\
    Pagination.activePage (Request.pagination r) = 0 /\
    Request.fieldRequested r = Env.fields (activeEnv "alerts") /\
    Hook.activePage (World.hook w') = 0 /\
    (isActiveId exampleExternals (Env.id (activeEnv "alerts")) = true ->
     Hook.activePage (World.hook w) <> 0 ->
     ActiveTimeline.getActivePage (World.cache w') = 0).
Proof.
  split; [reflexivity |].
  apply (first_derivation exampleExternals (activeEnv "alerts")
           (mount exampleExternals (activeEnv "alerts") pagedCache)).
  - discriminate.
  - reflexivity.
Defined.

Lemma page_change_is_consumed_instance :
  pageChanged exampleExternals (activeEnv "hosts")
              (mount exampleExternals (activeEnv "hosts") visitedCache) = true /\
  pageChanged exampleExternals (activeEnv "hosts")
              (timelineSearch exampleExternals (activeEnv "hosts") (Some activeRequest) None
                 (mount exampleExternals (activeEnv "hosts") visitedCache)) = false.
Proof.
  split; [reflexivity |].
  apply (page_change_is_consumed exampleExternals (activeEnv "hosts") activeRequest None
           (mount exampleExternals (activeEnv "hosts") visitedCache)).
  - discriminate.
  - reflexivity.
Defined.

Lemma next_notification_instance :
  subscriber 1 searching = Some firstSearch /\
  Hook.loading (World.hook (step exampleExternals alertsEnv
                                 (NotifyNext 1 finalResponse 1704153600000) searching)) = loaded.
Proof.
  split; [reflexivity |].
  exact (proj1 (proj2 (next_notification exampleExternals alertsEnv 1 finalResponse
                         1704153600000 searching firstSearch eq_refl) eq_refl)).
Defined.

Lemma cache_round_trip_instance :
  let w1 := onNext exampleExternals activeSearch finalResponse 1704153600000 activeSearching in
  let w2 := timelineSearch exampleExternals (activeEnv "hosts") (Some activeRequest) None w1 in
  Hook.timelineResponse (World.hook w2) =
    rebind "timeline-1" (Hook.timelineResponse (World.hook w1)) /\
  logOf w2 = logOf w1 ++ [Abort 1%nat].
Proof.
  destruct (cache_round_trip exampleExternals (activeEnv "hosts") activeSearch finalResponse
              1704153600000 activeRequest None activeSearching)
    as [Hresp [_ [_ [_ [_ Hlog]]]]];
    try reflexivity; try discriminate.
  split; [exact Hresp | exact Hlog].
Defined.

Lemma refetch_after_search_instance :
  let w1 := timelineSearch exampleExternals alertsEnv (Some firstRequest) None
              (mount exampleExternals alertsEnv ActiveTimeline.empty) in
  Hook.activePage (World.hook (refetchGrid exampleExternals alertsEnv w1)) = 0 /\
  Hook.prevTimelineRequest (World.hook (refetchGrid exampleExternals alertsEnv w1)) =
    Some firstRequest.
Proof.
  destruct (refetch_after_search exampleExternals alertsEnv firstRequest None
              (mount exampleExternals alertsEnv ActiveTimeline.empty))
    as [Hpage [Hprev _]]; [discriminate | reflexivity |].
  split; [exact Hpage | exact Hprev].
Defined.

Lemma active_page_mirrored_instance :
  Hook.activePage
    (World.hook (run exampleExternals activeRun
                     (mount exampleExternals (activeEnv "alerts") pagedCache))) = 2 /\
  pageMirrored (run exampleExternals activeRun
                    (mount exampleExternals (activeEnv "alerts") pagedCache)).
Proof.
  split; [reflexivity |].
  apply (active_page_mirrored exampleExternals activeRun (activeEnv "alerts") pagedCache).
  - reflexivity.
  - repeat constructor.
Defined.

Lemma other_identity_keeps_cache_instance :
  World.cache (run exampleExternals tableRun (mount exampleExternals alertsEnv visitedCache)) =
  visitedCache.
Proof.
  apply (other_identity_keeps_cache exampleExternals tableRun alertsEnv visitedCache).
  repeat constructor.
Defined.

Lemma deriveRequest_idempotent_instance :
  deriveRequest exampleExternals alertsEnv (deriveRequest exampleExternals alertsEnv afterLoadPage3) =
  deriveRequest exampleExternals alertsEnv afterLoadPage3.
Proof.
  apply (deriveRequest_idempotent exampleExternals alertsEnv afterLoadPage3);
    try reflexivity.
  constructor.
Defined.

Lemma loadPage_then_derive_instance :
  let w' := deriveRequest exampleExternals alertsEnv
              (wrappedLoadPage exampleExternals alertsEnv 2 searching) in
  Hook.activePage (World.hook w') = 2 /\
  exists r,
    Hook.timelineRequest (World.hook w') = Some r /\
    Pagination.activePage (Request.pagination r) = 2 /\
    Request.fieldRequested r =
      Request.fieldRequested (currentRequest exampleExternals alertsEnv None 0).
Proof.
  apply (loadPage_then_derive exampleExternals alertsEnv None 0 2 searching);
    try reflexivity; try discriminate.
  constructor.
Defined.

Lemma handler_idempotent_instance :
  logOf (timelineSearchHandler exampleExternals (activeEnv "alerts") None activeDerived) <> [] /\
  timelineSearchHandler exampleExternals (activeEnv "alerts") None
    (timelineSearchHandler exampleExternals (activeEnv "alerts") None activeDerived) =
  timelineSearchHandler exampleExternals (activeEnv "alerts") None activeDerived.
Proof.
  split; [discriminate |].
  apply (handler_idempotent exampleExternals (activeEnv "alerts") None None activeDerived);
    try reflexivity; discriminate.
Defined.

Lemma disabled_is_inert_instance :
  let st := Agentless.run agentlessName
              [ (disabledProps, Agentless.Change Agentless.AGENTLESS);
                (disabledProps, Agentless.RunEffect) ]
              (Agentless.mount agentBasedPolicy generatedPolicy) in
  Agentless.calls st = [] /\
  Agentless.selectedSetupTechnology st = Agentless.AGENT_BASED.
Proof.
  destruct (disabled_is_inert agentlessName
              [ (disabledProps, Agentless.Change Agentless.AGENTLESS);
                (disabledProps, Agentless.RunEffect) ]
              (Agentless.mount agentBasedPolicy generatedPolicy))
    as [Hcalls [_ Hsel]]; [repeat constructor |].
  split; [exact Hcalls |]. apply Hsel. repeat constructor.
Defined.

Lemma switch_and_back_instance :
  let st' :=
    Agentless.run agentlessName
      ([(enabledProps, Agentless.Change Agentless.AGENTLESS)] ++
       repeat (enabledProps, Agentless.RunEffect) 2 ++
       [(enabledProps, Agentless.Change Agentless.AGENT_BASED)] ++
       repeat (enabledProps, Agentless.RunEffect) 1)
      (Agentless.mount agentBasedPolicy generatedPolicy) in
  Agentless.selectedSetupTechnology st' = Agentless.AGENT_BASED /\
  Agentless.name (Agentless.newAgentlessPolicy st') = "Agentless policy for cspm-1" /\
  List.length (Agentless.calls st') = 8%nat.
Proof.
  cbv zeta.
  destruct (switch_and_back agentlessName enabledProps 1 0
              (Agentless.mount agentBasedPolicy generatedPolicy)
              eq_refl eq_refl ltac:(discriminate) eq_refl)
    as [Hsel [Hdraft [_ Hcalls]]].
  split; [exact Hsel |].
  split; [rewrite Hdraft; reflexivity | rewrite Hcalls; reflexivity].
Defined.

Lemma effect_settles_instance :
  let st := Agentless.handleSetupTechnologyChange enabledProps Agentless.AGENTLESS
              (Agentless.mount agentBasedPolicy generatedPolicy) in
  Agentless.name (Agentless.newAgentlessPolicy (Agentless.effect agentlessName enabledProps st)) =
    "Agentless policy for cspm-1" /\
  Agentless.effect agentlessName enabledProps (Agentless.effect agentlessName enabledProps st) =
  Agentless.effect agentlessName enabledProps st.
Proof.
  split; [reflexivity |].
  apply (effect_settles agentlessName enabledProps). discriminate.
Defined.

Lemma query_options_instance :
  UsageMetrics.lookup "keepPreviousData"
    (UsageMetrics.queryOptions (VObj []) callerOptions) =
  Some (UsageMetrics.Data (VBool true)).
Proof.
  refine (proj1 (query_options (VObj []) callerOptions _)).
  repeat constructor; cbn; intuition discriminate.
Defined.

Lemma at_most_one_without_refetch_instance :
  noRefetch tableRun /\
  (List.length (openSubscriptions
                  (run exampleExternals tableRun
                       (mount exampleExternals alertsEnv ActiveTimeline.empty))) <= 1)%nat.
Proof.
  assert (H : noRefetch tableRun) by (repeat constructor; discriminate).
  split; [exact H |].
  exact (@at_most_one_without_refetch exampleExternals tableRun alertsEnv
           ActiveTimeline.empty H).
Defined.

Lemma search_after_cancel_instance :
  let w' := timelineSearch exampleExternals alertsEnv (Some firstRequest) None searching in
  Hook.abortCtrl (World.hook w') = 2%nat /\
  Hook.searchSubscription (World.hook w') = 2%nat.
Proof.
  destruct (search_after_cancel exampleExternals alertsEnv firstRequest None searching)
    as [_ [Hctrl [Hsub _]]]; [discriminate | reflexivity | reflexivity |].
  split; [exact Hctrl | exact Hsub].
Defined.

